(** * HP-Rotulagem: feature derivation and heuristic labelling (src/app.py)

    A shallow embedding of the four processing steps of [app.py]
    ([clean_price_column], [create_seller_trust_level],
    [create_price_features], [create_heuristic_label]) and of the rule
    cascade [apply_rules], with the properties of the specification proved
    or refuted on it.

    Numbers are IEEE-754 binary64 values, taken from the Standard Library's
    executable specification [SpecFloat]; text is a list of Unicode code
    points; a cell of a table is a dynamically typed Python value. *)

From Stdlib Require Import ZArith NArith PArith List String Ascii Bool Lia.
From Stdlib Require Import Floats.SpecFloat.
Import ListNotations.

Open Scope Z_scope.

(* ================================================================= *)
(** ** Binary64 numbers *)

Module F64.

Definition prec : Z := 53.
Definition emax : Z := 1024.

Definition float : Type := spec_float.

Definition nan : float := S754_nan.
Definition zero : float := S754_zero false.

(** The float nearest to an integer (exact below 2^53). *)
Definition of_Z (z : Z) : float := binary_normalize prec emax z 0 false.

(** The float nearest to the fraction [n/d]: what a decimal literal such
    as [0.40] (= 40/100) denotes. *)
Definition ratio (n d : positive) : float :=
  SFdiv prec emax (S754_finite false n 0) (S754_finite false d 0).

Definition opp : float -> float := SFopp.
Definition add : float -> float -> float := SFadd prec emax.
Definition sub : float -> float -> float := SFsub prec emax.
Definition div : float -> float -> float := SFdiv prec emax.

Definition ltb : float -> float -> bool := SFltb.
Definition leb : float -> float -> bool := SFleb.
Definition eqb : float -> float -> bool := SFeqb.

Definition is_nan (f : float) : bool :=
  match f with S754_nan => true | _ => false end.

Definition is_inf (f : float) : bool :=
  match f with S754_infinity _ => true | _ => false end.

Definition is_finite (f : float) : bool :=
  match f with
  | S754_zero _ | S754_finite _ _ _ => true
  | S754_infinity _ | S754_nan => false
  end.

(** Exact comparison of an integer with a float (Python compares an [int]
    with a [float] without rounding the integer). *)
Definition Zcompare (z : Z) (f : float) : option comparison :=
  match f with
  | S754_nan => None
  | S754_infinity s => Some (if s then Gt else Lt)
  | S754_zero _ => Some (z ?= 0)
  | S754_finite s m e =>
      let v := if s then Z.neg m else Z.pos m in
      Some (if 0 <=? e then z ?= v * 2 ^ e else z * 2 ^ (- e) ?= v)
  end.

End F64.

Abbreviation float := F64.float.

(* ================================================================= *)
(** ** Text *)

(** A Python [str]: a sequence of code points. *)
Definition pystr : Type := list N.

(** An ASCII literal as a [pystr]. *)
Definition lit (s : string) : pystr :=
  map N_of_ascii (list_ascii_of_string s).

Fixpoint pystr_eqb (a b : pystr) : bool :=
  match a, b with
  | [], [] => true
  | x :: a', y :: b' => N.eqb x y && pystr_eqb a' b'
  | _, _ => false
  end.

(** [s in [a, b, ...]] *)
Definition str_in (s : pystr) (l : list pystr) : bool :=
  existsb (pystr_eqb s) l.

(** Whitespace as [str.strip()] and the pattern [\s] see it. *)
Definition is_space (c : N) : bool :=
  ((9 <=? c) && (c <=? 13) || (28 <=? c) && (c <=? 32)
   || (c =? 133) || (c =? 160) || (c =? 5760)
   || (8192 <=? c) && (c <=? 8202)
   || (c =? 8232) || (c =? 8233) || (c =? 8239) || (c =? 8287)
   || (c =? 12288))%N.

Fixpoint lstrip (s : pystr) : pystr :=
  match s with
  | c :: t => if is_space c then lstrip t else s
  | [] => []
  end.

Definition rstrip (s : pystr) : pystr := rev (lstrip (rev s)).

(** [s.strip()] *)
Definition strip (s : pystr) : pystr := rstrip (lstrip s).

(** Decimal rendering of an integer, [str(z)]. *)
Fixpoint digits_of_pos (fuel : nat) (p : N) (acc : pystr) : pystr :=
  match fuel with
  | O => acc
  | S fuel' =>
      let acc' := (48 + p mod 10)%N :: acc in
      if (p <? 10)%N then acc' else digits_of_pos fuel' (p / 10)%N acc'
  end.

Definition str_of_N (n : N) : pystr :=
  digits_of_pos (S (N.to_nat (N.log2 n))) n [].

Definition str_of_Z (z : Z) : pystr :=
  match z with
  | Z0 => lit "0"
  | Zpos p => str_of_N (Npos p)
  | Zneg p => 45%N :: str_of_N (Npos p)
  end.

(* ================================================================= *)
(** ** Python values and exceptions *)

(** What a cell of a [DataFrame] row can hold. [VNone] is [None];
    a missing number is [VFloat nan]. *)
Inductive value : Type :=
| VNone
| VInt (z : Z)
| VFloat (f : float)
| VStr (s : pystr).

Inductive exn : Type := TypeError | KeyError | ValueError.

Inductive result (A : Type) : Type :=
| Ok (a : A)
| Raise (e : exn).
Arguments Ok {A} a.
Arguments Raise {A} e.

Definition bind {A B : Type} (m : result A) (k : A -> result B) : result B :=
  match m with
  | Ok a => k a
  | Raise e => Raise e
  end.

Notation "x <- m ;; k" := (bind m (fun x => k))
  (at level 61, m at next level, right associativity).

(** [if c: a else: b] on a condition whose evaluation may raise. *)
Definition cond {A : Type} (c : result bool) (a b : result A) : result A :=
  t <- c ;; if t then a else b.

(** [p and q]: [q] is evaluated only when [p] holds. *)
Definition and_then (p : bool) (q : result bool) : result bool :=
  if p then q else Ok false.

(** [pd.notna(v)] on a scalar. *)
Definition notna (v : value) : bool :=
  match v with
  | VNone => false
  | VFloat f => negb (F64.is_nan f)
  | VInt _ | VStr _ => true
  end.

(** [v < c] for a float constant [c]. *)
Definition py_lt (v : value) (c : float) : result bool :=
  match v with
  | VFloat f => Ok (F64.ltb f c)
  | VInt z => Ok (match F64.Zcompare z c with Some Lt => true | _ => false end)
  | VStr _ | VNone => Raise TypeError
  end.

(** [v >= c] for a float constant [c]. *)
Definition py_ge (v : value) (c : float) : result bool :=
  match v with
  | VFloat f => Ok (F64.leb c f)
  | VInt z =>
      Ok (match F64.Zcompare z c with Some (Gt | Eq) => true | _ => false end)
  | VStr _ | VNone => Raise TypeError
  end.

(** [v == k] for an integer constant [k]; never raises. *)
Definition py_eq_int (v : value) (k : Z) : bool :=
  match v with
  | VInt z => z =? k
  | VFloat f => F64.eqb f (F64.of_Z k)
  | VStr _ | VNone => false
  end.

(* ================================================================= *)
(** ** Constants of the module *)

Definition MAX_PLAUSIBLE_PRICE_INDIVIDUAL : float :=
  Eval vm_compute in F64.of_Z 20000.
Definition MAX_PLAUSIBLE_PRICE_AVERAGE : float :=
  Eval vm_compute in F64.of_Z 5000.

Definition DEFAULT_SELLER_TRUST : Z := 1.

(** The literals of [apply_rules]: [-0.20], [-0.30], [-0.40], [-0.50],
    [-0.60] and [2.5]. *)
Definition m0_20 : float := Eval vm_compute in F64.opp (F64.ratio 20 100).
Definition m0_30 : float := Eval vm_compute in F64.opp (F64.ratio 30 100).
Definition m0_40 : float := Eval vm_compute in F64.opp (F64.ratio 40 100).
Definition m0_50 : float := Eval vm_compute in F64.opp (F64.ratio 50 100).
Definition m0_60 : float := Eval vm_compute in F64.opp (F64.ratio 60 100).
Definition p2_5 : float := Eval vm_compute in F64.ratio 25 10.

(** Code points outside ASCII used by the literals. *)
Definition i_acute : N := 237.   (* U+00ED *)
Definition a_tilde : N := 227.   (* U+00E3 *)
Definition C_cedilla : N := 199. (* U+00C7 *)

Definition s_compativel_claim : pystr := lit "compat" ++ i_acute :: lit "vel".
Definition s_nao_original : pystr := lit "n" ++ a_tilde :: lit "o original".
Definition s_genuino : pystr := lit "genu" ++ i_acute :: lit "no".

Definition not_original_claims : list pystr :=
  [lit "falso"; s_nao_original; lit "pirata"; lit "suspeito"; lit "alternativo"].
Definition original_claims : list pystr :=
  [lit "original"; lit "verdadeiro"; s_genuino].
Definition unknown_claims : list pystr :=
  [lit "desconhecido"; lit "nan"; lit "na"; lit "categoria_ausente_ou_invalida"].


(* ================================================================= *)
(** ** Interpreter and library functions

    The functions of Python and pandas that the program calls but that are
    not part of it.  Every theorem below holds for all of them. *)

Record runtime : Type := {
  (** [str.lower()] and [str.upper()] *)
  str_lower : pystr -> pystr;
  str_upper : pystr -> pystr;
  (** [str(x)] of a float that is not NaN *)
  float_repr : float -> pystr;
  (** the number a text denotes for [pd.to_numeric], if any *)
  parse_number : pystr -> option float;
  (** decimal digits other than [0]..[9] that the pattern [\d] accepts *)
  unicode_decimal : N -> bool;
  (** [Series.mean()] and [groupby(...).mean()] of a non-empty run of
      numbers, none of them missing *)
  series_mean : list float -> float;
  group_mean : list float -> float
}.

(** [str(v)], which is also [Series.astype(str)] on one cell. *)
Definition py_str (rt : runtime) (v : value) : pystr :=
  match v with
  | VStr s => s
  | VNone => lit "None"
  | VInt z => str_of_Z z
  | VFloat f => if F64.is_nan f then lit "nan" else float_repr rt f
  end.

(** [pd.to_numeric(..., errors='coerce')] on one cell. *)
Definition to_numeric (rt : runtime) (v : value) : float :=
  match v with
  | VStr s => match parse_number rt s with Some f => f | None => F64.nan end
  | VNone => F64.nan
  | VInt z => F64.of_Z z
  | VFloat f => f
  end.

(** The number held by a cell of a numeric column. *)
Definition num (v : value) : float :=
  match v with
  | VFloat f => f
  | VInt z => F64.of_Z z
  | VNone | VStr _ => F64.nan
  end.

(* ================================================================= *)
(** ** Tables *)

Inductive column : Type :=
| c_preco | c_vendedor | c_tipo_cartucho | c_originalidade | c_nota_qualidade
| c_seller_trust_level | c_preco_medio_categoria
| c_desvio_preco_media_categoria | c_label_heuristico_calculado
| c_originalidade_norm | c_temp_avg_cat.

Definition column_eqb (a b : column) : bool :=
  match a, b with
  | c_preco, c_preco | c_vendedor, c_vendedor
  | c_tipo_cartucho, c_tipo_cartucho | c_originalidade, c_originalidade
  | c_nota_qualidade, c_nota_qualidade
  | c_seller_trust_level, c_seller_trust_level
  | c_preco_medio_categoria, c_preco_medio_categoria
  | c_desvio_preco_media_categoria, c_desvio_preco_media_categoria
  | c_label_heuristico_calculado, c_label_heuristico_calculado
  | c_originalidade_norm, c_originalidade_norm
  | c_temp_avg_cat, c_temp_avg_cat => true
  | _, _ => false
  end.

(** One line of the table.  The cell of a column the table does not have
    is [VNone]. *)
Record row : Type := mk_row {
  preco : value;
  vendedor : value;
  tipo_cartucho : value;
  originalidade : value;
  nota_qualidade : value;
  seller_trust_level : value;
  preco_medio_categoria : value;
  desvio_preco_media_categoria : value;
  label_heuristico_calculado : value;
  originalidade_norm : value;
  temp_avg_cat : value
}.

Definition get (c : column) (r : row) : value :=
  match c with
  | c_preco => preco r
  | c_vendedor => vendedor r
  | c_tipo_cartucho => tipo_cartucho r
  | c_originalidade => originalidade r
  | c_nota_qualidade => nota_qualidade r
  | c_seller_trust_level => seller_trust_level r
  | c_preco_medio_categoria => preco_medio_categoria r
  | c_desvio_preco_media_categoria => desvio_preco_media_categoria r
  | c_label_heuristico_calculado => label_heuristico_calculado r
  | c_originalidade_norm => originalidade_norm r
  | c_temp_avg_cat => temp_avg_cat r
  end.

Definition set (c : column) (v : value) (r : row) : row :=
  let f (d : column) := if column_eqb c d then v else get d r in
  mk_row (f c_preco) (f c_vendedor) (f c_tipo_cartucho) (f c_originalidade)
         (f c_nota_qualidade) (f c_seller_trust_level)
         (f c_preco_medio_categoria) (f c_desvio_preco_media_categoria)
         (f c_label_heuristico_calculado) (f c_originalidade_norm)
         (f c_temp_avg_cat).

(** A [DataFrame]: its columns and its lines. *)
Record frame : Type := mk_frame {
  columns : list column;
  rows : list row
}.

(** [c in df.columns] *)
Definition has (c : column) (df : frame) : bool :=
  existsb (column_eqb c) (columns df).

(** [df[c] = ...] with one value per line, computed from the line. *)
Definition assign (c : column) (f : row -> value) (df : frame) : frame :=
  mk_frame (if has c df then columns df else columns df ++ [c])
           (map (fun r => set c (f r) r) (rows df)).

(** [del df[c]] *)
Definition del (c : column) (df : frame) : frame :=
  mk_frame (filter (fun d => negb (column_eqb c d)) (columns df))
           (map (set c VNone) (rows df)).

(** [df[c].dtype == 'object']. The table is one [read_csv] has read and
    the steps below have rewritten: a column of such a table has a
    numeric type exactly when every cell of it is a number, so the type
    is read off the cells; some cell is text or [None]. *)
Definition is_object (c : column) (df : frame) : bool :=
  existsb (fun r => match get c r with
                    | VStr _ | VNone => true
                    | VInt _ | VFloat _ => false
                    end) (rows df).

(* ================================================================= *)
(** ** [clean_price_column] *)

(** [.str.replace(r'R\$', '', regex=True)] *)
Fixpoint remove_currency (s : pystr) : pystr :=
  match s with
  | [] => []
  | c :: t =>
      match t with
      | d :: t' =>
          if ((c =? 82) && (d =? 36))%N then remove_currency t'
          else c :: remove_currency t
      | [] => [c]
      end
  end.

(** [.str.replace(r'\s+', '', regex=True)] *)
Definition remove_spaces (s : pystr) : pystr :=
  filter (fun c => negb (is_space c)) s.

(** The pattern [\d]. *)
Definition is_digit (rt : runtime) (c : N) : bool :=
  ((48 <=? c) && (c <=? 57))%N || unicode_decimal rt c.

(** [\d{3}(?:,|$)] at the start of [s]; [$] also matches before a final
    line feed. *)
Definition three_digits_then_stop (rt : runtime) (s : pystr) : bool :=
  match s with
  | a :: b :: c :: t =>
      is_digit rt a && is_digit rt b && is_digit rt c
      && match t with
         | [] => true
         | x :: t' =>
             (x =? 44)%N || ((x =? 10)%N && match t' with [] => true | _ => false end)
         end
  | _ => false
  end.

(** The lookahead [(?=.*\d{3}(?:,|$))] on what follows a period; [.] does
    not step over a line feed. *)
Fixpoint thousands_lookahead (rt : runtime) (s : pystr) : bool :=
  three_digits_then_stop rt s
  || match s with
     | [] => false
     | c :: t => negb (c =? 10)%N && thousands_lookahead rt t
     end.

(** [.str.replace(r'\.(?=.*\d{3}(?:,|$))', '', regex=True)] *)
Fixpoint remove_thousands_sep (rt : runtime) (s : pystr) : pystr :=
  match s with
  | [] => []
  | c :: t =>
      if (c =? 46)%N && thousands_lookahead rt t
      then remove_thousands_sep rt t
      else c :: remove_thousands_sep rt t
  end.

(** [.str.replace(',', '.', regex=True)] *)
Definition comma_to_period (s : pystr) : pystr :=
  map (fun c => if (c =? 44)%N then 46%N else c) s.

(** The four replacements of lines 33-37, in their order. *)
Definition clean_price_text (rt : runtime) (s : pystr) : pystr :=
  comma_to_period (remove_thousands_sep rt (remove_spaces (remove_currency s))).

(** Lines 43-46: a price above the cap becomes missing. *)
Definition cap_price (max_plausible_price : float) (p : float) : float :=
  if F64.ltb max_plausible_price p then F64.nan else p.

(** What [clean_price_column] does to one cell; [object] tells whether
    the column holds text. *)
Definition clean_price_cell (rt : runtime) (object : bool)
    (max_plausible_price : float) (v : value) : value :=
  let v1 := if object then VStr (clean_price_text rt (py_str rt v)) else v in
  VFloat (cap_price max_plausible_price (to_numeric rt v1)).

Definition clean_price_column (rt : runtime) (df : frame)
    (column_name : column) (max_plausible_price : float) : frame :=
  if negb (has column_name df) then df
  else
    let object := is_object column_name df in
    assign column_name
      (fun r => clean_price_cell rt object max_plausible_price (get column_name r))
      df.

(* ================================================================= *)
(** ** [create_seller_trust_level] *)

Definition SELLER_TRUST_MAP : list (pystr * Z) :=
  [ (lit "CARREFOUR", 3); (lit "OBERO INFORMATICA", 3); (lit "HP OFICIAL", 3);
    (lit "MAGAZINE LUIZA", 3); (lit "AMERICANAS", 3); (lit "KABUM", 3);
    (lit "INKCOR", 1); (lit "CASAPRINT SPEED", 1); (lit "PARK ECOM", 1);
    (lit "JRWIMPORTACAO", 1); (lit "TONER SHOPS", 1);
    (lit "VANMASTERCOMERCIO", 1); (lit "ESHOP", 1);
    (lit "OUTLET PRE" ++ C_cedilla :: lit "OBAIXO", 1);
    (lit "SARAIVA COMERCIO", 1); (lit "SCOTCH", 1);
    (lit "SIAD8238404", 2) ].

(** [trust_map.get(key, default)] *)
Fixpoint dict_get (trust_map : list (pystr * Z)) (key : pystr) (default : Z) : Z :=
  match trust_map with
  | [] => default
  | (k, v) :: rest => if pystr_eqb k key then v else dict_get rest key default
  end.

(** The inner [get_trust] of [create_seller_trust_level]. *)
Definition get_trust (rt : runtime) (trust_map : list (pystr * Z))
    (default_trust : Z) (seller_name : value) : Z :=
  if negb (notna seller_name) then default_trust
  else dict_get trust_map (str_upper rt (strip (py_str rt seller_name))) default_trust.

(** [df[seller_name_col]] raises [KeyError] when the column is absent;
    [trust_map=None] stands for the empty map. *)
Definition create_seller_trust_level (rt : runtime) (df : frame)
    (seller_name_col : column) (trust_map : option (list (pystr * Z)))
    (default_trust : Z) : result frame :=
  let trust_map := match trust_map with None => [] | Some m => m end in
  if has seller_name_col df then
    Ok (assign c_seller_trust_level
          (fun r => VInt (get_trust rt trust_map default_trust (get seller_name_col r)))
          df)
  else Raise KeyError.

(* ================================================================= *)
(** ** [create_price_features] *)

Definition CATEGORIA_AUSENTE_OU_INVALIDA : pystr :=
  lit "CATEGORIA_AUSENTE_OU_INVALIDA".

(** The list of line 77. *)
Definition invalid_categories : list pystr :=
  [ []; lit "nan"; lit "None"; lit "NAN"; lit "NONE" ].

(** Lines 76-77 on one cell. *)
Definition normalize_category (rt : runtime) (v : value) : value :=
  let s := strip (py_str rt v) in
  VStr (if str_in s invalid_categories then CATEGORIA_AUSENTE_OU_INVALIDA else s).

(** [==] between two cells, as [groupby] and [merge] match keys. *)
Definition value_eqb (a b : value) : bool :=
  match a, b with
  | VStr s, VStr t => pystr_eqb s t
  | VInt x, VInt y => x =? y
  | VFloat f, VFloat g => F64.eqb f g
  | VInt x, VFloat g => F64.eqb (F64.of_Z x) g
  | VFloat f, VInt y => F64.eqb f (F64.of_Z y)
  | _, _ => false
  end.

(** [df.dropna(subset=[price_col, category_col])] *)
Definition dropna2 (price_col category_col : column) (rs : list row) : list row :=
  filter (fun r => notna (get price_col r) && notna (get category_col r)) rs.

(** The keys of a [groupby], each once. *)
Fixpoint unique (l : list value) : list value :=
  match l with
  | [] => []
  | k :: t => if existsb (value_eqb k) t then unique t else k :: unique t
  end.

(** The prices of the lines of one group. *)
Definition group_prices (price_col category_col : column) (k : value)
    (rs : list row) : list float :=
  map (fun r => num (get price_col r))
      (filter (fun r => value_eqb k (get category_col r)) rs).

(** [valid.groupby(category_col)[price_col].mean()]: a series indexed by
    category. *)
Definition groupby_mean (rt : runtime) (price_col category_col : column)
    (valid : list row) : list (value * float) :=
  map (fun k => (k, group_mean rt (group_prices price_col category_col k valid)))
      (unique (map (get category_col) valid)).

(** The value a left [merge] on the category attaches to a line: the mean
    of its category, or a missing number when the series has none. *)
Fixpoint merge_lookup (series : list (value * float)) (k : value) : float :=
  match series with
  | [] => F64.nan
  | (k', m) :: rest => if value_eqb k' k then m else merge_lookup rest k
  end.

(** Lines 107-110: a mean above the cap, or not above zero, becomes
    missing. *)
Definition cap_average (max_plausible_avg_price : float) (m : float) : float :=
  if F64.ltb max_plausible_avg_price m || F64.leb m F64.zero
  then F64.nan else m.

(** Lines 120-121 (and 83-84): the deviation, with [inf], [-inf] and NaN
    replaced by 0. *)
Definition price_deviation (p m : float) : float :=
  let d := F64.div (F64.sub p m) m in
  if F64.is_inf d || F64.is_nan d then F64.zero else d.

Definition create_price_features (rt : runtime) (df_input : frame)
    (price_col category_col : column) (max_plausible_avg_price : float) : frame :=
  let df := df_input in
  if negb (has price_col df) || is_object price_col df then
    let df := assign c_preco_medio_categoria (fun _ => VFloat F64.nan) df in
    assign c_desvio_preco_media_categoria (fun _ => VFloat F64.zero) df
  else if has category_col df then
    let df := assign category_col
                (fun r => normalize_category rt (get category_col r)) df in
    let valid_for_grouping := dropna2 price_col category_col (rows df) in
    let preco_medio_calc_series :=
      match valid_for_grouping with
      | [] => []
      | _ :: _ =>
          if existsb (fun r => notna (get price_col r)) valid_for_grouping
          then groupby_mean rt price_col category_col valid_for_grouping
          else []
      end in
    let df := if has c_preco_medio_categoria df
              then del c_preco_medio_categoria df else df in
    let df := if has c_temp_avg_cat df then del c_temp_avg_cat df else df in
    let df :=
      match preco_medio_calc_series with
      | _ :: _ =>
          assign c_temp_avg_cat
            (fun r => VFloat (merge_lookup preco_medio_calc_series (get category_col r)))
            df
      | [] => assign c_temp_avg_cat (fun _ => VFloat F64.nan) df
      end in
    (* the temporary column exists here in both cases: the [else] of
       line 113 and the test of line 117 never apply *)
    let df := assign c_temp_avg_cat
                (fun r => VFloat (cap_average max_plausible_avg_price
                                    (num (get c_temp_avg_cat r)))) df in
    let df := assign c_preco_medio_categoria (get c_temp_avg_cat) df in
    let df := del c_temp_avg_cat df in
    assign c_desvio_preco_media_categoria
      (fun r => VFloat (price_deviation (num (get price_col r))
                                        (num (get c_preco_medio_categoria r)))) df
  else
    let prices := map (get price_col) (rows df) in
    let geral_mean_price :=
      if existsb notna prices
      then series_mean rt (map num (filter notna prices))
      else F64.nan in
    let geral_mean_price :=
      if negb (F64.is_nan geral_mean_price)
         && (F64.ltb max_plausible_avg_price geral_mean_price
             || F64.leb geral_mean_price F64.zero)
      then F64.nan else geral_mean_price in
    let df := assign c_preco_medio_categoria (fun _ => VFloat geral_mean_price) df in
    assign c_desvio_preco_media_categoria
      (fun r => VFloat (price_deviation (num (get price_col r))
                                        (num (get c_preco_medio_categoria r)))) df.

(* ================================================================= *)
(** ** [create_heuristic_label] *)

(** [v == s] and [v in [s1, s2, ...]] for text constants. *)
Definition py_eq_str (v : value) (s : pystr) : bool :=
  match v with
  | VStr t => pystr_eqb t s
  | _ => false
  end.

Definition py_in (v : value) (l : list pystr) : bool :=
  existsb (py_eq_str v) l.

(** A block of rules either returns a label or falls through. *)
Definition falls_through : result (option pystr) := Ok None.
Definition returns (s : string) : result (option pystr) := Ok (Some (lit s)).

(** When a block falls through, the next statement runs. *)
Definition or_next (block : result (option pystr)) (next : result pystr)
  : result pystr :=
  r <- block ;; match r with Some l => Ok l | None => next end.

(** Lines 141-191, on a line that has the four cells the function reads;
    [apply_rules_on] below is the function on a line of a table. *)
Definition apply_rules (row : row) : result pystr :=
  let originalidade_claim := originalidade_norm row in
  let desvio :=
    if notna (desvio_preco_media_categoria row)
    then desvio_preco_media_categoria row else VInt 0 in
  let trust := seller_trust_level row in
  let nota_q :=
    if notna (nota_qualidade row) then nota_qualidade row else VInt 3 in
  (* Nivel 1 *)
  if py_eq_str originalidade_claim s_compativel_claim then Ok (lit "compativel")
  else if py_in originalidade_claim not_original_claims
  then Ok (lit "nao_original_declarado")
  else
  (* Nivel 2 *)
  or_next
    (if py_eq_int trust 1 then
       cond (py_lt desvio m0_40) (returns "pirata_provavel_preco_vendedor_ruim")
      (cond (and_then (notna (nota_qualidade row)) (py_lt nota_q p2_5))
         (returns "pirata_provavel_nota_vendedor_ruim")
      (cond (and_then (py_in originalidade_claim original_claims)
                      (py_ge desvio m0_20))
         (returns "avaliar_manual_alegado_original_vendedor_suspeito")
         falls_through))
     else falls_through)
 (or_next
    (if py_eq_int trust 2 then
       cond (py_lt desvio m0_60)
         (returns "pirata_provavel_preco_muito_baixo_vendedor_neutro")
      (cond (and_then (py_in originalidade_claim original_claims)
                      (py_lt desvio m0_30))
         (returns "avaliar_manual_alegado_original_vendedor_neutro_preco_baixo")
         falls_through)
     else falls_through)
  (* Nivel 3 *)
 (or_next
    (if py_in originalidade_claim original_claims then
       if py_eq_int trust 3 then
         cond (py_ge desvio m0_30) (returns "original")
        (cond (lo <- py_lt desvio m0_30 ;; and_then lo (py_ge desvio m0_50))
           (returns "avaliar_manual_original_preco_baixo_vendedor_confiavel")
           (returns "avaliar_manual_original_preco_MUITO_baixo_vendedor_confiavel"))
       else
         cond (and_then (py_eq_int trust 2) (py_ge desvio m0_20))
           (returns "avaliar_manual_alegado_original_vendedor_neutro")
           (if py_eq_int trust 1
            then returns "avaliar_manual_alegado_original_vendedor_suspeito"
            else falls_through)
     else falls_through)
  (* Nivel 4 *)
 (or_next
    (if py_in originalidade_claim unknown_claims then
       if py_eq_int trust 3 then
         cond (py_ge desvio m0_30)
           (returns "original_provavel_orig_desconhecida_vendedor_confiavel")
           (returns "avaliar_manual_orig_desconhecida_vendedor_confiavel_preco_baixo")
       else if py_eq_int trust 2
       then returns "avaliar_manual_orig_desconhecida_vendedor_neutro"
       else if py_eq_int trust 1 then
         cond (py_lt desvio m0_30)
           (returns "pirata_provavel_orig_desconhecida_vendedor_suspeito_preco_baixo")
           (returns "avaliar_manual_orig_desconhecida_vendedor_suspeito")
       else falls_through
     else falls_through)
    (* Fallback *)
    (Ok (lit "avaliar_manual_geral_sem_classificacao_clara"))))).

(** The labels that occur in [apply_rules]. *)
Definition labels : list pystr :=
  map lit
    [ "compativel"; "nao_original_declarado";
      "pirata_provavel_preco_vendedor_ruim";
      "pirata_provavel_nota_vendedor_ruim";
      "avaliar_manual_alegado_original_vendedor_suspeito";
      "pirata_provavel_preco_muito_baixo_vendedor_neutro";
      "avaliar_manual_alegado_original_vendedor_neutro_preco_baixo";
      "original";
      "avaliar_manual_original_preco_baixo_vendedor_confiavel";
      "avaliar_manual_original_preco_MUITO_baixo_vendedor_confiavel";
      "avaliar_manual_alegado_original_vendedor_neutro";
      "original_provavel_orig_desconhecida_vendedor_confiavel";
      "avaliar_manual_orig_desconhecida_vendedor_confiavel_preco_baixo";
      "avaliar_manual_orig_desconhecida_vendedor_neutro";
      "pirata_provavel_orig_desconhecida_vendedor_suspeito_preco_baixo";
      "avaliar_manual_orig_desconhecida_vendedor_suspeito";
      "avaliar_manual_geral_sem_classificacao_clara" ]%string.

(** [apply_rules] on a line of the table [df]. Lines 141-144 read the
    four cells by name, [row['originalidade_norm']],
    [row['desvio_preco_media_categoria']], [row['seller_trust_level']] and
    [row['nota_qualidade']], before any rule is tried: a column the table
    has not got raises [KeyError]. *)
Definition apply_rules_on (df : frame) (row : row) : result pystr :=
  if has c_originalidade_norm df && has c_desvio_preco_media_categoria df
     && has c_seller_trust_level df && has c_nota_qualidade df
  then apply_rules row
  else Raise KeyError.

(** [df.apply(f, axis=1)] stored in column [c]: the first exception raised
    by [f] ends the call. *)
Fixpoint apply_rows (c : column) (f : row -> result pystr) (rs : list row)
  : result (list row) :=
  match rs with
  | [] => Ok []
  | r :: rest =>
      l <- f r ;;
      rest' <- apply_rows c f rest ;;
      Ok (set c (VStr l) r :: rest')
  end.

(** Lines 130 and 132 on one line of the table. *)
Definition normalize_claim (rt : runtime) (has_originalidade : bool)
    (v : value) : value :=
  if has_originalidade then VStr (str_lower rt (strip (py_str rt v)))
  else VStr (lit "desconhecido").

(** Lines 134-138 on one cell: [object] tells whether the column holds
    text, [present] whether the table has the column. *)
Definition normalize_quality (rt : runtime) (present object : bool)
    (v : value) : value :=
  if present then (if object then VFloat (to_numeric rt v) else v)
  else VFloat F64.nan.

(** On a table without lines [df.apply(apply_rules, axis=1)] gives back a
    table, not a column, and the assignment of line 193 raises
    [ValueError]. *)
Definition create_heuristic_label (rt : runtime) (df : frame) : result frame :=
  let df := assign c_originalidade_norm
              (fun r => normalize_claim rt (has c_originalidade df) (originalidade r))
              df in
  let present := has c_nota_qualidade df in
  let object := is_object c_nota_qualidade df in
  let df := assign c_nota_qualidade
              (fun r => normalize_quality rt present object (nota_qualidade r)) df in
  rs <- match rows df with
        | [] => Raise ValueError
        | _ :: _ =>
            apply_rows c_label_heuristico_calculado (apply_rules_on df) (rows df)
        end ;;
  let df := mk_frame (if has c_label_heuristico_calculado df then columns df
                      else columns df ++ [c_label_heuristico_calculado]) rs in
  Ok (if has c_originalidade_norm df then del c_originalidade_norm df else df).

(* ================================================================= *)
(** ** The script: lines 217-220 *)

Definition main (rt : runtime) (df : frame) : result frame :=
  let df_processed := df in
  let df_processed :=
    clean_price_column rt df_processed c_preco MAX_PLAUSIBLE_PRICE_INDIVIDUAL in
  df_processed <- create_seller_trust_level rt df_processed c_vendedor
                    (Some SELLER_TRUST_MAP) DEFAULT_SELLER_TRUST ;;
  let df_processed :=
    create_price_features rt df_processed c_preco c_tipo_cartucho
                          MAX_PLAUSIBLE_PRICE_AVERAGE in
  create_heuristic_label rt df_processed.

(* ================================================================= *)
(** ** A reference runtime

    One concrete choice of the interpreter and library functions, on which
    the definitions above can be evaluated: case mapping for the code
    points below U+0100 (the others are left as they are), the shortest
    decimal rendering of a float, plain decimal numerals, the decimal
    digits of Unicode 14, a left-to-right sum for [Series.mean] and a
    compensated sum for the mean of a group. *)

Module Reference.

Definition between (lo hi c : N) : bool := ((lo <=? c) && (c <=? hi))%N.

Definition lower_cp (c : N) : N :=
  if between 65 90 c || (between 192 222 c && negb (c =? 215)%N)
  then (c + 32)%N else c.

Definition upper_cp (c : N) : pystr :=
  if between 97 122 c || (between 224 254 c && negb (c =? 247)%N)
  then [(c - 32)%N]
  else if (c =? 181)%N then [924%N]
  else if (c =? 223)%N then [83%N; 83%N]
  else if (c =? 255)%N then [376%N]
  else [c].

Definition lower (s : pystr) : pystr := map lower_cp s.
Definition upper (s : pystr) : pystr := flat_map upper_cp s.

(** The code points of the digit zero of each decimal script but ASCII. *)
Definition decimal_zeros : list N :=
  [ 1632; 1776; 1984; 2406; 2534; 2662; 2790; 2918; 3046; 3174; 3302; 3430;
    3558; 3664; 3792; 3872; 4160; 4240; 6112; 6160; 6470; 6608; 6784; 6800;
    6992; 7088; 7232; 7248; 42528; 43216; 43264; 43472; 43504; 43600; 44016;
    65296; 66720; 68912; 69734; 69872; 69942; 70096; 70384; 70736; 70864;
    71248; 71360; 71472; 71904; 72016; 72784; 73040; 73120; 92768; 92864;
    93008; 120782; 120792; 120802; 120812; 120822; 123200; 123632; 125264;
    130032 ]%N.

Definition other_decimal (c : N) : bool :=
  existsb (fun z => between z (z + 9) c) decimal_zeros.

(** *** Decimal numerals *)

Fixpoint digits_value (s : pystr) (acc : Z) : option Z :=
  match s with
  | [] => Some acc
  | c :: t =>
      if between 48 57 c then digits_value t (10 * acc + Z.of_N (c - 48))
      else None
  end.

Fixpoint split_at_period (s : pystr) : pystr * option pystr :=
  match s with
  | [] => ([], None)
  | c :: t =>
      if (c =? 46)%N then ([], Some t)
      else let '(a, b) := split_at_period t in (c :: a, b)
  end.

(** The nearest float to [n / d], with the sign [neg]. *)
Definition signed_ratio (neg : bool) (n d : Z) : float :=
  match n, d with
  | Zpos p, Zpos q => if neg then F64.opp (F64.ratio p q) else F64.ratio p q
  | _, _ => S754_zero neg
  end.

(** [[+-]digits[.digits]] with a digit somewhere. *)
Definition parse_decimal (s : pystr) : option float :=
  let '(neg, body) :=
    match s with
    | 45%N :: t => (true, t)
    | 43%N :: t => (false, t)
    | _ => (false, s)
    end in
  let '(ip, fp) := split_at_period body in
  let fp := match fp with Some f => f | None => [] end in
  match ip ++ fp with
  | [] => None
  | ds =>
      match digits_value ds 0 with
      | Some n => Some (signed_ratio neg n (10 ^ Z.of_nat (List.length fp)))
      | None => None
      end
  end.

(** *** The shortest numeral that reads back as the float *)

(** [num / den < 10 ^ k] *)
Definition below_pow10 (num den k : Z) : bool :=
  if 0 <=? k then num <? den * 10 ^ k else num * 10 ^ (- k) <? den.

Fixpoint find_decpt (fuel : nat) (num den k : Z) : Z :=
  match fuel with
  | O => k
  | S fuel' => if below_pow10 num den k then k else find_decpt fuel' num den (k + 1)
  end.

(** The float nearest to [c * 10 ^ j]. *)
Definition of_decimal (c j : Z) : float :=
  if 0 <=? j then signed_ratio false (c * 10 ^ j) 1
  else signed_ratio false c (10 ^ (- j)).

Definition same_float (a b : float) : bool :=
  match a, b with
  | S754_finite s m e, S754_finite s' m' e' =>
      Bool.eqb s s' && (m =? m')%positive && (e =? e')
  | _, _ => false
  end.

(** The [n]-digit numeral nearest to [num / den] that reads back as [x],
    as an integer of [n] digits scaled by [10 ^ (k - n)]. *)
Definition candidate (x : float) (num den k n : Z) : option Z :=
  let '(sn, sd) :=
    if 0 <=? n - k then (num * 10 ^ (n - k), den) else (num, den * 10 ^ (k - n)) in
  let lo := sn / sd in
  let hi := lo + 1 in
  let ok c := same_float (of_decimal c (k - n)) x in
  match ok lo, ok hi with
  | true, true =>
      match 2 * sn ?= (2 * lo + 1) * sd with
      | Lt => Some lo
      | Gt => Some hi
      | Eq => Some (if Z.even lo then lo else hi)
      end
  | true, false => Some lo
  | false, true => Some hi
  | false, false => None
  end.

Fixpoint shortest (fuel : nat) (x : float) (num den k n : Z) : Z * Z :=
  match fuel with
  | O => (0, n)
  | S fuel' =>
      match candidate x num den k n with
      | Some c => (c, n)
      | None => shortest fuel' x num den k (n + 1)
      end
  end.

Fixpoint strip_zeros (fuel : nat) (c : Z) : Z :=
  match fuel with
  | O => c
  | S fuel' => if (c mod 10 =? 0) && negb (c =? 0) then strip_zeros fuel' (c / 10) else c
  end.

Definition zeros (n : Z) : pystr := repeat 48%N (Z.to_nat n).

(** [repr] of the positive float [m * 2 ^ e]. *)
Definition repr_pos (m : positive) (e : Z) : pystr :=
  let '(num, den) := if 0 <=? e then (Z.pos m * 2 ^ e, 1) else (Z.pos m, 2 ^ (- e)) in
  let k := find_decpt 700 num den (-330) in
  let '(c, n) := shortest 17 (S754_finite false m e) num den k 1 in
  let ds := str_of_Z (strip_zeros 20 c) in
  let nd := Z.of_nat (List.length ds) in
  let decpt := k + (Z.of_nat (List.length (str_of_Z c)) - n) in
  if (decpt <=? -4) || (16 <? decpt) then
    let ex := decpt - 1 in
    let ex_digits := str_of_Z (Z.abs ex) in
    firstn 1 ds
    ++ (match skipn 1 ds with [] => [] | r => 46%N :: r end)
    ++ [101%N; if ex <? 0 then 45%N else 43%N]
    ++ (if Z.abs ex <? 10 then 48%N :: ex_digits else ex_digits)
  else if decpt <=? 0 then lit "0." ++ zeros (- decpt) ++ ds
  else if nd <=? decpt then ds ++ zeros (decpt - nd) ++ lit ".0"
  else firstn (Z.to_nat decpt) ds ++ 46%N :: skipn (Z.to_nat decpt) ds.

Definition repr (f : float) : pystr :=
  match f with
  | S754_nan => lit "nan"
  | S754_infinity s => if s then lit "-inf" else lit "inf"
  | S754_zero s => if s then lit "-0.0" else lit "0.0"
  | S754_finite s m e => if s then 45%N :: repr_pos m e else repr_pos m e
  end.

(** *** Means *)

Definition sum (l : list float) : float := fold_left F64.add l F64.zero.

Definition mean (l : list float) : float :=
  F64.div (sum l) (F64.of_Z (Z.of_nat (List.length l))).

(** Kahan summation, as the group reduction does it. *)
Fixpoint kahan (l : list float) (sumx compensation : float) : float :=
  match l with
  | [] => sumx
  | val :: rest =>
      let y := F64.sub val compensation in
      let t := F64.add sumx y in
      let c := F64.sub (F64.sub t sumx) y in
      kahan rest t (if F64.is_nan c then F64.zero else c)
  end.

Definition kahan_mean (l : list float) : float :=
  F64.div (kahan l F64.zero F64.zero) (F64.of_Z (Z.of_nat (List.length l))).

Definition rt : runtime :=
  {| str_lower := lower;
     str_upper := upper;
     float_repr := repr;
     parse_number := parse_decimal;
     unicode_decimal := other_decimal;
     series_mean := mean;
     group_mean := kahan_mean |}.

End Reference.

(* ================================================================= *)
(** ** Vocabulary of the statements *)

(** A cell that holds a number, missing or not. *)
Definition numeric (v : value) : bool :=
  match v with
  | VInt _ | VFloat _ => true
  | VNone | VStr _ => false
  end.

(** A cell that holds a number or nothing. *)
Definition numeric_or_none (v : value) : bool :=
  match v with
  | VInt _ | VFloat _ | VNone => true
  | VStr _ => false
  end.

(** The label [f] returns on a line, when it returns one. *)
Definition returned (f : row -> result pystr) (r : row) : pystr :=
  match f r with
  | Ok l => l
  | Raise _ => []
  end.

(** A table whose price deviation is text: a claim of originality, a
    seller of trust level 1, the deviation "abc". *)
Definition df_text_deviation : frame :=
  mk_frame
    [c_originalidade; c_seller_trust_level; c_desvio_preco_media_categoria;
     c_nota_qualidade]
    [ mk_row VNone VNone VNone (VStr (lit "original")) (VInt 4)
             (VInt 1) VNone (VStr (lit "abc")) VNone VNone VNone ].

(** The line of [df] that [apply_rules] receives in
    [create_heuristic_label]: with the normalized claim and the quality
    score as a number. *)
Definition prepared (rt : runtime) (df : frame) (r : row) : row :=
  set c_nota_qualidade
    (normalize_quality rt (has c_nota_qualidade df)
       (is_object c_nota_qualidade df) (nota_qualidade r))
    (set c_originalidade_norm
       (normalize_claim rt (has c_originalidade df) (originalidade r)) r).

(** The line [create_heuristic_label] leaves in the table. *)
Definition labelled (rt : runtime) (df : frame) (r : row) : row :=
  set c_originalidade_norm VNone
    (set c_label_heuristico_calculado
       (VStr (returned apply_rules (prepared rt df r))) (prepared rt df r)).

(** Text made of whitespace only. *)
Definition blank (s : pystr) : bool := forallb is_space s.

(** "nan"-like text, in the words of the specification: "nan" or "none"
    in any casing. *)
Definition nan_like (s : pystr) : bool :=
  str_in (Reference.lower s) [lit "nan"; lit "none"].

(** *** Prices as they are written

    A price in the Brazilian notation: an optional "R$", optional
    whitespace, digits in groups of three separated by periods, and
    optional decimals after a comma. *)

Definition ascii_digit (c : N) : bool := ((48 <=? c) && (c <=? 57))%N.

(** A character of the numeral: a digit, a period or a comma. *)
Definition numeral_char (c : N) : bool :=
  ascii_digit c || (c =? 46)%N || (c =? 44)%N.

(** What is written after the integer part. *)
Definition decimals (sep : N) (cents : option pystr) : pystr :=
  match cents with Some d => sep :: d | None => [] end.

Definition group_ok (g : pystr) : bool :=
  (List.length g =? 3)%nat && forallb ascii_digit g.

Record price_text : Type := {
  lead : pystr;             (* whitespace before everything *)
  currency : bool;          (* "R$" is written *)
  gap : pystr;              (* whitespace after the currency *)
  head : pystr;             (* the digits before the first period *)
  groups : list pystr;      (* the groups of three digits, a period before each *)
  cents : option pystr;     (* the digits after the comma *)
  trail : pystr             (* whitespace after everything *)
}.

Definition well_formed (p : price_text) : bool :=
  blank (lead p) && blank (gap p) && blank (trail p)
  && forallb ascii_digit (head p)
  && forallb group_ok (groups p)
  && match cents p with Some d => forallb ascii_digit d | None => true end.

(** The text as it is written. *)
Definition render (p : price_text) : pystr :=
  lead p ++ (if currency p then lit "R$" else []) ++ gap p
  ++ head p ++ List.concat (map (cons 46%N) (groups p))
  ++ decimals 44 (cents p)
  ++ trail p.

(** The decimal numeral it stands for: all the digits of the integer
    part, and the decimals after a period. *)
Definition intended (p : price_text) : pystr :=
  head p ++ List.concat (groups p) ++ decimals 46 (cents p).

(** "R$ 1.234,56" and "89,90". *)
Definition price_1234_56 : price_text :=
  {| lead := []; currency := true; gap := lit " "; head := lit "1";
     groups := [lit "234"]; cents := Some (lit "56"); trail := [] |}.

Definition price_89_90 : price_text :=
  {| lead := []; currency := false; gap := []; head := lit "89";
     groups := []; cents := Some (lit "90"); trail := [] |}.

(** *** The lines each step leaves

    Each step of the script rewrites the lines of the table one by one,
    given the table as a whole; these are the line functions. *)

(** [clean_price_column] on the column "preco". *)
Definition price_row (rt : runtime) (df : frame) (mx : float) (r : row) : row :=
  if has c_preco df
  then set c_preco (clean_price_cell rt (is_object c_preco df) mx (preco r)) r
  else r.

(** [create_seller_trust_level] on the column "vendedor". *)
Definition trust_row (rt : runtime) (trust_map : list (pystr * Z))
    (default_trust : Z) (r : row) : row :=
  set c_seller_trust_level
    (VInt (get_trust rt trust_map default_trust (vendedor r))) r.

(** The series of category means that [create_price_features] computes
    from lines whose categories are normalized. *)
Definition series_of (rt : runtime) (rs : list row) : list (value * float) :=
  match dropna2 c_preco c_tipo_cartucho rs with
  | [] => []
  | _ :: _ =>
      if existsb (fun r => notna (preco r)) (dropna2 c_preco c_tipo_cartucho rs)
      then groupby_mean rt c_preco c_tipo_cartucho
             (dropna2 c_preco c_tipo_cartucho rs)
      else []
  end.

(** The general mean of the branch without categories, capped. *)
Definition general_mean (rt : runtime) (rs : list row) (mx : float) : float :=
  let prices := map preco rs in
  cap_average mx
    (if existsb notna prices
     then series_mean rt (map num (filter notna prices))
     else F64.nan).

(** [create_price_features] on "preco" and "tipo_cartucho". *)
Definition features_row (rt : runtime) (df : frame) (mx : float) (r : row) : row :=
  if negb (has c_preco df) || is_object c_preco df then
    set c_desvio_preco_media_categoria (VFloat F64.zero)
      (set c_preco_medio_categoria (VFloat F64.nan) r)
  else if has c_tipo_cartucho df then
    let normalized :=
      map (fun r => set c_tipo_cartucho
                      (normalize_category rt (tipo_cartucho r)) r) (rows df) in
    let k := normalize_category rt (tipo_cartucho r) in
    let m := cap_average mx (merge_lookup (series_of rt normalized) k) in
    set c_desvio_preco_media_categoria
      (VFloat (price_deviation (num (preco r)) m))
      (set c_temp_avg_cat VNone
         (set c_preco_medio_categoria (VFloat m) (set c_tipo_cartucho k r)))
  else
    let m := general_mean rt (rows df) mx in
    set c_desvio_preco_media_categoria
      (VFloat (price_deviation (num (preco r)) m))
      (set c_preco_medio_categoria (VFloat m) r).

(** The number lines 32-39 read in the price cell of a line, before the
    cap of lines 42-46. *)
Definition parsed_price (rt : runtime) (df : frame) (r : row) : float :=
  to_numeric rt (if is_object c_preco df
                 then VStr (clean_price_text rt (py_str rt (preco r)))
                 else preco r).

(** The prices of the lines that have a price and whose category, once
    normalized, is [k]. *)
Definition prices_of_category (rt : runtime) (k : value) (rs : list row)
  : list float :=
  map (fun r => num (preco r))
      (filter (fun r => notna (preco r)
                        && value_eqb k (normalize_category rt (tipo_cartucho r)))
              rs).

(** The mean [create_price_features] computes for a line [r'] of its
    output, before the cap: with a category column, the mean of the
    prices of the lines of the category of [r'] (lines 88-101), none when
    the category has no price; without one, the mean of all the prices
    (line 79); without a numeric price column nothing is computed. *)
Definition computed_mean (rt : runtime) (df : frame) (r' : row) : float :=
  if negb (has c_preco df) || is_object c_preco df then F64.nan
  else if has c_tipo_cartucho df then
    match prices_of_category rt (tipo_cartucho r') (rows df) with
    | [] => F64.nan
    | ps => group_mean rt ps
    end
  else
    let prices := map preco (rows df) in
    if existsb notna prices
    then series_mean rt (map num (filter notna prices))
    else F64.nan.

(** The columns of the input that the script reads. *)
Definition raw (c : column) : bool :=
  match c with
  | c_preco | c_vendedor | c_tipo_cartucho | c_originalidade => true
  | _ => false
  end.

(** Removing the four derived columns from a table. *)
Definition strip_derived (df : frame) : frame :=
  del c_seller_trust_level
    (del c_preco_medio_categoria
       (del c_desvio_preco_media_categoria
          (del c_label_heuristico_calculado df))).

(** The tables between the steps of [main]. *)
Definition priced (rt : runtime) (df : frame) : frame :=
  clean_price_column rt df c_preco MAX_PLAUSIBLE_PRICE_INDIVIDUAL.

Definition trusted (rt : runtime) (df : frame) : frame :=
  assign c_seller_trust_level
    (fun r => VInt (get_trust rt SELLER_TRUST_MAP DEFAULT_SELLER_TRUST (vendedor r)))
    (priced rt df).

Definition featured (rt : runtime) (df : frame) : frame :=
  create_price_features rt (trusted rt df) c_preco c_tipo_cartucho
    MAX_PLAUSIBLE_PRICE_AVERAGE.

(** The line [main] leaves for a line of its input. *)
Definition result_row (rt : runtime) (df : frame) (r : row) : row :=
  labelled rt (featured rt df)
    (features_row rt (trusted rt df) MAX_PLAUSIBLE_PRICE_AVERAGE
       (trust_row rt SELLER_TRUST_MAP DEFAULT_SELLER_TRUST
          (price_row rt df MAX_PLAUSIBLE_PRICE_INDIVIDUAL r))).

(** A line without its four derived cells. *)
Definition strip_row (r : row) : row :=
  set c_seller_trust_level VNone
    (set c_preco_medio_categoria VNone
       (set c_desvio_preco_media_categoria VNone
          (set c_label_heuristico_calculado VNone r))).

(** The same line, cell by cell. *)
Definition settled_row (rt : runtime) (df : frame) (r : row) : row :=
  let p := if has c_preco df
           then clean_price_cell rt (is_object c_preco df)
                  MAX_PLAUSIBLE_PRICE_INDIVIDUAL (preco r)
           else preco r in
  let grouped := has c_preco df && has c_tipo_cartucho df in
  let k := if grouped then normalize_category rt (tipo_cartucho r)
           else tipo_cartucho r in
  let m := if has c_preco df then
             if has c_tipo_cartucho df then
               cap_average MAX_PLAUSIBLE_PRICE_AVERAGE
                 (merge_lookup
                    (series_of rt
                       (map (fun r => set c_tipo_cartucho
                                        (normalize_category rt (tipo_cartucho r)) r)
                            (rows (trusted rt df)))) k)
             else general_mean rt (rows (trusted rt df)) MAX_PLAUSIBLE_PRICE_AVERAGE
           else F64.nan in
  let d := price_deviation (num p) m in
  let q := normalize_quality rt (has c_nota_qualidade df)
             (is_object c_nota_qualidade df) (nota_qualidade r) in
  let t := VInt (get_trust rt SELLER_TRUST_MAP DEFAULT_SELLER_TRUST (vendedor r)) in
  let claim := normalize_claim rt (has c_originalidade df) (originalidade r) in
  let tmp := if grouped then VNone else temp_avg_cat r in
  let seen := mk_row p (vendedor r) k (originalidade r) q t (VFloat m) (VFloat d)
                     (label_heuristico_calculado r) claim tmp in
  mk_row p (vendedor r) k (originalidade r) q t (VFloat m) (VFloat d)
         (VStr (returned apply_rules seen)) VNone tmp.

(** Two lines with the same price and the same category. *)
Definition same_price_and_category (r r' : row) : Prop :=
  preco r = preco r' /\ tipo_cartucho r = tipo_cartucho r'.

(** *** Tables of the examples *)

(** A line of the input: price, seller, category, claim and quality
    score; the other cells are empty. *)
Definition input_row (price seller category claim quality : value) : row :=
  mk_row price seller category claim quality VNone VNone VNone VNone VNone VNone.

Definition input_columns : list column :=
  [c_preco; c_vendedor; c_tipo_cartucho; c_originalidade; c_nota_qualidade].

(** Two products of a trusted seller, at 100.00 and 300.00, the first
    with no category and the second with a blank one. *)
Definition df_missing_categories : frame :=
  mk_frame input_columns
    [ input_row (VStr (lit "R$ 100,00")) (VStr (lit "KABUM")) (VFloat F64.nan)
                (VStr (lit "Original")) (VFloat F64.nan);
      input_row (VStr (lit "R$ 300,00")) (VStr (lit "KABUM")) (VStr (lit "  "))
                (VStr (lit "Original")) (VFloat F64.nan) ].

(** What the examples show of a line of the output. *)
Definition derived_cells (r : row) : value * value * value * value * value :=
  (tipo_cartucho r, seller_trust_level r, preco_medio_categoria r,
   desvio_preco_media_categoria r, label_heuristico_calculado r).

(** The line [apply_rules] reads: the normalized claim, the trust level,
    the price deviation and the quality score. *)
Definition rule_row (claim trust deviation quality : value) : row :=
  mk_row VNone VNone VNone VNone quality trust VNone deviation VNone claim VNone.

(** Scenario B: the seller "INKCOR", the claim "original", the deviation
    -0.50, no quality score. *)
Definition scenario_B : row :=
  rule_row (VStr (lit "original"))
           (VInt (get_trust Reference.rt SELLER_TRUST_MAP DEFAULT_SELLER_TRUST
                    (VStr (lit "INKCOR"))))
           (VFloat m0_50) (VFloat F64.nan).

(** A claim of originality, a seller of trust level 2, the deviation
    -0.25. *)
Definition m0_25 : float := Eval vm_compute in F64.opp (F64.ratio 25 100).

Definition neutral_seller_gap : row :=
  rule_row (VStr (lit "original")) (VInt 2) (VFloat m0_25) (VFloat F64.nan).

(** A table ready for the classifier: deviations as numbers, a quality
    score that is text, a missing claim. *)
Definition df_for_classifier : frame :=
  mk_frame
    [c_originalidade; c_nota_qualidade; c_seller_trust_level;
     c_desvio_preco_media_categoria]
    [ mk_row VNone VNone VNone (VStr (lit " Original ")) (VStr (lit "n/d"))
             (VInt 3) VNone (VFloat F64.zero) VNone VNone VNone;
      mk_row VNone VNone VNone (VFloat F64.nan) (VStr (lit "1.5"))
             (VInt 1) VNone (VFloat F64.nan) VNone VNone VNone;
      mk_row VNone VNone VNone (VStr (lit "Pirata")) VNone
             (VStr (lit "?")) VNone VNone VNone VNone VNone ].

(** Scenario E: a category whose two prices, 4000.00 and 8000.00, have
    the mean 6000.00. *)
Definition df_scenario_E : frame :=
  mk_frame input_columns
    [ input_row (VStr (lit "R$ 4.000,00")) (VStr (lit "KABUM")) (VStr (lit "664"))
                (VStr (lit "Original")) (VFloat F64.nan);
      input_row (VStr (lit "R$ 8.000,00")) (VStr (lit "KABUM")) (VStr (lit "664"))
                (VStr (lit "Original")) (VFloat F64.nan) ].

(** A table of prices as text, one of them above the cap and one that is
    no number. *)
Definition df_prices : frame :=
  mk_frame input_columns
    [ input_row (VStr (lit "R$ 1.234,56")) VNone VNone VNone VNone;
      input_row (VStr (lit "25.000,00")) VNone VNone VNone VNone;
      input_row (VStr (lit "sob consulta")) VNone VNone VNone VNone ].

(** The line number [n] of a table. *)
Definition line (n : nat) (df : frame) : row :=
  nth n (rows df) (input_row VNone VNone VNone VNone VNone).

(** *** Vocabulary of the further properties *)

(** [s.startswith(prefix)] *)
Fixpoint starts_with (prefix s : pystr) : bool :=
  match prefix, s with
  | [], _ => true
  | p :: prefix', c :: s' => N.eqb p c && starts_with prefix' s'
  | _ :: _, [] => false
  end.

(** A label that calls the product a probable counterfeit. *)
Definition says_pirata (l : pystr) : bool :=
  starts_with (lit "pirata_provavel") l.

(** The cells [create_price_features] leaves alone. *)
Definition untouched_cells (r : row)
  : value * value * value * value * value * value * value :=
  (preco r, vendedor r, originalidade r, nota_qualidade r,
   seller_trust_level r, label_heuristico_calculado r, originalidade_norm r).

(** A cell that holds text. *)
Definition is_text (v : value) : bool :=
  match v with VStr _ => true | _ => false end.


(** The cells [create_heuristic_label] leaves alone. *)
Definition cells_beside_label (r : row)
  : value * value * value * value * value * value * value :=
  (preco r, vendedor r, tipo_cartucho r, originalidade r,
   seller_trust_level r, preco_medio_categoria r,
   desvio_preco_media_categoria r).

(** *** Further examples *)

(** A compatible product of a suspect seller, at half the mean and with
    a low quality score. *)
Definition compatible_low_price : row :=
  rule_row (VStr s_compativel_claim) (VInt 1) (VFloat m0_50) (VInt 1).

(** A product declared "pirata" by a trusted seller. *)
Definition declared_pirata : row :=
  rule_row (VStr (lit "pirata")) (VInt 3) (VFloat F64.zero) (VInt 5).

(** A claim of originality, a trusted seller, the deviation -0.60 and a
    low quality score. *)
Definition trusted_seller_very_low_price : row :=
  rule_row (VStr (lit "original")) (VInt 3) (VFloat m0_60) (VInt 1).

(** A claim of originality, a trusted seller, the deviation -0.40. *)
Definition trusted_seller_low_price : row :=
  rule_row (VStr (lit "original")) (VInt 3) (VFloat m0_40) VNone.

(** A claim of originality, a suspect seller, no deviation and the
    quality score 1. *)
Definition suspect_seller_low_quality : row :=
  rule_row (VStr (lit "original")) (VInt 1) (VFloat F64.nan) (VInt 1).

(** A claim none of the rules names, under a trusted seller. *)
Definition unrecognized_claim : row :=
  rule_row (VStr (lit "recondicionado")) (VInt 3) (VFloat F64.zero) VNone.

(** Two categories, the second with one product, whose price is no
    number. *)
Definition df_unpriced_category : frame :=
  mk_frame input_columns
    [ input_row (VStr (lit "R$ 100,00")) (VStr (lit "KABUM")) (VStr (lit "664"))
                (VStr (lit "Original")) VNone;
      input_row (VStr (lit "sob consulta")) (VStr (lit "KABUM")) (VStr (lit "122"))
                (VStr (lit "Original")) VNone ].

(** Two prices, 100.00 and 300.00, in a table without the column of the
    category. *)
Definition df_no_category_column : frame :=
  mk_frame [c_preco; c_vendedor]
    [ input_row (VStr (lit "R$ 100,00")) (VStr (lit "KABUM")) VNone VNone VNone;
      input_row (VStr (lit "R$ 300,00")) (VStr (lit "INKCOR")) VNone VNone VNone ].

(* ================================================================= *)
(** * Properties *)

(* ================================================================= *)
(** ** Text *)

Lemma pystr_eqb_eq (a b : pystr) : pystr_eqb a b = true <-> a = b.
Proof.
  revert b; induction a as [|x a IH]; intros [|y b]; simpl; split;
    try discriminate; try reflexivity.
  - intros H. apply andb_true_iff in H as [Hx Hab].
    apply N.eqb_eq in Hx. apply IH in Hab. now subst.
  - intros H. injection H as -> ->. rewrite N.eqb_refl. now apply IH.
Qed.

Lemma pystr_eqb_refl (a : pystr) : pystr_eqb a a = true.
Proof. now apply pystr_eqb_eq. Qed.

Lemma str_in_In (s : pystr) (l : list pystr) : str_in s l = true <-> In s l.
Proof.
  unfold str_in. rewrite existsb_exists. split.
  - intros (x & Hx & E). apply pystr_eqb_eq in E. now subst.
  - intros H. exists s. split; [assumption | apply pystr_eqb_refl].
Qed.

Lemma py_in_inv (v : value) (l : list pystr) :
  py_in v l = true -> exists s, v = VStr s /\ In s l.
Proof.
  unfold py_in. rewrite existsb_exists. intros (x & Hx & E).
  destruct v as [| | |s]; simpl in E; try discriminate.
  apply pystr_eqb_eq in E. subst. now exists x.
Qed.

(* ================================================================= *)
(** ** Order of binary64 numbers *)

Lemma mantissa_compare_spec (m c : positive) :
  CompareSpec (Z.pos m = Z.pos c) (Z.pos m < Z.pos c) (Z.pos c < Z.pos m)
              (Pos.compare_cont Eq m c).
Proof.
  change (Pos.compare_cont Eq m c) with (Pos.compare m c).
  destruct (Pos.compare_spec m c) as [E|L|L]; constructor.
  - now rewrite E.
  - exact L.
  - exact L.
Qed.

(** Splits every comparison of exponents and mantissas in the goal. *)
Ltac split_compare :=
  repeat match goal with
  | |- context [Z.compare ?a ?b] => destruct (Z.compare_spec a b)
  | |- context [Pos.compare_cont Eq ?a ?b] =>
      destruct (mantissa_compare_spec a b)
  end.

(** Decides a goal on the order of a float [d] relative to constants; the
    facts known about [d] are premises of the goal. *)
Ltac float_order d :=
  cbv beta iota delta
    [F64.ltb F64.leb F64.eqb SFltb SFleb SFeqb SFcompare F64.zero
     F64.is_nan F64.is_finite F64.is_inf F64.nan negb orb andb
     cap_price cap_average
     m0_20 m0_30 m0_40 m0_50 m0_60 p2_5
     MAX_PLAUSIBLE_PRICE_INDIVIDUAL MAX_PLAUSIBLE_PRICE_AVERAGE];
  destruct d as [[|]|[|]| |[|] ? ?];
  split_compare; cbv beta iota delta [CompOpp];
  intros; repeat split; try discriminate; try reflexivity; try lia.

Lemma ltb_not_nan (d c : float) : F64.ltb d c = true -> F64.is_nan d = false.
Proof. destruct d; try reflexivity. discriminate. Qed.

Lemma below_m0_40 (d : float) :
  F64.ltb d m0_40 = true -> F64.ltb d m0_30 = true /\ F64.leb m0_20 d = false.
Proof. float_order d. Qed.

Lemma band_m0_30_m0_20 (d : float) :
  F64.leb m0_30 d = true -> F64.ltb d m0_20 = true ->
  F64.ltb d m0_60 = false /\ F64.ltb d m0_30 = false /\ F64.leb m0_20 d = false.
Proof. float_order d. Qed.

Lemma py_lt_notna (v : value) (c : float) : py_lt v c = Ok true -> notna v = true.
Proof.
  destruct v as [|z|f|s]; simpl; try discriminate; try reflexivity.
  intros H. injection H as H. now rewrite (ltb_not_nan _ _ H).
Qed.

(* ================================================================= *)
(** ** The rule cascade *)

(** A claim of originality is none of the claims of level 1. *)
Lemma original_claim_passes_level_1 (v : value) :
  py_in v original_claims = true ->
  py_eq_str v s_compativel_claim = false /\ py_in v not_original_claims = false.
Proof.
  intros H. apply py_in_inv in H as (s & -> & Hs).
  simpl in Hs. destruct Hs as [<-|[<-|[<-|[]]]]; split; reflexivity.
Qed.

(** C1. A record that claims to be original ("original", "verdadeiro" or
    "genuino" with its accent), sold by a seller of trust level 1, whose
    price deviation is below -0.40, is labelled
    "pirata_provavel_preco_vendedor_ruim": the trust-1 block of level 2
    returns before level 3 is reached. *)
Theorem C1_suspect_seller_low_price (r : row) :
  py_in (originalidade_norm r) original_claims = true ->
  py_eq_int (seller_trust_level r) 1 = true ->
  py_lt (desvio_preco_media_categoria r) m0_40 = Ok true ->
  apply_rules r = Ok (lit "pirata_provavel_preco_vendedor_ruim").
Proof.
  intros Hclaim Htrust Hlow.
  destruct (original_claim_passes_level_1 _ Hclaim) as [H1 H2].
  unfold apply_rules.
  rewrite H1, H2, Htrust, (py_lt_notna _ _ Hlow), Hlow.
  reflexivity.
Qed.

(** Decides a goal on the order of an integer relative to constants. *)
Ltac int_order :=
  cbv beta iota delta
    [F64.Zcompare m0_20 m0_30 m0_40 m0_50 m0_60 p2_5
     MAX_PLAUSIBLE_PRICE_INDIVIDUAL MAX_PLAUSIBLE_PRICE_AVERAGE];
  repeat match goal with
  | |- context [Z.leb 0 (Zneg ?p)] => change (Z.leb 0 (Zneg p)) with false
  | |- context [Z.leb 0 (Zpos ?p)] => change (Z.leb 0 (Zpos p)) with true
  | |- context [Z.opp (Zneg ?p)] => change (Z.opp (Zneg p)) with (Zpos p)
  | |- context [Z.pow 2 (Zpos ?p)] =>
      let v := eval vm_compute in (Z.pow 2 (Zpos p)) in
      change (Z.pow 2 (Zpos p)) with v
  end;
  cbv beta iota;
  repeat match goal with
  | |- context [Z.compare ?a ?b] => destruct (Z.compare_spec a b)
  end;
  intros; repeat split; try discriminate; try reflexivity; try lia.

Lemma band_m0_30_m0_20_cell (v : value) :
  py_ge v m0_30 = Ok true -> py_lt v m0_20 = Ok true ->
  py_lt v m0_60 = Ok false /\ py_lt v m0_30 = Ok false /\ py_ge v m0_20 = Ok false.
Proof.
  destruct v as [|z|d|s]; simpl; try discriminate.
  - int_order.
  - intros H1 H2. injection H1 as H1. injection H2 as H2.
    destruct (band_m0_30_m0_20 d H1 H2) as (-> & -> & ->). now repeat split.
Qed.

(** Replaces the floats of the trust levels by their values. *)
Ltac trust_levels :=
  repeat match goal with
  | |- context [F64.of_Z (Zpos ?p)] =>
      let v := eval vm_compute in (F64.of_Z (Zpos p)) in
      change (F64.of_Z (Zpos p)) with v
  end.

Lemma trust_2_only (v : value) :
  py_eq_int v 2 = true -> py_eq_int v 1 = false /\ py_eq_int v 3 = false.
Proof.
  destruct v as [|z|d|s]; cbn [py_eq_int]; try discriminate.
  - intros H. apply Z.eqb_eq in H. now subst.
  - trust_levels. float_order d.
Qed.

Lemma trust_1_only (v : value) :
  py_eq_int v 1 = true -> py_eq_int v 2 = false /\ py_eq_int v 3 = false.
Proof.
  destruct v as [|z|d|s]; cbn [py_eq_int]; try discriminate.
  - intros H. apply Z.eqb_eq in H. now subst.
  - trust_levels. float_order d.
Qed.

Lemma original_claim_skips_level_4 (v : value) :
  py_in v original_claims = true -> py_in v unknown_claims = false.
Proof.
  intros H. apply py_in_inv in H as (s & -> & Hs).
  simpl in Hs. destruct Hs as [<-|[<-|[<-|[]]]]; reflexivity.
Qed.

(** C10. A record that claims to be original, sold by a seller of trust
    level 2, whose price deviation is at least -0.30 and below -0.20, gets
    the fallback label: no rule of the cascade covers that band. *)
Theorem C10_neutral_seller_gap (r : row) :
  py_in (originalidade_norm r) original_claims = true ->
  py_eq_int (seller_trust_level r) 2 = true ->
  py_ge (desvio_preco_media_categoria r) m0_30 = Ok true ->
  py_lt (desvio_preco_media_categoria r) m0_20 = Ok true ->
  apply_rules r = Ok (lit "avaliar_manual_geral_sem_classificacao_clara").
Proof.
  intros Hclaim Htrust Hge Hlt.
  destruct (original_claim_passes_level_1 _ Hclaim) as [H1 H2].
  destruct (trust_2_only _ Htrust) as [T1 T3].
  destruct (band_m0_30_m0_20_cell _ Hge Hlt) as (B60 & B30 & B20).
  unfold apply_rules.
  rewrite H1, H2, T1, Htrust, T3, Hclaim, (py_lt_notna _ _ Hlt), B60, B30.
  rewrite (original_claim_skips_level_4 _ Hclaim).
  cbv beta iota delta [and_then cond bind or_next falls_through]. rewrite B20.
  reflexivity.
Qed.

Lemma py_lt_numeric (v : value) (c : float) :
  numeric v = true -> exists b, py_lt v c = Ok b.
Proof. destruct v; try discriminate; intros _; eexists; reflexivity. Qed.

Lemma py_ge_numeric (v : value) (c : float) :
  numeric v = true -> exists b, py_ge v c = Ok b.
Proof. destruct v; try discriminate; intros _; eexists; reflexivity. Qed.

Lemma default_numeric (v : value) (k : Z) :
  numeric_or_none v = true -> numeric (if notna v then v else VInt k) = true.
Proof. destruct v as [| |f|]; try discriminate; try reflexivity.
  intros _. simpl. now destruct (F64.is_nan f). Qed.

(** Follows the cascade along every branch. *)
Ltac walk_cascade :=
  repeat (cbv beta iota delta [or_next cond bind and_then falls_through returns];
          match goal with
          | |- context [if ?b then _ else _] => destruct b
          end);
  cbv beta iota delta [or_next cond bind and_then falls_through returns].

(** With a numeric deviation and a numeric quality score, [apply_rules]
    raises nothing and returns one of its labels. *)
Lemma apply_rules_returns_label (r : row) :
  numeric_or_none (desvio_preco_media_categoria r) = true ->
  numeric_or_none (nota_qualidade r) = true ->
  exists l, apply_rules r = Ok l /\ In l labels.
Proof.
  intros Hd Hq. unfold apply_rules. cbv zeta.
  pose proof (default_numeric _ 0 Hd) as Nd.
  pose proof (default_numeric _ 3 Hq) as Nq.
  set (d := if notna (desvio_preco_media_categoria r) then _ else _) in *.
  set (q := if notna (nota_qualidade r) then _ else _) in *.
  destruct (py_lt_numeric d m0_40 Nd) as [b1 ->].
  destruct (py_lt_numeric d m0_60 Nd) as [b2 ->].
  destruct (py_lt_numeric d m0_30 Nd) as [b3 ->].
  destruct (py_ge_numeric d m0_20 Nd) as [b4 ->].
  destruct (py_ge_numeric d m0_30 Nd) as [b5 ->].
  destruct (py_ge_numeric d m0_50 Nd) as [b6 ->].
  destruct (py_lt_numeric q p2_5 Nq) as [b7 ->].
  clearbody d q.
  walk_cascade;
    (eexists; split; [reflexivity | apply str_in_In; vm_compute; reflexivity]).
Qed.

(* ================================================================= *)
(** ** Tables *)

Lemma column_eqb_eq (a b : column) : column_eqb a b = true <-> a = b.
Proof. destruct a, b; simpl; split; intros H; try reflexivity; discriminate. Qed.

Lemma get_set_same (c : column) (v : value) (r : row) : get c (set c v r) = v.
Proof. destruct c; reflexivity. Qed.

Lemma get_set_other (c d : column) (v : value) (r : row) :
  c <> d -> get d (set c v r) = get d r.
Proof. destruct c, d; intros H; try reflexivity; now elim H. Qed.

Lemma is_object_false (c : column) (df : frame) (r : row) :
  is_object c df = false -> In r (rows df) -> numeric (get c r) = true.
Proof.
  unfold is_object. intros H Hr.
  destruct (numeric (get c r)) eqn:E; [reflexivity|].
  assert (X : existsb (fun r => match get c r with
                                | VStr _ | VNone => true
                                | VInt _ | VFloat _ => false
                                end) (rows df) = true).
  { apply existsb_exists. exists r. split; [assumption|].
    destruct (get c r); try discriminate; reflexivity. }
  congruence.
Qed.

Lemma is_object_ext (c : column) (cols cols' : list column) (rs : list row)
    (g : row -> row) :
  (forall r, get c (g r) = get c r) ->
  is_object c (mk_frame cols (map g rs)) = is_object c (mk_frame cols' rs).
Proof.
  intros H. unfold is_object. simpl. induction rs as [|r rs IH]; simpl.
  - reflexivity.
  - now rewrite H, IH.
Qed.

Lemma apply_rows_ok (c : column) (f : row -> result pystr) (rs : list row) :
  (forall r, In r rs -> exists l, f r = Ok l) ->
  apply_rows c f rs = Ok (map (fun r => set c (VStr (returned f r)) r) rs).
Proof.
  induction rs as [|r rs IH]; intros H; simpl.
  - reflexivity.
  - destruct (H r (or_introl eq_refl)) as [l E].
    unfold returned at 1. rewrite E. simpl.
    rewrite IH by (intros r' Hr'; apply H; now right). reflexivity.
Qed.

Lemma apply_rows_inv (c : column) (f : row -> result pystr) (rs out : list row) :
  apply_rows c f rs = Ok out -> forall r, In r rs -> exists l, f r = Ok l.
Proof.
  revert out. induction rs as [|r rs IH]; intros out H r' Hr'.
  - destruct Hr'.
  - simpl in H. destruct (f r) as [l|e] eqn:E; [|discriminate].
    simpl in H. destruct (apply_rows c f rs) as [rest|e] eqn:E'; [|discriminate].
    destruct Hr' as [<-|Hr'].
    + now exists l.
    + now apply (IH rest).
Qed.

(* ================================================================= *)
(** ** [create_heuristic_label] *)

Lemma has_assign_same (c : column) (f : row -> value) (df : frame) :
  has c (assign c f df) = true.
Proof.
  unfold assign, has at 1. cbn [columns].
  destruct (has c df) eqn:E; [exact E|].
  rewrite existsb_app. simpl.
  replace (column_eqb c c) with true by (now destruct c).
  now rewrite orb_true_r.
Qed.

Lemma has_assign_other (c d : column) (f : row -> value) (df : frame) :
  c <> d -> has d (assign c f df) = has d df.
Proof.
  intros H. unfold assign, has at 1. cbn [columns].
  destruct (has c df); [reflexivity|].
  rewrite existsb_app. simpl.
  replace (column_eqb d c) with false.
  - now rewrite !orb_false_r.
  - symmetry. destruct (column_eqb d c) eqn:E; [|reflexivity].
    apply column_eqb_eq in E. now subst.
Qed.

Lemma has_del_other (c d : column) (df : frame) :
  c <> d -> has d (del c df) = has d df.
Proof.
  intros H. unfold has, del. simpl.
  induction (columns df) as [|x cols IH]; simpl; [reflexivity|].
  destruct (column_eqb c x) eqn:E; simpl.
  - apply column_eqb_eq in E. subst x.
    replace (column_eqb d c) with false; [exact IH|].
    symmetry. destruct (column_eqb d c) eqn:E; [|reflexivity].
    apply column_eqb_eq in E. now subst.
  - now rewrite IH.
Qed.

Lemma has_del_same (c : column) (df : frame) : has c (del c df) = false.
Proof.
  unfold has, del. simpl.
  induction (columns df) as [|x cols IH]; simpl; [reflexivity|].
  destruct (column_eqb c x) eqn:E; simpl; [exact IH|]. now rewrite E.
Qed.

Lemma column_eqb_sym (a b : column) : column_eqb a b = column_eqb b a.
Proof. now destruct a, b. Qed.

Lemma has_assign (c d : column) (f : row -> value) (df : frame) :
  has d (assign c f df) = has d df || column_eqb d c.
Proof.
  destruct (column_eqb d c) eqn:E.
  - apply column_eqb_eq in E. subst. rewrite has_assign_same. now rewrite orb_true_r.
  - rewrite has_assign_other; [now rewrite orb_false_r|].
    intros ->. now rewrite (proj2 (column_eqb_eq d d) eq_refl) in E.
Qed.

Lemma has_del (c d : column) (df : frame) :
  has d (del c df) = has d df && negb (column_eqb d c).
Proof.
  destruct (column_eqb d c) eqn:E.
  - apply column_eqb_eq in E. subst. rewrite has_del_same. now rewrite andb_false_r.
  - rewrite has_del_other; [now rewrite andb_true_r|].
    intros ->. now rewrite (proj2 (column_eqb_eq d d) eq_refl) in E.
Qed.

Lemma has_if_del (c d : column) (df : frame) :
  c <> d -> has d (if has c df then del c df else df) = has d df.
Proof.
  intros H. destruct (has c df); [|reflexivity].
  rewrite has_del. replace (column_eqb d c) with false; [now rewrite andb_true_r|].
  symmetry. destruct (column_eqb d c) eqn:E; [|reflexivity].
  apply column_eqb_eq in E. now subst.
Qed.

(* ================================================================= *)
(** ** [create_heuristic_label] *)

(** The cells [apply_rules] reads on the line it receives. *)
Lemma prepared_cells (rt : runtime) (df : frame) (r : row) :
  In r (rows df) ->
  numeric_or_none (nota_qualidade (prepared rt df r)) = true
  /\ desvio_preco_media_categoria (prepared rt df r)
     = desvio_preco_media_categoria r
  /\ seller_trust_level (prepared rt df r) = seller_trust_level r.
Proof.
  intros Hr. repeat split. unfold prepared. simpl.
  unfold normalize_quality.
  destruct (has c_nota_qualidade df); [|reflexivity].
  destruct (is_object c_nota_qualidade df) eqn:E; [reflexivity|].
  pose proof (is_object_false _ _ _ E Hr) as N. simpl in N.
  now destruct (nota_qualidade r).
Qed.

(** When [apply_rules] returns on every line, so does
    [create_heuristic_label], with the lines [labelled]; the table gains
    the columns of the quality score and of the label. *)
Lemma match_nonempty {A B : Type} (l : list A) (x y : B) :
  l <> [] -> match l with [] => x | _ :: _ => y end = y.
Proof. destruct l; [intros H; now elim H | reflexivity]. Qed.

Lemma apply_rows_ext (c : column) (f g : row -> result pystr) (rs : list row) :
  (forall r, f r = g r) -> apply_rows c f rs = apply_rows c g rs.
Proof.
  intros H. induction rs as [|r rs IH]; simpl; [reflexivity|].
  now rewrite H, IH.
Qed.

(** On a table that has the two derived columns, [apply_rules] finds the
    four cells it reads: the other two are made by
    [create_heuristic_label] itself. *)
Lemma apply_rules_on_prepared (df : frame) (f g : row -> value) (r : row) :
  has c_desvio_preco_media_categoria df = true ->
  has c_seller_trust_level df = true ->
  apply_rules_on (assign c_nota_qualidade g (assign c_originalidade_norm f df)) r
  = apply_rules r.
Proof.
  intros Hd Ht. unfold apply_rules_on.
  rewrite !has_assign, Hd, Ht. cbn [column_eqb orb andb].
  now rewrite !orb_true_r.
Qed.

Lemma apply_rules_on_missing (df : frame) (f g : row -> value) (r : row) :
  has c_desvio_preco_media_categoria df && has c_seller_trust_level df = false ->
  apply_rules_on (assign c_nota_qualidade g (assign c_originalidade_norm f df)) r
  = Raise KeyError.
Proof.
  intros H. unfold apply_rules_on.
  rewrite !has_assign. cbn [column_eqb orb andb]. rewrite !orb_false_r.
  rewrite <- !andb_assoc, (andb_assoc (has c_desvio_preco_media_categoria df)), H.
  now rewrite andb_false_r.
Qed.

Lemma create_heuristic_label_ok (rt : runtime) (df : frame) :
  rows df <> [] ->
  has c_desvio_preco_media_categoria df = true ->
  has c_seller_trust_level df = true ->
  (forall r, In r (rows df) -> exists l, apply_rules (prepared rt df r) = Ok l) ->
  exists out,
    create_heuristic_label rt df = Ok out
    /\ rows out = map (labelled rt df) (rows df)
    /\ forall c, has c out
                 = (has c df || column_eqb c c_nota_qualidade
                    || column_eqb c c_label_heuristico_calculado)
                   && negb (column_eqb c c_originalidade_norm).
Proof.
  intros Hne Hd Ht H. unfold create_heuristic_label.
  set (df1 := assign c_originalidade_norm _ df).
  assert (Hhas : has c_nota_qualidade df1 = has c_nota_qualidade df)
    by (apply has_assign_other; discriminate).
  assert (Hobj : is_object c_nota_qualidade df1 = is_object c_nota_qualidade df).
  { destruct df as [cols rs]. unfold df1, assign. cbn [rows columns].
    apply is_object_ext. reflexivity. }
  rewrite Hhas, Hobj.
  set (df2 := assign c_nota_qualidade _ df1).
  assert (Hrows : rows df2 = map (prepared rt df) (rows df)).
  { unfold df2, df1, assign. cbn [rows]. rewrite map_map. reflexivity. }
  rewrite match_nonempty
    by (rewrite Hrows; intros Z; apply map_eq_nil in Z; now apply Hne).
  rewrite (apply_rows_ext _ _ apply_rules)
    by (intros r; apply apply_rules_on_prepared; assumption).
  rewrite Hrows.
  rewrite apply_rows_ok.
  2:{ intros r' Hr'. apply in_map_iff in Hr' as (r & <- & Hr). now apply H. }
  cbv beta iota delta [bind].
  set (rs := map _ (map (prepared rt df) (rows df))).
  set (df3 := mk_frame _ rs).
  assert (Hcols : forall c, has c df3
                            = has c df2 || column_eqb c c_label_heuristico_calculado).
  { intros c. rewrite <- (has_assign _ _ (fun _ => VNone)). reflexivity. }
  assert (Hnorm : has c_originalidade_norm df3 = true).
  { rewrite Hcols. unfold df2, df1. now rewrite !has_assign, !orb_true_r. }
  rewrite Hnorm. eexists. split; [reflexivity|]. split.
  - unfold del, df3, rs. cbn [rows]. rewrite !map_map. reflexivity.
  - intros c. rewrite has_del, Hcols. unfold df2, df1. rewrite !has_assign.
    destruct (column_eqb c c_originalidade_norm) eqn:E.
    + now rewrite !andb_false_r.
    + now rewrite orb_false_r.
Qed.

(** When [create_heuristic_label] returns, the table had a line and the
    two derived columns, and [apply_rules] returned on every line. *)
Lemma create_heuristic_label_inv (rt : runtime) (df out : frame) :
  create_heuristic_label rt df = Ok out ->
  rows df <> []
  /\ has c_desvio_preco_media_categoria df = true
  /\ has c_seller_trust_level df = true
  /\ forall r, In r (rows df) -> exists l, apply_rules (prepared rt df r) = Ok l.
Proof.
  unfold create_heuristic_label.
  set (df1 := assign c_originalidade_norm _ df).
  assert (Hhas : has c_nota_qualidade df1 = has c_nota_qualidade df)
    by (apply has_assign_other; discriminate).
  assert (Hobj : is_object c_nota_qualidade df1 = is_object c_nota_qualidade df).
  { destruct df as [cols rs]. unfold df1, assign. cbn [rows columns].
    apply is_object_ext. reflexivity. }
  rewrite Hhas, Hobj.
  set (df2 := assign c_nota_qualidade _ df1).
  assert (Hrows : rows df2 = map (prepared rt df) (rows df)).
  { unfold df2, df1, assign. cbn [rows]. rewrite map_map. reflexivity. }
  destruct (rows df2) as [|r0 rs0] eqn:E2; [discriminate|].
  destruct (has c_desvio_preco_media_categoria df && has c_seller_trust_level df)
    eqn:Hc.
  - apply andb_true_iff in Hc as [Hd Ht].
    rewrite (apply_rows_ext _ _ apply_rules)
      by (intros r; apply apply_rules_on_prepared; assumption).
    destruct (apply_rows _ _ _) as [rs|e] eqn:E; [|discriminate].
    intros _. split; [|split; [exact Hd|split; [exact Ht|]]].
    + intros Z. rewrite Z in Hrows. discriminate Hrows.
    + intros r Hr. apply (apply_rows_inv _ _ _ _ E). rewrite Hrows.
      now apply in_map.
  - assert (K : apply_rules_on df2 r0 = Raise KeyError)
      by (apply apply_rules_on_missing; exact Hc).
    cbn [apply_rows]. rewrite K. discriminate.
Qed.

(** On a table with a line and without one of the two derived columns
    the first call of [apply_rules] raises [KeyError]. *)
Lemma create_heuristic_label_needs_columns (rt : runtime) (df : frame) :
  rows df <> [] ->
  has c_desvio_preco_media_categoria df && has c_seller_trust_level df = false ->
  create_heuristic_label rt df = Raise KeyError.
Proof.
  intros Hne Hc. unfold create_heuristic_label.
  set (df1 := assign c_originalidade_norm _ df).
  set (df2 := assign c_nota_qualidade _ df1).
  assert (Hrows : rows df2
                  = map (fun r => set c_nota_qualidade
                                    (normalize_quality rt
                                       (has c_nota_qualidade df1)
                                       (is_object c_nota_qualidade df1)
                                       (nota_qualidade r)) r) (rows df1))
    by reflexivity.
  destruct (rows df2) as [|r0 rs0] eqn:E2.
  - symmetry in Hrows. apply map_eq_nil in Hrows.
    unfold df1, assign in Hrows. cbn [rows] in Hrows.
    apply map_eq_nil in Hrows. now elim Hne.
  - assert (K : apply_rules_on df2 r0 = Raise KeyError)
      by (apply apply_rules_on_missing; exact Hc).
    cbn [apply_rows]. rewrite K. reflexivity.
Qed.

Lemma prepared_returns_label (rt : runtime) (df : frame) (r : row) :
  In r (rows df) ->
  numeric_or_none (desvio_preco_media_categoria r) = true ->
  exists l, apply_rules (prepared rt df r) = Ok l /\ In l labels.
Proof.
  intros Hr Hd. destruct (prepared_cells rt df r Hr) as (Hq & Ed & _).
  apply apply_rules_returns_label; [now rewrite Ed | exact Hq].
Qed.

(** C2, as the code has it. On every table of one line or more that
    has the columns of the trust level and of the price deviation, and
    whose price deviations are numbers or missing (what
    [create_price_features] always leaves), whatever the originality
    claims, the trust levels and the quality scores hold (a value, none,
    or a text that is no number) and whether or not the table has the
    columns of the claim and of the quality score, the classifier raises
    nothing and gives every line exactly one label, taken from the labels
    of [apply_rules]. *)
Theorem C2_one_label_per_line (rt : runtime) (df : frame) :
  rows df <> [] ->
  has c_desvio_preco_media_categoria df = true ->
  has c_seller_trust_level df = true ->
  (forall r, In r (rows df) ->
             numeric_or_none (desvio_preco_media_categoria r) = true) ->
  exists out,
    create_heuristic_label rt df = Ok out
    /\ rows out = map (labelled rt df) (rows df)
    /\ forall r, In r (rows df) ->
         exists l, apply_rules (prepared rt df r) = Ok l
                   /\ label_heuristico_calculado (labelled rt df r) = VStr l
                   /\ In l labels.
Proof.
  intros Hne Hd Ht Hnum.
  destruct (create_heuristic_label_ok rt df Hne Hd Ht) as (out & E & Er & _).
  { intros r Hr. destruct (prepared_returns_label rt df r Hr (Hnum r Hr))
      as (l & El & _). now exists l. }
  exists out. split; [exact E|]. split; [exact Er|].
  intros r Hr.
  destruct (prepared_returns_label rt df r Hr (Hnum r Hr)) as (l & El & Hl).
  exists l. split; [exact El|]. split; [|exact Hl].
  unfold labelled, returned. rewrite El. reflexivity.
Qed.

(** C2, as stated, fails: a line whose price deviation is the text "abc",
    with a claim of originality and a seller of trust level 1, makes the
    comparison of line 153 raise [TypeError]. *)
Lemma C2_text_deviation_raises :
  create_heuristic_label Reference.rt df_text_deviation = Raise TypeError.
Proof. reflexivity. Qed.

(* ================================================================= *)
(** ** [create_price_features] *)

Lemma sub_nan_l (m : float) : F64.sub F64.nan m = F64.nan.
Proof. now destruct m. Qed.

Lemma sub_nan_r (p : float) : F64.sub p F64.nan = F64.nan.
Proof. now destruct p. Qed.

Lemma div_nan_l (m : float) : F64.div F64.nan m = F64.nan.
Proof. now destruct m. Qed.

Lemma div_nan_r (p : float) : F64.div p F64.nan = F64.nan.
Proof. now destruct p. Qed.

Lemma is_nan_eq (f : float) : F64.is_nan f = true -> f = F64.nan.
Proof. destruct f; try discriminate; reflexivity. Qed.

(** The deviation is finite, and it is 0.0 when the price is missing, when
    the mean is missing, and when the quotient is not finite. *)
Lemma price_deviation_finite (p m : float) :
  F64.is_finite (price_deviation p m) = true.
Proof. unfold price_deviation. now destruct (F64.div (F64.sub p m) m). Qed.

Lemma price_deviation_zero (p m : float) :
  F64.is_nan p = true \/ F64.is_nan m = true
  \/ F64.is_finite (F64.div (F64.sub p m) m) = false ->
  price_deviation p m = F64.zero.
Proof.
  unfold price_deviation. intros [H|[H|H]].
  - apply is_nan_eq in H. subst. now rewrite sub_nan_l, div_nan_l.
  - apply is_nan_eq in H. subst. now rewrite div_nan_r.
  - now destruct (F64.div (F64.sub p m) m).
Qed.

Lemma cap_average_nan (mx : float) : cap_average mx F64.nan = F64.nan.
Proof. unfold cap_average. now destruct mx. Qed.

(** The guard of lines 80-81 is the cap of lines 107-110. *)
Lemma cap_general_mean (mx g : float) :
  (if negb (F64.is_nan g) && (F64.ltb mx g || F64.leb g F64.zero)
   then F64.nan else g) = cap_average mx g.
Proof.
  unfold cap_average. destruct (F64.is_nan g) eqn:E; simpl.
  - apply is_nan_eq in E. subst. now destruct mx.
  - reflexivity.
Qed.

(** Every line that leaves [create_price_features] holds a capped mean
    and the deviation of its price from that mean. *)
Lemma price_features_line (rt : runtime) (df : frame) (mx : float) (r' : row) :
  In r' (rows (create_price_features rt df c_preco c_tipo_cartucho mx)) ->
  exists x,
    preco_medio_categoria r' = VFloat (cap_average mx x)
    /\ desvio_preco_media_categoria r'
       = VFloat (price_deviation (num (preco r')) (cap_average mx x)).
Proof.
  unfold create_price_features.
  destruct (negb (has c_preco df) || is_object c_preco df).
  - cbn [rows assign]. rewrite map_map. intros H.
    apply in_map_iff in H as (r & <- & _). exists F64.nan.
    rewrite cap_average_nan. split; [reflexivity|].
    cbn. now rewrite price_deviation_zero by (right; now left).
  - destruct (has c_tipo_cartucho df).
    + set (df1 := assign c_tipo_cartucho _ df).
      set (series := match dropna2 c_preco c_tipo_cartucho (rows df1) with
                     | [] => [] | _ :: _ => _ end).
      set (df2 := if has c_preco_medio_categoria df1 then _ else df1).
      set (df3 := if has c_temp_avg_cat df2 then _ else df2).
      set (df4 := match series with _ :: _ => _ | [] => _ end).
      assert (H4 : exists g, rows df4 = map (fun r => set c_temp_avg_cat (VFloat (g r)) r) (rows df3)).
      { unfold df4. destruct series; eexists; reflexivity. }
      destruct H4 as [g H4].
      cbn [rows assign del]. rewrite H4, !map_map. intros H.
      apply in_map_iff in H as (r & <- & _).
      exists (g r). split; reflexivity.
    + cbn [rows assign]. rewrite map_map. intros H.
      apply in_map_iff in H as (r & <- & _).
      rewrite cap_general_mean. eexists. split; reflexivity.
Qed.

(** The capped mean is missing or lies in (0, 5000]. *)
Lemma cap_average_range (x : float) :
  let m := cap_average MAX_PLAUSIBLE_PRICE_AVERAGE x in
  F64.is_nan m = true
  \/ (F64.ltb F64.zero m = true /\ F64.leb m MAX_PLAUSIBLE_PRICE_AVERAGE = true).
Proof.
  cbv zeta.
  destruct (F64.is_nan x) eqn:N;
    [ left; apply is_nan_eq in N; now subst |].
  destruct (F64.ltb MAX_PLAUSIBLE_PRICE_AVERAGE x) eqn:E1;
    [ left; unfold cap_average; now rewrite E1 |].
  destruct (F64.leb x F64.zero) eqn:E2;
    [ left; unfold cap_average; now rewrite E1, E2 |].
  right. unfold cap_average. rewrite E1, E2. cbn [orb].
  revert N E1 E2. float_order x.
Qed.

Lemma cap_average_discards (x : float) :
  F64.leb x F64.zero = true \/ F64.ltb MAX_PLAUSIBLE_PRICE_AVERAGE x = true ->
  cap_average MAX_PLAUSIBLE_PRICE_AVERAGE x = F64.nan.
Proof.
  unfold cap_average. intros [H|H]; rewrite H; [|reflexivity].
  now rewrite orb_true_r.
Qed.

(** The capped price is missing or at most 20000. *)
Lemma cap_price_range (x : float) :
  let p := cap_price MAX_PLAUSIBLE_PRICE_INDIVIDUAL x in
  (F64.is_nan p = true \/ F64.leb p MAX_PLAUSIBLE_PRICE_INDIVIDUAL = true)
  /\ F64.ltb MAX_PLAUSIBLE_PRICE_INDIVIDUAL p = false.
Proof.
  cbv zeta. unfold cap_price.
  destruct (F64.ltb MAX_PLAUSIBLE_PRICE_INDIVIDUAL x) eqn:E.
  - split; [now left | reflexivity].
  - split; [|exact E].
    destruct (F64.is_nan x) eqn:N; [now left | right].
    revert N E. float_order x.
Qed.

(** C3. After [create_price_features], on every line the price deviation
    is a finite number, never a missing one, and it is exactly 0.0 when
    the price of the line is missing, when the mean of its category is
    missing, and when the quotient (price - mean) / mean is not finite. *)
Theorem C3_deviation_finite (rt : runtime) (df : frame) (mx : float) (r' : row) :
  In r' (rows (create_price_features rt df c_preco c_tipo_cartucho mx)) ->
  exists d,
    desvio_preco_media_categoria r' = VFloat d
    /\ F64.is_finite d = true
    /\ (let p := num (preco r') in
        let m := num (preco_medio_categoria r') in
        F64.is_nan p = true \/ F64.is_nan m = true
        \/ F64.is_finite (F64.div (F64.sub p m) m) = false ->
        d = F64.zero).
Proof.
  intros H. destruct (price_features_line rt df mx r' H) as (x & Em & Ed).
  exists (price_deviation (num (preco r')) (cap_average mx x)).
  split; [exact Ed|]. split; [apply price_deviation_finite|].
  cbv zeta. rewrite Em. cbn [num]. apply price_deviation_zero.
Qed.

(** C5. After [clean_price_column], line by line: when the number read
    in the price cell of a line is above 20000.00 the price stored on the
    line is missing, and otherwise it is that number; so the price stored
    is missing or at most 20000.00, never above. *)
Theorem C5_price_capped (rt : runtime) (df : frame) :
  has c_preco df = true ->
  Forall2
    (fun r r' =>
       exists p,
         preco r' = VFloat p
         /\ (F64.ltb MAX_PLAUSIBLE_PRICE_INDIVIDUAL (parsed_price rt df r) = true ->
             p = F64.nan)
         /\ (F64.ltb MAX_PLAUSIBLE_PRICE_INDIVIDUAL (parsed_price rt df r) = false ->
             p = parsed_price rt df r)
         /\ (F64.is_nan p = true
             \/ F64.leb p MAX_PLAUSIBLE_PRICE_INDIVIDUAL = true)
         /\ F64.ltb MAX_PLAUSIBLE_PRICE_INDIVIDUAL p = false)
    (rows df)
    (rows (clean_price_column rt df c_preco MAX_PLAUSIBLE_PRICE_INDIVIDUAL)).
Proof.
  intros Hhas. unfold clean_price_column. rewrite Hhas. cbn [negb rows assign].
  unfold parsed_price, clean_price_cell.
  generalize (is_object c_preco df). intros o.
  induction (rows df) as [|r rs IH]; [constructor|].
  cbn [map]. constructor; [|exact IH].
  cbn beta zeta. cbn [get].
  set (x := to_numeric rt _).
  exists (cap_price MAX_PLAUSIBLE_PRICE_INDIVIDUAL x).
  split; [reflexivity|].
  destruct (cap_price_range x) as [R1 R2].
  unfold cap_price in *.
  split; [intros E; now rewrite E|].
  split; [intros E; now rewrite E|].
  split; [exact R1 | exact R2].
Qed.

(* ================================================================= *)
(** ** Trimming and the normalization of categories *)

Lemma lstrip_head (s : pystr) :
  lstrip s = [] \/ exists c t, lstrip s = c :: t /\ is_space c = false.
Proof.
  induction s as [|c t IH]; simpl.
  - now left.
  - destruct (is_space c) eqn:E; [exact IH|]. right. now exists c, t.
Qed.

Lemma lstrip_suffix (s : pystr) :
  exists pre, s = pre ++ lstrip s /\ forallb is_space pre = true.
Proof.
  induction s as [|c t (pre & E & B)]; simpl.
  - now exists [].
  - destruct (is_space c) eqn:Ec.
    + exists (c :: pre). simpl. rewrite Ec, B. split; [now f_equal | reflexivity].
    + now exists [].
Qed.

Lemma lstrip_fixed (c : N) (t : pystr) :
  is_space c = false -> lstrip (c :: t) = c :: t.
Proof. intros E. simpl. now rewrite E. Qed.

Lemma lstrip_idem (s : pystr) : lstrip (lstrip s) = lstrip s.
Proof.
  destruct (lstrip_head s) as [E|(c & t & E & Hc)]; rewrite E.
  - reflexivity.
  - now apply lstrip_fixed.
Qed.

(** Trimmed text is empty or starts with a character that is no space. *)
Lemma strip_head (s : pystr) :
  strip s = [] \/ exists c t, strip s = c :: t /\ is_space c = false.
Proof.
  unfold strip, rstrip.
  destruct (lstrip_head s) as [E|(c & t & E & Hc)]; rewrite E.
  - now left.
  - destruct (lstrip_suffix (rev (c :: t))) as (pre & Epre & B).
    assert (A : c :: t = rev (lstrip (rev (c :: t))) ++ rev pre).
    { rewrite <- rev_app_distr, <- Epre. now rewrite rev_involutive. }
    destruct (rev (lstrip (rev (c :: t)))) as [|x u].
    + exfalso. simpl in A.
      assert (In c (rev pre)) by (rewrite <- A; now left).
      rewrite forallb_forall in B. apply in_rev in H. apply B in H. congruence.
    + right. exists x, u. injection A as -> _. now split.
Qed.

Lemma strip_idem (s : pystr) : strip (strip s) = strip s.
Proof.
  destruct (strip_head s) as [E|(c & t & E & Hc)].
  - now rewrite E.
  - unfold strip at 1. rewrite E, (lstrip_fixed c t Hc), <- E.
    unfold strip, rstrip. rewrite rev_involutive. now rewrite lstrip_idem.
Qed.

Lemma strip_not_blank (s : pystr) : strip s <> [] -> blank (strip s) = false.
Proof.
  intros H. destruct (strip_head s) as [E|(c & t & E & Hc)]; [contradiction|].
  rewrite E. unfold blank. simpl. now rewrite Hc.
Qed.

(** What [normalize_category] leaves in a cell. *)
Lemma normalize_category_text (rt : runtime) (v : value) :
  exists s,
    normalize_category rt v = VStr s
    /\ strip s = s /\ s <> []
    /\ str_in s invalid_categories = false.
Proof.
  unfold normalize_category.
  destruct (str_in (strip (py_str rt v)) invalid_categories) eqn:E.
  - exists CATEGORIA_AUSENTE_OU_INVALIDA. repeat split. discriminate.
  - exists (strip (py_str rt v)). split; [reflexivity|].
    split; [apply strip_idem|]. split; [|exact E].
    intros Z. rewrite Z in E. discriminate.
Qed.

(** C8, as the code has it. The normalization of a category trims the
    text and replaces the empty text and the four spellings "nan", "None",
    "NAN" and "NONE" by "CATEGORIA_AUSENTE_OU_INVALIDA"; any other text is
    kept as trimmed. The outcome is never empty, never blank and never one
    of these four spellings. *)
Theorem C8_category_normalized (rt : runtime) (v : value) :
  exists s,
    normalize_category rt v = VStr s
    /\ (str_in (strip (py_str rt v)) invalid_categories = true ->
        s = CATEGORIA_AUSENTE_OU_INVALIDA)
    /\ (str_in (strip (py_str rt v)) invalid_categories = false ->
        s = strip (py_str rt v))
    /\ s <> [] /\ blank s = false /\ strip s = s
    /\ ~ In s [lit "nan"; lit "None"; lit "NAN"; lit "NONE"].
Proof.
  unfold normalize_category.
  destruct (str_in (strip (py_str rt v)) invalid_categories) eqn:E.
  - exists CATEGORIA_AUSENTE_OU_INVALIDA.
    repeat split; try discriminate.
    intros [H|[H|[H|[H|[]]]]]; discriminate H.
  - exists (strip (py_str rt v)).
    assert (Hne : strip (py_str rt v) <> [])
      by (intros Z; rewrite Z in E; discriminate).
    repeat split; try discriminate.
    + exact Hne.
    + now apply strip_not_blank.
    + apply strip_idem.
    + intros Hin.
      assert (X : In (strip (py_str rt v)) invalid_categories)
        by (right; exact Hin).
      apply str_in_In in X. congruence.
Qed.

(** C8, as stated, fails: "none" in lower case is "nan"-like and is kept. *)
Lemma C8_lowercase_none_kept :
  nan_like (lit "none") = true
  /\ normalize_category Reference.rt (VStr (lit "none")) = VStr (lit "none")
  /\ nan_like (lit "NaN") = true
  /\ normalize_category Reference.rt (VStr (lit "NaN")) = VStr (lit "NaN").
Proof. repeat split. Qed.

(* ================================================================= *)
(** ** The text of a price *)

Lemma ascii_digit_cases (c : N) :
  ascii_digit c = true ->
  In c [48; 49; 50; 51; 52; 53; 54; 55; 56; 57]%N.
Proof.
  unfold ascii_digit. intros H. apply andb_true_iff in H as [L U].
  apply N.leb_le in L, U. simpl.
  assert (c = 48 \/ c = 49 \/ c = 50 \/ c = 51 \/ c = 52 \/ c = 53
          \/ c = 54 \/ c = 55 \/ c = 56 \/ c = 57)%N by lia.
  intuition.
Qed.

Lemma numeral_char_plain (c : N) :
  numeral_char c = true ->
  is_space c = false /\ (c =? 82)%N = false /\ (c =? 10)%N = false.
Proof.
  unfold numeral_char. intros H.
  apply orb_true_iff in H as [H|H]; [apply orb_true_iff in H as [H|H]|].
  - apply ascii_digit_cases in H. simpl in H.
    repeat (destruct H as [<-|H]; [now repeat split|]). destruct H.
  - apply N.eqb_eq in H. subst. now repeat split.
  - apply N.eqb_eq in H. subst. now repeat split.
Qed.

Lemma digit_numeral_char (c : N) : ascii_digit c = true -> numeral_char c = true.
Proof. unfold numeral_char. now intros ->. Qed.

Lemma digit_plain (c : N) :
  ascii_digit c = true ->
  (c =? 46)%N = false /\ (c =? 44)%N = false /\ (c =? 10)%N = false.
Proof.
  intros H. apply ascii_digit_cases in H. simpl in H.
  repeat (destruct H as [<-|H]; [now repeat split|]). destruct H.
Qed.

Lemma ascii_digit_is_digit (rt : runtime) (c : N) :
  ascii_digit c = true -> is_digit rt c = true.
Proof. unfold ascii_digit, is_digit. now intros ->. Qed.

Lemma remove_currency_cons (c : N) (t : pystr) :
  (c =? 82)%N = false -> remove_currency (c :: t) = c :: remove_currency t.
Proof. intros H. simpl. rewrite H. now destruct t. Qed.

Lemma remove_currency_keeps (pre s : pystr) :
  forallb (fun c => negb (c =? 82)%N) pre = true ->
  remove_currency (pre ++ s) = pre ++ remove_currency s.
Proof.
  induction pre as [|c pre IH]; intros H; [reflexivity|].
  simpl in H. apply andb_true_iff in H as [Hc H].
  apply negb_true_iff in Hc.
  change ((c :: pre) ++ s) with (c :: (pre ++ s)).
  rewrite remove_currency_cons by exact Hc. now rewrite IH.
Qed.

Lemma remove_currency_id (s : pystr) :
  forallb (fun c => negb (c =? 82)%N) s = true -> remove_currency s = s.
Proof.
  intros H. rewrite <- (app_nil_r s) at 1.
  rewrite remove_currency_keeps by exact H. simpl. apply app_nil_r.
Qed.

Lemma remove_spaces_app (a b : pystr) :
  remove_spaces (a ++ b) = remove_spaces a ++ remove_spaces b.
Proof. apply filter_app. Qed.

Lemma remove_spaces_blank (s : pystr) : blank s = true -> remove_spaces s = [].
Proof.
  unfold blank, remove_spaces. induction s as [|c t IH]; simpl; [reflexivity|].
  intros H. apply andb_true_iff in H as [-> H]. simpl. now apply IH.
Qed.

Lemma remove_spaces_id (s : pystr) :
  forallb (fun c => negb (is_space c)) s = true -> remove_spaces s = s.
Proof.
  unfold remove_spaces. induction s as [|c t IH]; simpl; [reflexivity|].
  intros H. apply andb_true_iff in H as [-> H]. now rewrite IH.
Qed.

Lemma forallb_impl {A : Type} (f g : A -> bool) (l : list A) :
  (forall x, f x = true -> g x = true) ->
  forallb f l = true -> forallb g l = true.
Proof.
  intros H. rewrite !forallb_forall. intros F x Hx. apply H, F, Hx.
Qed.

Lemma remove_thousands_sep_keeps (rt : runtime) (pre s : pystr) :
  forallb (fun c => negb (c =? 46)%N) pre = true ->
  remove_thousands_sep rt (pre ++ s) = pre ++ remove_thousands_sep rt s.
Proof.
  induction pre as [|c pre IH]; intros H; [reflexivity|].
  simpl in H. apply andb_true_iff in H as [Hc H]. apply negb_true_iff in Hc.
  simpl. rewrite Hc. simpl. now rewrite IH.
Qed.

Lemma lookahead_skip (rt : runtime) (pre s : pystr) :
  forallb (fun c => negb (c =? 10)%N) pre = true ->
  thousands_lookahead rt s = true ->
  thousands_lookahead rt (pre ++ s) = true.
Proof.
  induction pre as [|c pre IH]; intros H Hs; [exact Hs|].
  simpl in H. apply andb_true_iff in H as [Hc H].
  change ((c :: pre) ++ s) with (c :: (pre ++ s)).
  cbn [thousands_lookahead]. rewrite Hc, (IH H Hs). apply orb_true_r.
Qed.

Lemma group_three (g : pystr) :
  group_ok g = true ->
  exists a b c, g = [a; b; c]
    /\ ascii_digit a = true /\ ascii_digit b = true /\ ascii_digit c = true.
Proof.
  unfold group_ok. intros H. apply andb_true_iff in H as [L D].
  destruct g as [|a [|b [|c [|]]]]; try discriminate.
  simpl in D. exists a, b, c.
  apply andb_true_iff in D as [Da D]. apply andb_true_iff in D as [Db D].
  apply andb_true_iff in D as [Dc _]. now repeat split.
Qed.

Lemma digits_no_line_feed (g : pystr) :
  forallb ascii_digit g = true ->
  forallb (fun c => negb (c =? 10)%N) g = true.
Proof.
  apply forallb_impl. intros c H. now destruct (digit_plain c H) as (_ & _ & ->).
Qed.

Lemma digits_no_period (g : pystr) :
  forallb ascii_digit g = true ->
  forallb (fun c => negb (c =? 46)%N) g = true.
Proof.
  apply forallb_impl. intros c H. now destruct (digit_plain c H) as (-> & _ & _).
Qed.

Lemma group_digits (g : pystr) : group_ok g = true -> forallb ascii_digit g = true.
Proof. unfold group_ok. intros H. now apply andb_true_iff in H as [_ D]. Qed.

(** After a group of three digits, the lookahead of the pattern succeeds:
    on the group itself when it is the last one, further on otherwise. *)
Lemma lookahead_groups (rt : runtime) (g : pystr) (gs : list pystr)
    (cents : option pystr) :
  group_ok g = true -> forallb group_ok gs = true ->
  thousands_lookahead rt
    (g ++ List.concat (map (cons 46%N) gs) ++ decimals 44 cents) = true.
Proof.
  revert g. induction gs as [|g' gs IH]; intros g Hg Hgs.
  - destruct (group_three g Hg) as (a & b & c & -> & Da & Db & Dc).
    cbn [List.concat map app thousands_lookahead three_digits_then_stop].
    rewrite !ascii_digit_is_digit by assumption.
    now destruct cents.
  - simpl in Hgs. apply andb_true_iff in Hgs as [Hg' Hgs].
    cbn [List.concat map].
    rewrite <- app_assoc. change ((46%N :: g') ++ ?x) with (46%N :: (g' ++ x)).
    replace (g ++ 46%N :: g' ++ List.concat (map (cons 46%N) gs) ++ decimals 44 cents)
      with ((g ++ [46%N]) ++ g' ++ List.concat (map (cons 46%N) gs) ++ decimals 44 cents)
      by (now rewrite <- app_assoc).
    apply lookahead_skip; [|now apply IH].
    rewrite forallb_app, (digits_no_line_feed g (group_digits g Hg)).
    reflexivity.
Qed.

Lemma remove_thousands_sep_groups (rt : runtime) (gs : list pystr)
    (cents : option pystr) :
  forallb group_ok gs = true ->
  match cents with Some d => forallb ascii_digit d | None => true end = true ->
  remove_thousands_sep rt (List.concat (map (cons 46%N) gs) ++ decimals 44 cents)
  = List.concat gs ++ decimals 44 cents.
Proof.
  intros Hgs Hc. induction gs as [|g gs IH].
  - cbn [List.concat map app].
    rewrite <- (app_nil_r (decimals 44 cents)) at 1.
    rewrite remove_thousands_sep_keeps; [apply app_nil_r|].
    destruct cents as [d|]; [|reflexivity].
    simpl. now apply digits_no_period.
  - simpl in Hgs. apply andb_true_iff in Hgs as [Hg Hgs].
    cbn [List.concat map]. rewrite <- !app_assoc.
    change ((46%N :: g) ++ ?x) with (46%N :: (g ++ x)).
    cbn [remove_thousands_sep].
    rewrite (lookahead_groups rt g gs cents Hg Hgs). cbn [N.eqb Pos.eqb andb].
    rewrite remove_thousands_sep_keeps
      by (apply digits_no_period, group_digits, Hg).
    now rewrite IH.
Qed.

Lemma blank_no_currency (s : pystr) :
  blank s = true -> forallb (fun c => negb (c =? 82)%N) s = true.
Proof.
  apply forallb_impl. intros c H.
  destruct (c =? 82)%N eqn:E; [|reflexivity].
  apply N.eqb_eq in E. subst. discriminate.
Qed.

Lemma digits_numeral (l : pystr) :
  forallb ascii_digit l = true -> forallb numeral_char l = true.
Proof. apply forallb_impl, digit_numeral_char. Qed.

Lemma groups_numeral (gs : list pystr) :
  forallb group_ok gs = true ->
  forallb numeral_char (List.concat (map (cons 46%N) gs)) = true.
Proof.
  induction gs as [|g gs IH]; intros H; [reflexivity|].
  simpl in H. apply andb_true_iff in H as [Hg H].
  cbn [List.concat map]. rewrite forallb_app, (IH H). cbn [forallb].
  now rewrite (digits_numeral g (group_digits g Hg)).
Qed.

Lemma groups_digits (gs : list pystr) :
  forallb group_ok gs = true -> forallb ascii_digit (List.concat gs) = true.
Proof.
  induction gs as [|g gs IH]; intros H; [reflexivity|].
  simpl in H. apply andb_true_iff in H as [Hg H].
  cbn [List.concat]. now rewrite forallb_app, (IH H), (group_digits g Hg).
Qed.

Lemma decimals_numeral (cents : option pystr) :
  match cents with Some d => forallb ascii_digit d | None => true end = true ->
  forallb numeral_char (decimals 44 cents) = true.
Proof.
  destruct cents as [d|]; [|reflexivity]. intros H. simpl.
  now apply digits_numeral.
Qed.

Lemma numeral_no_currency (s : pystr) :
  forallb numeral_char s = true -> forallb (fun c => negb (c =? 82)%N) s = true.
Proof.
  apply forallb_impl. intros c H.
  now destruct (numeral_char_plain c H) as (_ & -> & _).
Qed.

Lemma numeral_no_space (s : pystr) :
  forallb numeral_char s = true -> forallb (fun c => negb (is_space c)) s = true.
Proof.
  apply forallb_impl. intros c H.
  now destruct (numeral_char_plain c H) as (-> & _ & _).
Qed.

Lemma comma_to_period_digits (l : pystr) :
  forallb ascii_digit l = true -> comma_to_period l = l.
Proof.
  unfold comma_to_period. induction l as [|c l IH]; intros H; [reflexivity|].
  simpl in H. apply andb_true_iff in H as [Hc H]. simpl.
  destruct (digit_plain c Hc) as (_ & -> & _). now rewrite IH.
Qed.

Lemma comma_to_period_decimals (cents : option pystr) :
  match cents with Some d => forallb ascii_digit d | None => true end = true ->
  comma_to_period (decimals 44 cents) = decimals 46 cents.
Proof.
  destruct cents as [d|]; [|reflexivity]. intros H.
  change (decimals 44 (Some d)) with (44%N :: d).
  unfold comma_to_period. cbn [map N.eqb Pos.eqb].
  fold (comma_to_period d). now rewrite comma_to_period_digits.
Qed.

(** The four replacements turn a price as it is written into the
    numeral it stands for. *)
Lemma clean_price_text_render (rt : runtime) (p : price_text) :
  well_formed p = true -> clean_price_text rt (render p) = intended p.
Proof.
  unfold well_formed. intros H.
  apply andb_true_iff in H as [H Hc]. apply andb_true_iff in H as [H Hgs].
  apply andb_true_iff in H as [H Hh]. apply andb_true_iff in H as [H Ht].
  apply andb_true_iff in H as [Hl Hg].
  unfold clean_price_text, render, intended.
  set (G := List.concat (map (cons 46%N) (groups p))).
  set (D := decimals 44 (cents p)).
  assert (NG : forallb numeral_char G = true) by now apply groups_numeral.
  assert (ND : forallb numeral_char D = true) by now apply decimals_numeral.
  assert (NH : forallb numeral_char (head p) = true) by now apply digits_numeral.
  assert (NB : forallb numeral_char (head p ++ G ++ D) = true)
    by now rewrite !forallb_app, NH, NG, ND.
  replace (lead p ++ (if currency p then lit "R$" else []) ++ gap p
           ++ head p ++ G ++ D ++ trail p)
    with (lead p ++ (if currency p then lit "R$" else [])
          ++ (gap p ++ (head p ++ G ++ D) ++ trail p))
    by now rewrite <- !app_assoc.
  set (rest := gap p ++ (head p ++ G ++ D) ++ trail p).
  assert (NR : forallb (fun c => negb (c =? 82)%N) rest = true).
  { unfold rest. rewrite forallb_app, (blank_no_currency _ Hg). cbn [andb].
    rewrite forallb_app, (numeral_no_currency _ NB).
    now rewrite (blank_no_currency _ Ht). }
  assert (E1 : remove_currency (lead p ++ (if currency p then lit "R$" else [])
                                ++ rest) = lead p ++ rest).
  { rewrite remove_currency_keeps by now apply blank_no_currency.
    f_equal. destruct (currency p).
    - change (lit "R$" ++ rest) with (82%N :: 36%N :: rest).
      cbn [remove_currency N.eqb Pos.eqb andb]. now apply remove_currency_id.
    - now apply remove_currency_id. }
  rewrite E1. unfold rest.
  rewrite !remove_spaces_app.
  rewrite (remove_spaces_blank _ Hl), (remove_spaces_blank _ Hg),
          (remove_spaces_blank _ Ht).
  rewrite <- !remove_spaces_app, (remove_spaces_id _ (numeral_no_space _ NB)).
  cbn [app]. rewrite app_nil_r.
  rewrite remove_thousands_sep_keeps by now apply digits_no_period.
  unfold G, D. rewrite remove_thousands_sep_groups by assumption.
  unfold comma_to_period. rewrite !map_app. fold (comma_to_period (head p)).
  fold (comma_to_period (List.concat (groups p))).
  fold (comma_to_period (decimals 44 (cents p))).
  rewrite comma_to_period_digits by assumption.
  rewrite comma_to_period_digits by now apply groups_digits.
  now rewrite comma_to_period_decimals.
Qed.

Lemma cap_price_nan (mx : float) : cap_price mx F64.nan = F64.nan.
Proof. unfold cap_price. now destruct mx. Qed.

(** C4. For a price written with an optional "R$", optional whitespace,
    periods before groups of three digits and optional decimals after a
    comma, the text handed to the number parser is the intended decimal
    numeral (all the digits of the integer part, a period, the decimals),
    and the stored price is the number this numeral denotes, capped. A
    text that does not parse gives a missing price and no error. *)
Theorem C4_price_text_normalized (rt : runtime) (mx : float) (p : price_text) :
  well_formed p = true ->
  clean_price_text rt (render p) = intended p
  /\ clean_price_cell rt true mx (VStr (render p))
     = VFloat (cap_price mx (to_numeric rt (VStr (intended p))))
  /\ (forall v, parse_number rt (clean_price_text rt (py_str rt v)) = None ->
                clean_price_cell rt true mx v = VFloat F64.nan).
Proof.
  intros H. split; [now apply clean_price_text_render|]. split.
  - unfold clean_price_cell. cbn [py_str].
    now rewrite clean_price_text_render.
  - intros v E. unfold clean_price_cell. cbn [to_numeric]. rewrite E.
    now rewrite cap_price_nan.
Qed.

(** "R$ 1.234,56" becomes 1234.56 and "89,90" becomes 89.90. *)
Lemma C4_examples :
  (render price_1234_56 = lit "R$ 1.234,56"
   /\ clean_price_text Reference.rt (lit "R$ 1.234,56") = lit "1234.56"
   /\ clean_price_cell Reference.rt true MAX_PLAUSIBLE_PRICE_INDIVIDUAL
        (VStr (lit "R$ 1.234,56")) = VFloat (F64.ratio 123456 100))
  /\ (render price_89_90 = lit "89,90"
      /\ clean_price_text Reference.rt (lit "89,90") = lit "89.90"
      /\ clean_price_cell Reference.rt true MAX_PLAUSIBLE_PRICE_INDIVIDUAL
           (VStr (lit "89,90")) = VFloat (F64.ratio 8990 100)).
Proof.
  split.
  - destruct (C4_price_text_normalized Reference.rt
                MAX_PLAUSIBLE_PRICE_INDIVIDUAL price_1234_56 eq_refl)
      as (T & C & _).
    split; [reflexivity|]. split; [exact T|].
    etransitivity; [exact C|]. vm_compute. reflexivity.
  - destruct (C4_price_text_normalized Reference.rt
                MAX_PLAUSIBLE_PRICE_INDIVIDUAL price_89_90 eq_refl)
      as (T & C & _).
    split; [reflexivity|]. split; [exact T|].
    etransitivity; [exact C|]. vm_compute. reflexivity.
Defined.

(* ================================================================= *)
(** ** The lines each step leaves *)

Lemma columns_assign_present (c : column) (f : row -> value) (df : frame) :
  has c df = true -> columns (assign c f df) = columns df.
Proof. intros H. unfold assign. cbn [columns]. now rewrite H. Qed.

Lemma clean_price_column_rows (rt : runtime) (df : frame) (mx : float) :
  rows (clean_price_column rt df c_preco mx) = map (price_row rt df mx) (rows df).
Proof.
  unfold clean_price_column, price_row. destruct (has c_preco df); cbn [negb].
  - reflexivity.
  - symmetry. apply map_id.
Qed.

Lemma clean_price_column_has (rt : runtime) (df : frame) (mx : float) (c : column) :
  has c (clean_price_column rt df c_preco mx) = has c df.
Proof.
  unfold clean_price_column. destruct (has c_preco df) eqn:E; cbn [negb].
  - unfold has at 1. now rewrite columns_assign_present.
  - reflexivity.
Qed.

Lemma existsb_map_false {A B : Type} (p : B -> bool) (g : A -> B) (l : list A) :
  (forall x, p (g x) = false) -> existsb p (map g l) = false.
Proof.
  intros H. induction l as [|x l IH]; simpl; [reflexivity|]. now rewrite H, IH.
Qed.

Lemma clean_price_column_numeric (rt : runtime) (df : frame) (mx : float) :
  has c_preco df = true ->
  is_object c_preco (clean_price_column rt df c_preco mx) = false.
Proof.
  intros H. unfold is_object. rewrite clean_price_column_rows.
  apply existsb_map_false. intros r. unfold price_row. now rewrite H.
Qed.

Lemma create_price_features_rows (rt : runtime) (df : frame) (mx : float) :
  rows (create_price_features rt df c_preco c_tipo_cartucho mx)
  = map (features_row rt df mx) (rows df).
Proof.
  unfold create_price_features, features_row.
  destruct (negb (has c_preco df) || is_object c_preco df).
  - cbn [rows assign]. now rewrite map_map.
  - destruct (has c_tipo_cartucho df).
    + set (df1 := assign c_tipo_cartucho _ df).
      set (series := match dropna2 c_preco c_tipo_cartucho (rows df1) with
                     | [] => [] | _ :: _ => _ end).
      set (df2 := if has c_preco_medio_categoria df1 then _ else df1).
      set (df3 := if has c_temp_avg_cat df2 then _ else df2).
      set (df4 := match series with _ :: _ => _ | [] => _ end).
      assert (E : rows df4
                  = map (fun r => set c_temp_avg_cat
                                    (VFloat (merge_lookup series (tipo_cartucho r))) r)
                        (rows df3)).
      { unfold df4. destruct series; reflexivity. }
      cbn [rows assign del]. rewrite E. clear E. clearbody df4.
      assert (Es : series
                   = series_of rt
                       (map (fun r => set c_tipo_cartucho
                                        (normalize_category rt (tipo_cartucho r)) r)
                            (rows df))) by reflexivity.
      clearbody series. subst series.
      assert (E3 : exists b1 b2 : bool,
                 rows df3
                 = map (fun r =>
                          (if b2 then set c_temp_avg_cat VNone else fun x => x)
                            ((if b1 then set c_preco_medio_categoria VNone
                              else fun x => x)
                               (set c_tipo_cartucho
                                  (normalize_category rt (tipo_cartucho r)) r)))
                       (rows df)).
      { exists (has c_preco_medio_categoria df1), (has c_temp_avg_cat df2).
        unfold df3, df2.
        destruct (has c_preco_medio_categoria df1);
          destruct (has c_temp_avg_cat _);
          cbn [rows del assign df1]; rewrite ?map_map; reflexivity. }
      destruct E3 as (b1 & b2 & E3). rewrite E3, !map_map.
      apply map_ext. intros r. destruct b1, b2; reflexivity.
    + cbn [rows assign]. rewrite map_map. apply map_ext. intros r.
      unfold general_mean. cbv zeta. rewrite <- cap_general_mean.
      reflexivity.
Qed.

(** [create_price_features] adds its two columns and removes none of the
    others, but the temporary one. *)
Lemma create_price_features_has (rt : runtime) (df : frame) (mx : float)
    (c : column) :
  c <> c_preco_medio_categoria -> c <> c_desvio_preco_media_categoria ->
  c <> c_temp_avg_cat ->
  has c (create_price_features rt df c_preco c_tipo_cartucho mx) = has c df.
Proof.
  intros H1 H2 H3.
  assert (N1 : column_eqb c c_preco_medio_categoria = false)
    by (destruct c; try reflexivity; now elim H1).
  assert (N2 : column_eqb c c_desvio_preco_media_categoria = false)
    by (destruct c; try reflexivity; now elim H2).
  assert (N3 : column_eqb c c_temp_avg_cat = false)
    by (destruct c; try reflexivity; now elim H3).
  unfold create_price_features.
  destruct (negb (has c_preco df) || is_object c_preco df).
  - now rewrite !has_assign, N1, N2, !orb_false_r.
  - destruct (has c_tipo_cartucho df) eqn:Ht.
    + set (df1 := assign c_tipo_cartucho _ df).
      set (series := match dropna2 c_preco c_tipo_cartucho (rows df1) with
                     | [] => [] | _ :: _ => _ end).
      set (df2 := if has c_preco_medio_categoria df1 then _ else df1).
      set (df3 := if has c_temp_avg_cat df2 then _ else df2).
      set (df4 := match series with _ :: _ => _ | [] => _ end).
      assert (E4 : has c df4 = has c df3).
      { unfold df4. destruct series; now rewrite has_assign, N3, orb_false_r. }
      rewrite has_assign, N2, orb_false_r.
      rewrite has_del, N3, andb_true_r.
      rewrite has_assign, N1, orb_false_r.
      rewrite has_assign, N3, orb_false_r, E4.
      unfold df3. rewrite has_if_del by (intros E; now subst).
      unfold df2. rewrite has_if_del by (intros E; now subst).
      unfold df1. rewrite has_assign.
      destruct (column_eqb c c_tipo_cartucho) eqn:E.
      * apply column_eqb_eq in E. subst. now rewrite Ht.
      * now rewrite orb_false_r.
    + now rewrite !has_assign, N1, N2, !orb_false_r.
Qed.

(* ================================================================= *)
(** ** The script as a whole *)

Lemma trusted_rows (rt : runtime) (df : frame) :
  rows (trusted rt df)
  = map (fun r => trust_row rt SELLER_TRUST_MAP DEFAULT_SELLER_TRUST
                    (price_row rt df MAX_PLAUSIBLE_PRICE_INDIVIDUAL r))
        (rows df).
Proof.
  unfold trusted, priced. cbn [rows assign].
  rewrite clean_price_column_rows, map_map. reflexivity.
Qed.

Lemma trusted_has (rt : runtime) (df : frame) (c : column) :
  has c (trusted rt df) = has c df || column_eqb c c_seller_trust_level.
Proof. unfold trusted, priced. now rewrite has_assign, clean_price_column_has. Qed.

Lemma featured_rows (rt : runtime) (df : frame) :
  rows (featured rt df)
  = map (fun r => features_row rt (trusted rt df) MAX_PLAUSIBLE_PRICE_AVERAGE
                    (trust_row rt SELLER_TRUST_MAP DEFAULT_SELLER_TRUST
                       (price_row rt df MAX_PLAUSIBLE_PRICE_INDIVIDUAL r)))
        (rows df).
Proof.
  unfold featured. rewrite create_price_features_rows, trusted_rows, map_map.
  reflexivity.
Qed.

Lemma featured_has (rt : runtime) (df : frame) (c : column) :
  raw c = true \/ c = c_nota_qualidade -> has c (featured rt df) = has c df.
Proof.
  intros H. unfold featured.
  rewrite create_price_features_has, trusted_has.
  - destruct H as [H| ->]; [|now rewrite orb_false_r].
    destruct c; try discriminate; now rewrite orb_false_r.
  - destruct H as [H| ->]; [|discriminate]. intros ->. discriminate.
  - destruct H as [H| ->]; [|discriminate]. intros ->. discriminate.
  - destruct H as [H| ->]; [|discriminate]. intros ->. discriminate.
Qed.

Lemma create_price_features_has_deviation (rt : runtime) (df : frame)
    (mx : float) :
  has c_desvio_preco_media_categoria
    (create_price_features rt df c_preco c_tipo_cartucho mx) = true.
Proof.
  unfold create_price_features.
  destruct (negb (has c_preco df) || is_object c_preco df);
    [apply has_assign_same|].
  destruct (has c_tipo_cartucho df); apply has_assign_same.
Qed.

(** What [create_heuristic_label] needs of the table the first three
    steps leave: a line, and the two derived columns. *)
Lemma featured_ready (rt : runtime) (df : frame) :
  (rows df <> [] -> rows (featured rt df) <> [])
  /\ has c_desvio_preco_media_categoria (featured rt df) = true
  /\ has c_seller_trust_level (featured rt df) = true.
Proof.
  split; [|split].
  - intros H Z. rewrite featured_rows in Z. apply map_eq_nil in Z. now apply H.
  - apply create_price_features_has_deviation.
  - unfold featured. rewrite create_price_features_has by discriminate.
    rewrite trusted_has. apply orb_true_r.
Qed.

Lemma label_of_featured (rt : runtime) (df : frame) :
  rows df <> [] ->
  exists out,
    create_heuristic_label rt (featured rt df) = Ok out
    /\ rows out = map (labelled rt (featured rt df)) (rows (featured rt df))
    /\ forall c, has c out
                 = (has c (featured rt df) || column_eqb c c_nota_qualidade
                    || column_eqb c c_label_heuristico_calculado)
                   && negb (column_eqb c c_originalidade_norm).
Proof.
  intros Hne. destruct (featured_ready rt df) as (Hr & Hd & Ht).
  apply create_heuristic_label_ok; [now apply Hr | exact Hd | exact Ht |].
  intros r' Hr'. unfold featured in Hr'.
  destruct (price_features_line _ _ _ _ Hr') as (x & _ & Ed).
  fold (featured rt df) in Hr'.
  destruct (prepared_returns_label rt _ r' Hr') as (l & El & _).
  - now rewrite Ed.
  - now exists l.
Qed.

Lemma main_labels_the_features (rt : runtime) (df : frame) :
  has c_vendedor df = true ->
  main rt df = create_heuristic_label rt (featured rt df).
Proof.
  intros Hv. unfold main, create_seller_trust_level.
  rewrite clean_price_column_has, Hv. reflexivity.
Qed.

(** With a column "vendedor" and a line the script ends and leaves one
    line for each line of its input; without the column the script stops
    on [KeyError]. *)
Lemma main_ok (rt : runtime) (df : frame) :
  has c_vendedor df = true -> rows df <> [] ->
  exists out,
    main rt df = Ok out
    /\ rows out = map (result_row rt df) (rows df)
    /\ (forall c, raw c = true -> has c out = has c df)
    /\ has c_nota_qualidade out = true.
Proof.
  intros Hv Hne. rewrite (main_labels_the_features rt df Hv).
  destruct (label_of_featured rt df Hne) as (out & E & Er & Eh).
  exists out. split; [exact E|]. split; [|split].
  - rewrite Er, featured_rows, map_map. reflexivity.
  - intros c Hc. rewrite Eh, featured_has by now left.
    destruct c; try discriminate; now rewrite !orb_false_r, andb_true_r.
  - rewrite Eh. cbn [column_eqb negb]. now rewrite orb_true_r.
Qed.

Lemma main_no_seller (rt : runtime) (df : frame) :
  has c_vendedor df = false -> main rt df = Raise KeyError.
Proof.
  intros Hv. unfold main, create_seller_trust_level.
  now rewrite clean_price_column_has, Hv.
Qed.

(** When the script ends, its input had the column "vendedor" and a
    line. *)
Lemma main_inv (rt : runtime) (df out : frame) :
  main rt df = Ok out -> has c_vendedor df = true /\ rows df <> [].
Proof.
  intros H.
  assert (Hv : has c_vendedor df = true).
  { destruct (has c_vendedor df) eqn:E; [reflexivity|].
    rewrite (main_no_seller rt df E) in H. discriminate. }
  split; [exact Hv|].
  rewrite (main_labels_the_features rt df Hv) in H.
  apply create_heuristic_label_inv in H as (Hne & _).
  intros Z. apply Hne. rewrite featured_rows, Z. reflexivity.
Qed.

Lemma trusted_price_numeric (rt : runtime) (df : frame) :
  has c_preco df = true -> is_object c_preco (trusted rt df) = false.
Proof.
  intros H. unfold is_object. rewrite trusted_rows.
  apply existsb_map_false. intros r. unfold price_row. now rewrite H.
Qed.

Lemma is_object_rows (c : column) (df df' : frame) :
  map (get c) (rows df) = map (get c) (rows df') ->
  is_object c df = is_object c df'.
Proof.
  unfold is_object. revert df'. destruct df as [cols rs]. intros [cols' rs'].
  cbn [rows]. revert rs'. induction rs as [|r rs IH]; intros [|r' rs'] H;
    try discriminate; [reflexivity|].
  simpl in H. injection H as Hr H. simpl. rewrite Hr. f_equal. now apply IH.
Qed.

Lemma featured_quality_object (rt : runtime) (df : frame) :
  is_object c_nota_qualidade (featured rt df) = is_object c_nota_qualidade df.
Proof.
  apply is_object_rows. rewrite featured_rows, map_map. apply map_ext.
  intros r. unfold features_row, trust_row, price_row.
  destruct (negb (has c_preco (trusted rt df)) || is_object c_preco (trusted rt df)),
           (has c_tipo_cartucho (trusted rt df)), (has c_preco df); reflexivity.
Qed.

(** [result_row], one cell after the other. *)
Lemma result_row_cells (rt : runtime) (df : frame) (r : row) :
  result_row rt df r = settled_row rt df r.
Proof.
  unfold result_row, settled_row, labelled, prepared.
  rewrite featured_quality_object.
  rewrite !featured_has by (first [left; reflexivity | now right]).
  unfold features_row. rewrite !trusted_has. cbn [column_eqb]. rewrite !orb_false_r.
  unfold price_row, trust_row.
  destruct (has c_preco df) eqn:Hp.
  - rewrite (trusted_price_numeric rt df Hp). cbn [negb orb andb].
    destruct (has c_tipo_cartucho df); destruct r; reflexivity.
  - cbn [negb orb andb]. destruct r. cbn.
    rewrite (price_deviation_zero _ F64.nan) by (right; now left).
    reflexivity.
Qed.

(** Reduces the cells of lines built with [set] and [mk_row]. *)
Ltac cells :=
  cbn [preco vendedor tipo_cartucho originalidade nota_qualidade
       seller_trust_level preco_medio_categoria desvio_preco_media_categoria
       label_heuristico_calculado originalidade_norm temp_avg_cat
       get set column_eqb strip_row].

(** [apply_rules] reads four cells of the line. *)
Lemma apply_rules_ext (a b : row) :
  originalidade_norm a = originalidade_norm b ->
  desvio_preco_media_categoria a = desvio_preco_media_categoria b ->
  seller_trust_level a = seller_trust_level b ->
  nota_qualidade a = nota_qualidade b ->
  apply_rules a = apply_rules b.
Proof.
  intros H1 H2 H3 H4. unfold apply_rules. now rewrite H1, H2, H3, H4.
Qed.

Lemma cap_price_idem (mx x : float) :
  cap_price mx (cap_price mx x) = cap_price mx x.
Proof.
  unfold cap_price at 2 3. destruct (F64.ltb mx x) eqn:E.
  - apply cap_price_nan.
  - unfold cap_price. now rewrite E.
Qed.

Lemma clean_price_cell_again (rt : runtime) (object : bool) (mx : float) (v : value) :
  clean_price_cell rt false mx (clean_price_cell rt object mx v)
  = clean_price_cell rt object mx v.
Proof. unfold clean_price_cell. cbn [to_numeric]. now rewrite cap_price_idem. Qed.

Lemma normalize_category_idem (rt : runtime) (v : value) :
  normalize_category rt (normalize_category rt v) = normalize_category rt v.
Proof.
  destruct (normalize_category_text rt v) as (s & E & Hs & _ & Hinv).
  rewrite E. unfold normalize_category. cbn [py_str]. now rewrite Hs, Hinv.
Qed.

Lemma normalize_quality_numeric (rt : runtime) (df : frame) (r : row) :
  In r (rows df) ->
  numeric (normalize_quality rt (has c_nota_qualidade df)
             (is_object c_nota_qualidade df) (nota_qualidade r)) = true.
Proof.
  intros Hr. unfold normalize_quality.
  destruct (has c_nota_qualidade df); [|reflexivity].
  destruct (is_object c_nota_qualidade df) eqn:E; [reflexivity|].
  exact (is_object_false _ _ _ E Hr).
Qed.

Lemma strip_derived_rows (df : frame) :
  rows (strip_derived df) = map strip_row (rows df).
Proof. unfold strip_derived. cbn [rows del]. now rewrite !map_map. Qed.

Lemma strip_derived_has (df : frame) (c : column) :
  raw c = true \/ c = c_nota_qualidade ->
  has c (strip_derived df) = has c df.
Proof.
  intros H. unfold strip_derived. rewrite !has_del.
  destruct H as [H| ->]; [|now rewrite !andb_true_r].
  destruct c; try discriminate; now rewrite !andb_true_r.
Qed.

Lemma existsb_map_false_in {A B : Type} (p : B -> bool) (g : A -> B) (l : list A) :
  (forall x, In x l -> p (g x) = false) -> existsb p (map g l) = false.
Proof.
  induction l as [|x l IH]; intros H; simpl; [reflexivity|].
  rewrite (H x (or_introl eq_refl)), IH; [reflexivity|].
  intros y Hy. apply H. now right.
Qed.

(** The series of means depends on the prices and the categories only. *)
Lemma dropna2_same (rs rs' : list row) :
  Forall2 same_price_and_category rs rs' ->
  Forall2 same_price_and_category
    (dropna2 c_preco c_tipo_cartucho rs) (dropna2 c_preco c_tipo_cartucho rs').
Proof.
  induction 1 as [|r r' rs rs' [Hp Ht] _ IH]; [constructor|].
  unfold dropna2. cbn [filter get]. rewrite Hp, Ht.
  destruct (notna (preco r') && notna (tipo_cartucho r')); [|exact IH].
  constructor; [now split | exact IH].
Qed.

Lemma group_prices_cons (k : value) (r : row) (rs : list row) :
  group_prices c_preco c_tipo_cartucho k (r :: rs)
  = if value_eqb k (tipo_cartucho r)
    then num (preco r) :: group_prices c_preco c_tipo_cartucho k rs
    else group_prices c_preco c_tipo_cartucho k rs.
Proof.
  unfold group_prices. cbn [filter get].
  now destruct (value_eqb k (tipo_cartucho r)).
Qed.

Lemma group_prices_same (k : value) (rs rs' : list row) :
  Forall2 same_price_and_category rs rs' ->
  group_prices c_preco c_tipo_cartucho k rs
  = group_prices c_preco c_tipo_cartucho k rs'.
Proof.
  induction 1 as [|r r' rs rs' [Hp Ht] _ IH]; [reflexivity|].
  now rewrite !group_prices_cons, Hp, Ht, IH.
Qed.

Lemma categories_same (rs rs' : list row) :
  Forall2 same_price_and_category rs rs' ->
  map (get c_tipo_cartucho) rs = map (get c_tipo_cartucho) rs'.
Proof.
  induction 1 as [|r r' rs rs' [Hp Ht] _ IH]; [reflexivity|].
  cbn [map get]. now rewrite Ht, IH.
Qed.

Lemma prices_same (rs rs' : list row) :
  Forall2 same_price_and_category rs rs' -> map preco rs = map preco rs'.
Proof.
  induction 1 as [|r r' rs rs' [Hp Ht] _ IH]; [reflexivity|].
  cbn [map]. now rewrite Hp, IH.
Qed.

Lemma groupby_mean_same (rt : runtime) (rs rs' : list row) :
  Forall2 same_price_and_category rs rs' ->
  groupby_mean rt c_preco c_tipo_cartucho rs
  = groupby_mean rt c_preco c_tipo_cartucho rs'.
Proof.
  intros H. unfold groupby_mean. rewrite (categories_same _ _ H).
  apply map_ext. intros k. now rewrite (group_prices_same k _ _ H).
Qed.

Lemma series_of_same (rt : runtime) (rs rs' : list row) :
  Forall2 same_price_and_category rs rs' ->
  series_of rt rs = series_of rt rs'.
Proof.
  intros H. apply dropna2_same in H. unfold series_of.
  rewrite (groupby_mean_same rt _ _ H).
  replace (existsb (fun r => notna (preco r)) (dropna2 c_preco c_tipo_cartucho rs))
    with (existsb (fun r => notna (preco r)) (dropna2 c_preco c_tipo_cartucho rs')).
  - now destruct H.
  - rewrite <- (map_id (dropna2 c_preco c_tipo_cartucho rs)).
    rewrite <- (map_id (dropna2 c_preco c_tipo_cartucho rs')).
    assert (E : forall l, existsb (fun r => notna (preco r)) l
                          = existsb notna (map preco l)).
    { induction l as [|x l IHl]; simpl; [reflexivity|]. now rewrite IHl. }
    rewrite !map_id, !E. now rewrite (prices_same _ _ H).
Qed.

Lemma general_mean_same (rt : runtime) (rs rs' : list row) (mx : float) :
  map preco rs = map preco rs' -> general_mean rt rs mx = general_mean rt rs' mx.
Proof. intros H. unfold general_mean. now rewrite H. Qed.

Lemma Forall2_map_in {A : Type} (R : row -> row -> Prop) (f g : A -> row)
    (l : list A) :
  (forall x, In x l -> R (f x) (g x)) -> Forall2 R (map f l) (map g l).
Proof.
  induction l as [|x l IH]; intros H; [constructor|].
  cbn [map]. constructor.
  - apply H. now left.
  - apply IH. intros y Hy. apply H. now right.
Qed.

Lemma normalize_quality_again (rt : runtime) (v : value) :
  normalize_quality rt true false v = v.
Proof. reflexivity. Qed.

(** Two lines that differ in cells [apply_rules] does not read get the
    same label. *)
Ltac same_label :=
  match goal with
  | |- VStr (returned apply_rules ?a) = VStr (returned apply_rules ?b) =>
      unfold returned; rewrite (apply_rules_ext a b) by reflexivity;
      reflexivity
  end.

Ltac same_line :=
  cbv zeta; cells; cbn [andb];
  rewrite ?clean_price_cell_again, ?normalize_category_idem,
          ?normalize_quality_again;
  f_equal; same_label.

Lemma rerun_rows (rt : runtime) (df df' : frame) :
  (forall c, raw c = true -> has c df' = has c df) ->
  has c_nota_qualidade df' = true ->
  rows df' = map (fun r => strip_row (settled_row rt df r)) (rows df) ->
  map (settled_row rt df') (rows df') = map (settled_row rt df) (rows df).
Proof.
  intros Hraw Hn Hrows.
  assert (ON : is_object c_nota_qualidade df' = false).
  { unfold is_object. rewrite Hrows. apply existsb_map_false_in. intros r Hr.
    unfold settled_row. cells.
    pose proof (normalize_quality_numeric rt df r Hr) as N.
    now destruct (normalize_quality _ _ _ _). }
  assert (OP : has c_preco df = true -> is_object c_preco df' = false).
  { intros Hp. unfold is_object. rewrite Hrows. apply existsb_map_false.
    intros r. unfold settled_row. rewrite Hp. cells. reflexivity. }
  assert (PR : forall r,
             preco (trust_row rt SELLER_TRUST_MAP DEFAULT_SELLER_TRUST
                      (price_row rt df' MAX_PLAUSIBLE_PRICE_INDIVIDUAL
                         (strip_row (settled_row rt df r))))
             = preco (trust_row rt SELLER_TRUST_MAP DEFAULT_SELLER_TRUST
                        (price_row rt df MAX_PLAUSIBLE_PRICE_INDIVIDUAL r))).
  { intros r. unfold trust_row, price_row, settled_row.
    rewrite (Hraw c_preco eq_refl).
    destruct (has c_preco df) eqn:Hp.
    - rewrite (OP eq_refl). cells. apply clean_price_cell_again.
    - reflexivity. }
  assert (SE : has c_preco df = true -> has c_tipo_cartucho df = true ->
               series_of rt
                 (map (fun r => set c_tipo_cartucho
                                  (normalize_category rt (tipo_cartucho r)) r)
                      (rows (trusted rt df')))
               = series_of rt
                   (map (fun r => set c_tipo_cartucho
                                    (normalize_category rt (tipo_cartucho r)) r)
                        (rows (trusted rt df)))).
  { intros Hp Ht. apply series_of_same.
    rewrite !trusted_rows, Hrows, !map_map. apply Forall2_map_in.
    intros r _. split.
    - cells. apply PR.
    - cells. unfold trust_row, price_row, settled_row.
      rewrite (Hraw c_preco eq_refl), Hp, Ht. cells. cbn [andb].
      apply normalize_category_idem. }
  assert (GE : map preco (rows (trusted rt df')) = map preco (rows (trusted rt df))).
  { rewrite !trusted_rows, Hrows, !map_map. apply map_ext. intros r. apply PR. }
  rewrite Hrows, map_map. apply map_ext_in. intros r Hr.
  unfold settled_row at 1.
  rewrite (Hraw c_preco eq_refl), (Hraw c_tipo_cartucho eq_refl),
          (Hraw c_originalidade eq_refl), Hn, ON.
  destruct (has c_preco df) eqn:Hp; destruct (has c_tipo_cartucho df) eqn:Ht.
  - rewrite (OP eq_refl), (SE eq_refl eq_refl).
    unfold settled_row. rewrite Hp, Ht. same_line.
  - rewrite (OP eq_refl), (general_mean_same rt _ _ _ GE).
    unfold settled_row. rewrite Hp, Ht. same_line.
  - unfold settled_row. rewrite Hp, Ht. same_line.
  - unfold settled_row. rewrite Hp, Ht. same_line.
Qed.

(** A category mean already present in the input has no effect on the
    lines the script leaves. *)
Lemma mean_column_ignored (rt : runtime) (df : frame) (f : row -> value) :
  map (settled_row rt (assign c_preco_medio_categoria f df))
      (rows (assign c_preco_medio_categoria f df))
  = map (settled_row rt df) (rows df).
Proof.
  set (df' := assign c_preco_medio_categoria f df).
  assert (Hh : forall c, c <> c_preco_medio_categoria -> has c df' = has c df).
  { intros c Hc. unfold df'. rewrite has_assign.
    replace (column_eqb c c_preco_medio_categoria) with false;
      [now rewrite orb_false_r|].
    destruct c; try reflexivity. now elim Hc. }
  assert (Ho : forall c, c <> c_preco_medio_categoria ->
                         is_object c df' = is_object c df).
  { intros c Hc. apply is_object_rows. unfold df'. cbn [rows assign].
    rewrite map_map. apply map_ext. intros r. apply get_set_other.
    intros E. now subst. }
  assert (Hrows : rows df' = map (fun r => set c_preco_medio_categoria (f r) r)
                                 (rows df)) by reflexivity.
  assert (PR : forall r,
             same_price_and_category
               (trust_row rt SELLER_TRUST_MAP DEFAULT_SELLER_TRUST
                  (price_row rt df' MAX_PLAUSIBLE_PRICE_INDIVIDUAL
                     (set c_preco_medio_categoria (f r) r)))
               (trust_row rt SELLER_TRUST_MAP DEFAULT_SELLER_TRUST
                  (price_row rt df MAX_PLAUSIBLE_PRICE_INDIVIDUAL r))).
  { intros r. unfold trust_row, price_row.
    rewrite (Hh c_preco), (Ho c_preco) by discriminate.
    destruct (has c_preco df); split; reflexivity. }
  assert (SE : series_of rt
                 (map (fun r => set c_tipo_cartucho
                                  (normalize_category rt (tipo_cartucho r)) r)
                      (rows (trusted rt df')))
               = series_of rt
                   (map (fun r => set c_tipo_cartucho
                                    (normalize_category rt (tipo_cartucho r)) r)
                        (rows (trusted rt df)))).
  { apply series_of_same.
    rewrite !trusted_rows, Hrows, !map_map. apply Forall2_map_in.
    intros r _. destruct (PR r) as [P T]. split; cells.
    - exact P.
    - now rewrite T. }
  assert (GE : map preco (rows (trusted rt df')) = map preco (rows (trusted rt df))).
  { rewrite !trusted_rows, Hrows, !map_map. apply map_ext. intros r.
    now destruct (PR r). }
  rewrite Hrows, map_map. apply map_ext. intros r.
  unfold settled_row.
  rewrite !Hh, !Ho by discriminate. rewrite SE, (general_mean_same rt _ _ _ GE).
  cbv zeta. cells. reflexivity.
Qed.

(** C9. Running the script on its own output, with the four derived
    columns removed, gives again the lines of that output, derived
    columns included; and a column of category means already present in
    the input changes nothing: the means are computed anew. *)
Theorem C9_rerun_reproduces (rt : runtime) (df out : frame) :
  main rt df = Ok out ->
  (exists out',
     main rt (strip_derived out) = Ok out' /\ rows out' = rows out)
  /\ (forall f, exists out2,
        main rt (assign c_preco_medio_categoria f df) = Ok out2
        /\ rows out2 = rows out).
Proof.
  intros Hmain.
  destruct (main_inv rt df out Hmain) as [Hv Hne].
  destruct (main_ok rt df Hv Hne) as (out0 & E0 & Er & Eh & En).
  rewrite E0 in Hmain. injection Hmain as ->.
  split.
  - assert (Hv' : has c_vendedor (strip_derived out) = true).
    { rewrite strip_derived_has by (now left). now rewrite Eh. }
    assert (Hne' : rows (strip_derived out) <> []).
    { rewrite strip_derived_rows, Er. intros Z.
      apply map_eq_nil in Z. apply map_eq_nil in Z. now apply Hne. }
    destruct (main_ok rt _ Hv' Hne') as (out' & E' & Er' & _).
    exists out'. split; [exact E'|].
    rewrite Er', Er.
    rewrite (map_ext _ _ (result_row_cells rt (strip_derived out))).
    rewrite (map_ext _ _ (result_row_cells rt df)).
    apply rerun_rows.
    + intros c Hc. rewrite strip_derived_has by (now left). now apply Eh.
    + rewrite strip_derived_has by (now right). exact En.
    + rewrite strip_derived_rows, Er, map_map.
      apply map_ext. intros r. now rewrite result_row_cells.
  - intros f.
    assert (Hv' : has c_vendedor (assign c_preco_medio_categoria f df) = true).
    { rewrite has_assign, Hv. reflexivity. }
    assert (Hne' : rows (assign c_preco_medio_categoria f df) <> []).
    { unfold assign. cbn [rows]. intros Z. apply map_eq_nil in Z. now apply Hne. }
    destruct (main_ok rt _ Hv' Hne') as (out2 & E2 & Er2 & _).
    exists out2. split; [exact E2|].
    rewrite Er2, Er.
    rewrite (map_ext _ _ (result_row_cells rt (assign c_preco_medio_categoria f df))).
    rewrite (map_ext _ _ (result_row_cells rt df)).
    apply mean_column_ignored.
Qed.

(* ================================================================= *)
(** ** The mean a line is given *)

Lemma value_eqb_text (a b : value) :
  is_text a = true -> is_text b = true ->
  (value_eqb a b = true <-> a = b).
Proof.
  destruct a as [| | |s], b as [| | |t]; try discriminate. intros _ _.
  cbn [value_eqb]. rewrite pystr_eqb_eq. split; [now intros -> | congruence].
Qed.

Lemma value_eqb_text_refl (a : value) : is_text a = true -> value_eqb a a = true.
Proof. intros H. now apply value_eqb_text. Qed.

Lemma existsb_unique (k : value) (l : list value) :
  is_text k = true -> forallb is_text l = true ->
  existsb (fun k' => value_eqb k' k) (unique l)
  = existsb (fun k' => value_eqb k' k) l.
Proof.
  intros Hk. induction l as [|x l IH]; intros Hl; [reflexivity|].
  simpl in Hl. apply andb_true_iff in Hl as [Hx Hl].
  cbn [unique]. destruct (existsb (value_eqb x) l) eqn:E.
  - rewrite (IH Hl). cbn [existsb].
    destruct (value_eqb x k) eqn:Ex; [|reflexivity].
    apply (value_eqb_text x k Hx Hk) in Ex. subst x. cbn [orb].
    apply existsb_exists in E as (y & Hy & Ey). apply existsb_exists.
    exists y. split; [exact Hy|].
    rewrite forallb_forall in Hl.
    apply (value_eqb_text k y Hk (Hl y Hy)) in Ey. subst y.
    now apply value_eqb_text_refl.
  - cbn [existsb]. now rewrite (IH Hl).
Qed.

(** Looking a category up in the series gives the mean of its group. *)
Lemma merge_lookup_series (g : value -> float) (k : value) (ks : list value) :
  is_text k = true -> forallb is_text ks = true ->
  merge_lookup (map (fun k' => (k', g k')) ks) k
  = if existsb (fun k' => value_eqb k' k) ks then g k else F64.nan.
Proof.
  intros Hk. induction ks as [|x ks IH]; intros H; [reflexivity|].
  simpl in H. apply andb_true_iff in H as [Hx H].
  cbn [map merge_lookup existsb].
  destruct (value_eqb x k) eqn:E.
  - apply (value_eqb_text x k Hx Hk) in E. now subst.
  - now apply IH.
Qed.

Lemma group_prices_empty (k : value) (rs : list row) :
  is_text k = true ->
  forallb is_text (map (get c_tipo_cartucho) rs) = true ->
  existsb (fun k' => value_eqb k' k) (map (get c_tipo_cartucho) rs) = false ->
  group_prices c_preco c_tipo_cartucho k rs = [].
Proof.
  intros Hk. induction rs as [|r rs IH]; intros Ht H; [reflexivity|].
  cbn [map forallb existsb get] in Ht, H.
  apply andb_true_iff in Ht as [Hr Ht].
  apply orb_false_iff in H as [H1 H2].
  rewrite group_prices_cons.
  destruct (value_eqb k (tipo_cartucho r)) eqn:E.
  - apply (value_eqb_text k _ Hk Hr) in E. rewrite <- E in H1.
    now rewrite (value_eqb_text_refl k Hk) in H1.
  - now apply IH.
Qed.

Lemma group_prices_nonempty (k : value) (rs : list row) :
  is_text k = true ->
  forallb is_text (map (get c_tipo_cartucho) rs) = true ->
  existsb (fun k' => value_eqb k' k) (map (get c_tipo_cartucho) rs) = true ->
  group_prices c_preco c_tipo_cartucho k rs <> [].
Proof.
  intros Hk. induction rs as [|r rs IH]; intros Ht H; [discriminate|].
  cbn [map forallb existsb get] in Ht, H.
  apply andb_true_iff in Ht as [Hr Ht].
  rewrite group_prices_cons.
  destruct (value_eqb k (tipo_cartucho r)) eqn:E; [discriminate|].
  apply orb_true_iff in H as [H|H].
  - apply (value_eqb_text _ k Hr Hk) in H. rewrite H in E.
    now rewrite (value_eqb_text_refl k Hk) in E.
  - now apply IH.
Qed.

Lemma lookup_groupby_mean (rt : runtime) (k : value) (rs : list row) :
  is_text k = true ->
  forallb is_text (map (get c_tipo_cartucho) rs) = true ->
  merge_lookup (groupby_mean rt c_preco c_tipo_cartucho rs) k
  = match group_prices c_preco c_tipo_cartucho k rs with
    | [] => F64.nan
    | ps => group_mean rt ps
    end.
Proof.
  intros Hk Ht. unfold groupby_mean.
  rewrite (merge_lookup_series
             (fun k' => group_mean rt (group_prices c_preco c_tipo_cartucho k' rs))).
  - rewrite (existsb_unique k _ Hk Ht).
    destruct (existsb _ (map (get c_tipo_cartucho) rs)) eqn:E.
    + pose proof (group_prices_nonempty k rs Hk Ht E) as N.
      now destruct (group_prices c_preco c_tipo_cartucho k rs).
    + now rewrite (group_prices_empty k rs Hk Ht E).
  - exact Hk.
  - clear -Ht. induction (map (get c_tipo_cartucho) rs) as [|x l IH];
      [reflexivity|].
    simpl in Ht. apply andb_true_iff in Ht as [Hx Hl]. cbn [unique].
    destruct (existsb (value_eqb x) l); [now apply IH|].
    cbn [forallb]. now rewrite Hx, IH.
Qed.

Lemma normalize_category_is_text (rt : runtime) (v : value) :
  is_text (normalize_category rt v) = true.
Proof. reflexivity. Qed.

Lemma dropna2_normalized_text (rt : runtime) (rs : list row) :
  forallb is_text
    (map (get c_tipo_cartucho)
       (dropna2 c_preco c_tipo_cartucho
          (map (fun r => set c_tipo_cartucho
                           (normalize_category rt (tipo_cartucho r)) r) rs)))
  = true.
Proof.
  induction rs as [|r rs IH]; [reflexivity|].
  unfold dropna2 in *. cbn [map filter].
  match goal with |- context [if ?c then _ else _] => destruct c end;
    [|exact IH].
  cbn [map forallb]. rewrite IH. reflexivity.
Qed.

Lemma group_prices_normalized (rt : runtime) (k : value) (rs : list row) :
  group_prices c_preco c_tipo_cartucho k
    (dropna2 c_preco c_tipo_cartucho
       (map (fun r => set c_tipo_cartucho
                        (normalize_category rt (tipo_cartucho r)) r) rs))
  = prices_of_category rt k rs.
Proof.
  unfold prices_of_category.
  induction rs as [|r rs IH]; [reflexivity|].
  unfold dropna2 in *. cbn [map filter].
  change (notna (get c_preco
                   (set c_tipo_cartucho
                      (normalize_category rt (tipo_cartucho r)) r))
          && notna (get c_tipo_cartucho
                      (set c_tipo_cartucho
                         (normalize_category rt (tipo_cartucho r)) r)))
    with (notna (preco r) && true).
  rewrite andb_true_r.
  destruct (notna (preco r)); cbn [andb]; [|exact IH].
  rewrite group_prices_cons.
  change (tipo_cartucho (set c_tipo_cartucho
                           (normalize_category rt (tipo_cartucho r)) r))
    with (normalize_category rt (tipo_cartucho r)).
  destruct (value_eqb k (normalize_category rt (tipo_cartucho r))).
  - cbn [map]. now rewrite IH.
  - exact IH.
Qed.

Lemma dropna2_prices_present (rs : list row) :
  existsb (fun r => notna (preco r)) (dropna2 c_preco c_tipo_cartucho rs)
  = match dropna2 c_preco c_tipo_cartucho rs with [] => false | _ => true end.
Proof.
  unfold dropna2. induction rs as [|r rs IH]; [reflexivity|].
  cbn [filter get].
  destruct (notna (preco r)) eqn:E; cbn [andb]; [|exact IH].
  destruct (notna (tipo_cartucho r)); [|exact IH].
  cbn [existsb]. now rewrite E.
Qed.

(** The mean the merge attaches to a category: the mean of the prices of
    the lines that have a price and this category, or a missing number
    when there is none. *)
Lemma lookup_series_of (rt : runtime) (k : value) (rs : list row) :
  is_text k = true ->
  merge_lookup
    (series_of rt
       (map (fun r => set c_tipo_cartucho
                        (normalize_category rt (tipo_cartucho r)) r) rs)) k
  = match prices_of_category rt k rs with
    | [] => F64.nan
    | ps => group_mean rt ps
    end.
Proof.
  intros Hk. unfold series_of. rewrite dropna2_prices_present.
  rewrite <- (group_prices_normalized rt k rs).
  pose proof (dropna2_normalized_text rt rs) as Ht.
  destruct (dropna2 c_preco c_tipo_cartucho _) as [|r0 V] eqn:E.
  - reflexivity.
  - now apply lookup_groupby_mean.
Qed.

Lemma stored_mean (rt : runtime) (df : frame) (mx : float) (r' : row) :
  has c_preco df = true -> is_object c_preco df = false ->
  has c_tipo_cartucho df = true ->
  In r' (rows (create_price_features rt df c_preco c_tipo_cartucho mx)) ->
  preco_medio_categoria r'
  = VFloat (cap_average mx
              match prices_of_category rt (tipo_cartucho r') (rows df) with
              | [] => F64.nan
              | ps => group_mean rt ps
              end).
Proof.
  intros Hp Ho Ht H. rewrite create_price_features_rows in H.
  apply in_map_iff in H as (r & <- & _).
  unfold features_row. rewrite Hp, Ho, Ht. cbn [negb orb]. cbv zeta. cells.
  now rewrite lookup_series_of.
Qed.

(** C6. After [create_price_features], the mean stored on a line is the
    mean computed for the line when that mean is above 0 and at most
    5000.00, and is missing when the computed mean is at most 0 or above
    5000.00; so the stored mean is missing or lies in (0, 5000.00]; and
    a line whose stored mean is missing has the deviation 0.0 whatever
    its price. *)
Theorem C6_mean_capped (rt : runtime) (df : frame) (r' : row) :
  In r' (rows (create_price_features rt df c_preco c_tipo_cartucho
                 MAX_PLAUSIBLE_PRICE_AVERAGE)) ->
  let x := computed_mean rt df r' in
  exists m,
    preco_medio_categoria r' = VFloat m
    /\ (F64.leb x F64.zero = true
        \/ F64.ltb MAX_PLAUSIBLE_PRICE_AVERAGE x = true ->
        m = F64.nan)
    /\ (F64.leb x F64.zero = false ->
        F64.ltb MAX_PLAUSIBLE_PRICE_AVERAGE x = false ->
        m = x)
    /\ (F64.is_nan m = true
        \/ (F64.ltb F64.zero m = true
            /\ F64.leb m MAX_PLAUSIBLE_PRICE_AVERAGE = true))
    /\ (F64.is_nan m = true ->
        desvio_preco_media_categoria r' = VFloat F64.zero).
Proof.
  intros H. cbv zeta.
  assert (Em : preco_medio_categoria r'
               = VFloat (cap_average MAX_PLAUSIBLE_PRICE_AVERAGE
                           (computed_mean rt df r'))).
  { unfold computed_mean.
    destruct (negb (has c_preco df) || is_object c_preco df) eqn:B.
    - rewrite create_price_features_rows in H.
      apply in_map_iff in H as (r & <- & _).
      unfold features_row. rewrite B. cells. now rewrite cap_average_nan.
    - apply orb_false_iff in B as [Hp Ho]. apply negb_false_iff in Hp.
      destruct (has c_tipo_cartucho df) eqn:Ht.
      + now apply stored_mean.
      + rewrite create_price_features_rows in H.
        apply in_map_iff in H as (r & <- & _).
        unfold features_row. rewrite Hp, Ho, Ht. reflexivity. }
  destruct (price_features_line rt df _ r' H) as (y & Em' & Ed).
  rewrite Em in Em'. injection Em' as Ey. rewrite <- Ey in Ed.
  exists (cap_average MAX_PLAUSIBLE_PRICE_AVERAGE (computed_mean rt df r')).
  split; [exact Em|]. split; [apply cap_average_discards|]. split.
  - intros E1 E2. unfold cap_average. now rewrite E1, E2.
  - split; [apply cap_average_range|].
    intros N. rewrite Ed. f_equal. apply price_deviation_zero. now right; left.
Qed.

(* ================================================================= *)
(** ** The statements on examples *)

(** C7, where the code departs from it. Two products without a valid
    category, at 100.00 and 300.00: both are filed under
    "CATEGORIA_AUSENTE_OU_INVALIDA", their prices are averaged to 200.00,
    and the deviations -0.5 and 0.5 decide their labels. *)
Theorem C7_missing_categories_are_averaged :
  exists out,
    main Reference.rt df_missing_categories = Ok out
    /\ map derived_cells (rows out)
       = [ (VStr CATEGORIA_AUSENTE_OU_INVALIDA, VInt 3, VFloat (F64.of_Z 200),
            VFloat m0_50,
            VStr (lit "avaliar_manual_original_preco_baixo_vendedor_confiavel"));
           (VStr CATEGORIA_AUSENTE_OU_INVALIDA, VInt 3, VFloat (F64.of_Z 200),
            VFloat (F64.ratio 50 100), VStr (lit "original")) ].
Proof. eexists. split; vm_compute; reflexivity. Qed.

(** Scenario B. *)
Lemma C1_scenario_B :
  (py_in (originalidade_norm scenario_B) original_claims = true
   /\ py_eq_int (seller_trust_level scenario_B) 1 = true
   /\ py_lt (desvio_preco_media_categoria scenario_B) m0_40 = Ok true)
  /\ apply_rules scenario_B = Ok (lit "pirata_provavel_preco_vendedor_ruim").
Proof.
  split; [repeat split|].
  apply (C1_suspect_seller_low_price scenario_B); reflexivity.
Defined.

(** The deviation -0.25 under a seller of trust level 2. *)
Lemma C10_deviation_m0_25 :
  (py_in (originalidade_norm neutral_seller_gap) original_claims = true
   /\ py_eq_int (seller_trust_level neutral_seller_gap) 2 = true
   /\ py_ge (desvio_preco_media_categoria neutral_seller_gap) m0_30 = Ok true
   /\ py_lt (desvio_preco_media_categoria neutral_seller_gap) m0_20 = Ok true)
  /\ apply_rules neutral_seller_gap
     = Ok (lit "avaliar_manual_geral_sem_classificacao_clara").
Proof.
  split; [repeat split|].
  apply (C10_neutral_seller_gap neutral_seller_gap); reflexivity.
Defined.

(** A text as quality score and a missing claim raise nothing. *)
Lemma C2_mixed_table :
  (rows df_for_classifier <> []
   /\ has c_desvio_preco_media_categoria df_for_classifier = true
   /\ has c_seller_trust_level df_for_classifier = true
   /\ forall r, In r (rows df_for_classifier) ->
                numeric_or_none (desvio_preco_media_categoria r) = true)
  /\ exists out,
       create_heuristic_label Reference.rt df_for_classifier = Ok out
       /\ map label_heuristico_calculado (rows out)
          = [ VStr (lit "original");
              VStr (lit "pirata_provavel_nota_vendedor_ruim");
              VStr (lit "nao_original_declarado") ].
Proof.
  assert (H : forall r, In r (rows df_for_classifier) ->
                        numeric_or_none (desvio_preco_media_categoria r) = true).
  { intros r [<-|[<-|[<-|[]]]]; reflexivity. }
  assert (N : rows df_for_classifier <> []) by discriminate.
  split; [repeat split; [exact N | exact H]|].
  destruct (C2_one_label_per_line Reference.rt df_for_classifier
              N eq_refl eq_refl H)
    as (out & E & Er & _).
  exists out. split; [exact E|]. rewrite Er. reflexivity.
Defined.

(** Scenario E: the mean computed for the category, 6000.00, is above
    the cap; the stored mean is missing and the deviation is 0.0. *)
Lemma C6_scenario_E :
  let df := trusted Reference.rt df_scenario_E in
  let r' := line 0 (featured Reference.rt df_scenario_E) in
  In r' (rows (featured Reference.rt df_scenario_E))
  /\ computed_mean Reference.rt df r' = F64.of_Z 6000
  /\ preco_medio_categoria r' = VFloat F64.nan
  /\ desvio_preco_media_categoria r' = VFloat F64.zero.
Proof.
  cbv zeta.
  assert (H : In (line 0 (featured Reference.rt df_scenario_E))
                 (rows (featured Reference.rt df_scenario_E)))
    by (vm_compute; left; reflexivity).
  split; [exact H|]. split; [vm_compute; reflexivity|].
  destruct (C6_mean_capped Reference.rt (trusted Reference.rt df_scenario_E) _ H)
    as (m & Em & Hd & _ & _ & Hz).
  assert (N : m = F64.nan) by (apply Hd; right; vm_compute; reflexivity).
  subst m. split; [exact Em | apply Hz; reflexivity].
Defined.

(** After the statistics, the first of the two products without a
    category holds the finite deviation -0.5. *)
Lemma C3_deviation_of_example :
  let r' := line 0 (featured Reference.rt df_missing_categories) in
  In r' (rows (featured Reference.rt df_missing_categories))
  /\ desvio_preco_media_categoria r' = VFloat m0_50
  /\ exists d,
       desvio_preco_media_categoria r' = VFloat d /\ F64.is_finite d = true.
Proof.
  cbv zeta.
  assert (H : In (line 0 (featured Reference.rt df_missing_categories))
                 (rows (featured Reference.rt df_missing_categories)))
    by (vm_compute; left; reflexivity).
  split; [exact H|]. split; [vm_compute; reflexivity|].
  destruct (C3_deviation_finite Reference.rt
              (trusted Reference.rt df_missing_categories)
              MAX_PLAUSIBLE_PRICE_AVERAGE _ H) as (d & Ed & Hf & _).
  exists d. now split.
Defined.

(** 1234.56 is kept, 25000.00 and a text that is no number are stored as
    missing. *)
Lemma C5_prices_of_example :
  has c_preco df_prices = true
  /\ map (parsed_price Reference.rt df_prices) (rows df_prices)
     = [ F64.ratio 123456 100; F64.of_Z 25000; F64.nan ]
  /\ map preco (rows (priced Reference.rt df_prices))
     = [ VFloat (F64.ratio 123456 100); VFloat F64.nan; VFloat F64.nan ]
  /\ Forall2
       (fun r r' =>
          exists p,
            preco r' = VFloat p
            /\ (F64.ltb MAX_PLAUSIBLE_PRICE_INDIVIDUAL
                  (parsed_price Reference.rt df_prices r) = true ->
                p = F64.nan))
       (rows df_prices) (rows (priced Reference.rt df_prices)).
Proof.
  split; [reflexivity|]. split; [vm_compute; reflexivity|].
  split; [vm_compute; reflexivity|].
  eapply Forall2_impl;
    [|apply (C5_price_capped Reference.rt df_prices); reflexivity].
  intros r r' (p & Ep & Hn & _). exists p. now split.
Defined.

(** The script run again on what it made of the two products without a
    category. *)
Lemma C9_rerun_of_example :
  exists out,
    main Reference.rt df_missing_categories = Ok out
    /\ exists out',
         main Reference.rt (strip_derived out) = Ok out'
         /\ rows out' = rows out.
Proof.
  eexists. split; [vm_compute; reflexivity|].
  refine (proj1 (C9_rerun_reproduces Reference.rt df_missing_categories _ _)).
  vm_compute. reflexivity.
Defined.

(* ================================================================= *)
(** * Further properties of the code *)

(* ================================================================= *)
(** ** The rule cascade *)

Lemma trust_3_only (v : value) :
  py_eq_int v 3 = true -> py_eq_int v 1 = false /\ py_eq_int v 2 = false.
Proof.
  destruct v as [|z|d|s]; cbn [py_eq_int]; try discriminate.
  - intros H. apply Z.eqb_eq in H. now subst.
  - trust_levels. float_order d.
Qed.

Lemma not_original_is_not_compatible (v : value) :
  py_in v not_original_claims = true ->
  py_eq_str v s_compativel_claim = false.
Proof.
  intros H. apply py_in_inv in H as (s & -> & Hs).
  simpl in Hs. destruct Hs as [<-|[<-|[<-|[<-|[<-|[]]]]]]; reflexivity.
Qed.

(** X1. An explicit claim of not being original decides the label
    alone: "compatível" gives "compativel" and each of "falso",
    "não original", "pirata", "suspeito", "alternativo" gives
    "nao_original_declarado", whatever the trust level, the deviation and
    the quality score hold, text included; nothing is compared and
    nothing is raised. *)
Theorem declared_claims_decide (r : row) :
  (py_eq_str (originalidade_norm r) s_compativel_claim = true ->
   apply_rules r = Ok (lit "compativel"))
  /\ (py_in (originalidade_norm r) not_original_claims = true ->
      apply_rules r = Ok (lit "nao_original_declarado")).
Proof.
  split; intros H; unfold apply_rules.
  - now rewrite H.
  - now rewrite (not_original_is_not_compatible _ H), H.
Qed.

(** Follows the cascade along every branch, exceptions included. *)
Ltac walk_all :=
  repeat (cbv beta iota delta [or_next cond bind and_then falls_through returns];
          match goal with
          | |- context [match ?x with Ok _ => _ | Raise _ => _ end] =>
              is_var x; destruct x
          | |- context [if ?b then _ else _] => destruct b
          end);
  cbv beta iota delta [or_next cond bind and_then falls_through returns].

(** X2. A seller of trust level 3 is never labelled a probable
    counterfeit: whatever the claim, the deviation and the quality score,
    a label returned for such a line does not start with
    "pirata_provavel". *)
Theorem trusted_seller_never_pirata (r : row) (l : pystr) :
  py_eq_int (seller_trust_level r) 3 = true ->
  apply_rules r = Ok l ->
  says_pirata l = false.
Proof.
  intros H3. destruct (trust_3_only _ H3) as [H1 H2].
  unfold apply_rules. cbv zeta. rewrite H1, H2, H3.
  set (d := if notna (desvio_preco_media_categoria r) then _ else _).
  clearbody d.
  generalize (py_ge d m0_30) (py_lt d m0_30) (py_ge d m0_50).
  intros a b c.
  destruct (py_eq_str (originalidade_norm r) s_compativel_claim);
    [intros E; injection E as <-; reflexivity|].
  destruct (py_in (originalidade_norm r) not_original_claims);
    [intros E; injection E as <-; reflexivity|].
  walk_all; intros E; try discriminate; injection E as <-; reflexivity.
Qed.

(** X3. The quality score is read for sellers of trust level 1 only: for
    any other trust level, replacing the quality score by anything, text
    included, changes neither the label nor whether an exception is
    raised. *)
Theorem quality_only_for_suspect_sellers (r : row) (q : value) :
  py_eq_int (seller_trust_level r) 1 = false ->
  apply_rules (set c_nota_qualidade q r) = apply_rules r.
Proof.
  intros H. unfold apply_rules. cells. now rewrite H.
Qed.

(** X4. A missing price deviation is classified as the deviation 0.0,
    and a missing quality score as the score 3: in both cases
    [apply_rules] returns what it returns on the line with that value
    filled in. *)
Theorem missing_cells_have_defaults (r : row) :
  (notna (desvio_preco_media_categoria r) = false ->
   apply_rules r
   = apply_rules (set c_desvio_preco_media_categoria (VFloat F64.zero) r))
  /\ (notna (nota_qualidade r) = false ->
      apply_rules r = apply_rules (set c_nota_qualidade (VInt 3) r)).
Proof.
  split; intros H; unfold apply_rules; cells; rewrite H; reflexivity.
Qed.

(** X5. For a seller of trust level 1 the signals of price and quality
    come before the claim: unless the claim is an explicit claim of not
    being original, a deviation below -0.40 gives
    "pirata_provavel_preco_vendedor_ruim", and otherwise a quality score
    below 2.5 gives "pirata_provavel_nota_vendedor_ruim", also when the
    claim is "original". *)
Theorem suspect_seller_signals_first (r : row) :
  py_eq_str (originalidade_norm r) s_compativel_claim = false ->
  py_in (originalidade_norm r) not_original_claims = false ->
  py_eq_int (seller_trust_level r) 1 = true ->
  (py_lt (desvio_preco_media_categoria r) m0_40 = Ok true ->
   apply_rules r = Ok (lit "pirata_provavel_preco_vendedor_ruim"))
  /\ (py_lt (desvio_preco_media_categoria r) m0_40 = Ok false ->
      py_lt (nota_qualidade r) p2_5 = Ok true ->
      apply_rules r = Ok (lit "pirata_provavel_nota_vendedor_ruim")).
Proof.
  intros H1 H2 Ht. split.
  - intros Hd. unfold apply_rules.
    now rewrite H1, H2, Ht, (py_lt_notna _ _ Hd), Hd.
  - intros Hd Hq. unfold apply_rules.
    rewrite H1, H2, Ht, (py_lt_notna _ _ Hq), Hq.
    destruct (notna (desvio_preco_media_categoria r)).
    + now rewrite Hd.
    + reflexivity.
Qed.

Lemma not_at_least_is_below (d c : float) :
  F64.is_nan d = false -> In c [m0_30; m0_50] ->
  F64.leb c d = false -> F64.ltb d c = true.
Proof.
  intros N [<-|[<-|[]]]; revert N; float_order d.
Qed.

(** X6. For a claim of originality and a seller of trust level 3 the
    deviation alone decides among three labels: "original" from -0.30
    upwards, "avaliar_manual_original_preco_baixo_vendedor_confiavel"
    from -0.50 up to -0.30 excluded, and
    "avaliar_manual_original_preco_MUITO_baixo_vendedor_confiavel"
    below -0.50; the quality score plays no part. *)
Theorem trusted_seller_original_bands (r : row) (d : float) :
  py_in (originalidade_norm r) original_claims = true ->
  py_eq_int (seller_trust_level r) 3 = true ->
  desvio_preco_media_categoria r = VFloat d ->
  F64.is_nan d = false ->
  apply_rules r
  = Ok (if F64.leb m0_30 d then lit "original"
        else if F64.leb m0_50 d
             then lit "avaliar_manual_original_preco_baixo_vendedor_confiavel"
             else lit "avaliar_manual_original_preco_MUITO_baixo_vendedor_confiavel").
Proof.
  intros Hc H3 Hd N.
  destruct (original_claim_passes_level_1 _ Hc) as [C1 C2].
  destruct (trust_3_only _ H3) as [T1 T2].
  unfold apply_rules. rewrite C1, C2, T1, T2, H3, Hc, Hd.
  cbn [notna]. rewrite N. cbn [negb].
  cbv beta iota delta [or_next cond bind and_then falls_through returns
                       py_lt py_ge].
  destruct (F64.leb m0_30 d) eqn:E30; [reflexivity|].
  rewrite (not_at_least_is_below d m0_30 N) by (simpl; tauto).
  now destruct (F64.leb m0_50 d).
Qed.

(** X7. A claim outside the four groups the cascade knows (not
    "compatível", not a claim of not being original, not a claim of
    originality, not an unknown one), with a seller whose trust level is
    neither 1 nor 2, gets the fallback label without any comparison:
    whatever the deviation and the quality score hold, text included. *)
Theorem unrecognized_claim_falls_back (r : row) :
  py_eq_str (originalidade_norm r) s_compativel_claim = false ->
  py_in (originalidade_norm r) not_original_claims = false ->
  py_in (originalidade_norm r) original_claims = false ->
  py_in (originalidade_norm r) unknown_claims = false ->
  py_eq_int (seller_trust_level r) 1 = false ->
  py_eq_int (seller_trust_level r) 2 = false ->
  apply_rules r = Ok (lit "avaliar_manual_geral_sem_classificacao_clara").
Proof.
  intros C1 C2 C3 C4 T1 T2. unfold apply_rules.
  now rewrite C1, C2, C3, C4, T1, T2.
Qed.

(* ================================================================= *)
(** ** The trust level of a seller *)

Lemma dict_get_value (m : list (pystr * Z)) (k : pystr) (d : Z) :
  dict_get m k d = d \/ In (dict_get m k d) (map snd m).
Proof.
  induction m as [|[k' v] m IH]; simpl; [now left|].
  destruct (pystr_eqb k' k).
  - right. now left.
  - destruct IH as [IH|IH]; [now left | right; now right].
Qed.

Lemma get_trust_range (rt : runtime) (seller_name : value) :
  In (get_trust rt SELLER_TRUST_MAP DEFAULT_SELLER_TRUST seller_name) [1; 2; 3].
Proof.
  unfold get_trust. destruct (negb (notna seller_name)); [now left|].
  destruct (dict_get_value SELLER_TRUST_MAP
              (str_upper rt (strip (py_str rt seller_name)))
              DEFAULT_SELLER_TRUST) as [E|H].
  - rewrite E. now left.
  - revert H. generalize (dict_get SELLER_TRUST_MAP
                            (str_upper rt (strip (py_str rt seller_name)))
                            DEFAULT_SELLER_TRUST).
    intros z H. simpl in H.
    repeat (destruct H as [<-|H]; [simpl; tauto|]). destruct H.
Qed.

(** X8. With the trust map of the module and its default, the trust
    level of a seller is always 1, 2 or 3, whatever the cell of the
    seller holds (a name, a number, nothing) and whatever the case
    mapping of the interpreter does to it. *)
Theorem seller_trust_is_1_2_or_3 (rt : runtime) (seller_name : value) :
  In (get_trust rt SELLER_TRUST_MAP DEFAULT_SELLER_TRUST seller_name) [1; 2; 3].
Proof. apply get_trust_range. Qed.

(** X9. Whitespace around the name of a seller does not change the trust
    level: a name and the same name trimmed are looked up under the same
    key, for every trust map and default. *)
Theorem seller_trust_ignores_outer_whitespace (rt : runtime)
    (trust_map : list (pystr * Z)) (default_trust : Z) (name : pystr) :
  get_trust rt trust_map default_trust (VStr name)
  = get_trust rt trust_map default_trust (VStr (strip name)).
Proof. unfold get_trust. cbn [notna negb py_str]. now rewrite strip_idem. Qed.

(* ================================================================= *)
(** ** The text of a price, again *)

Lemma lookahead_short (rt : runtime) (d : pystr) :
  (List.length d < 3)%nat -> thousands_lookahead rt d = false.
Proof.
  destruct d as [|x [|y [|z t]]]; simpl; intros H; try lia;
    rewrite ?andb_false_r; reflexivity.
Qed.

Lemma lookahead_final_digits (rt : runtime) (d : pystr) :
  forallb ascii_digit d = true -> (3 <= List.length d)%nat ->
  thousands_lookahead rt d = true.
Proof.
  induction d as [|x t IH]; intros D L; [simpl in L; lia|].
  simpl in D. apply andb_true_iff in D as [Dx Dt].
  destruct (Nat.le_gt_cases 3 (List.length t)) as [Ht|Ht].
  - cbn [thousands_lookahead]. rewrite (IH Dt Ht).
    destruct (digit_plain x Dx) as (_ & _ & ->). apply orb_true_r.
  - destruct t as [|y [|z [|w t]]]; simpl in L, Ht; try lia.
    simpl in Dt. apply andb_true_iff in Dt as [Dy Dt].
    apply andb_true_iff in Dt as [Dz _].
    cbn [thousands_lookahead three_digits_then_stop].
    now rewrite !ascii_digit_is_digit.
Qed.

Lemma remove_thousands_sep_digits (rt : runtime) (d : pystr) :
  forallb ascii_digit d = true -> remove_thousands_sep rt d = d.
Proof.
  intros D. rewrite <- (app_nil_r d) at 1.
  rewrite remove_thousands_sep_keeps by now apply digits_no_period.
  apply app_nil_r.
Qed.

(** X10. In a price written with a period and no comma, the period is
    kept as the decimal point when fewer than three digits follow it
    ("89.90" stays "89.90"), and removed when three or more digits follow
    it to the end, decimals or not ("0.125" becomes "0125" and
    "12.3456" becomes "123456"). *)
Theorem period_without_comma (rt : runtime) (a d : pystr) :
  forallb ascii_digit a = true -> forallb ascii_digit d = true ->
  clean_price_text rt (a ++ 46%N :: d)
  = if (List.length d <? 3)%nat then a ++ 46%N :: d else a ++ d.
Proof.
  intros Da Dd. unfold clean_price_text.
  assert (NB : forallb numeral_char (a ++ 46%N :: d) = true).
  { rewrite forallb_app, (digits_numeral a Da). cbn [forallb andb].
    now rewrite (digits_numeral d Dd). }
  rewrite (remove_currency_id _ (numeral_no_currency _ NB)).
  rewrite (remove_spaces_id _ (numeral_no_space _ NB)).
  rewrite remove_thousands_sep_keeps by now apply digits_no_period.
  cbn [remove_thousands_sep N.eqb Pos.eqb andb].
  rewrite (remove_thousands_sep_digits rt d Dd).
  destruct (List.length d <? 3)%nat eqn:L.
  - apply Nat.ltb_lt in L. rewrite (lookahead_short rt d L).
    unfold comma_to_period. rewrite map_app. cbn [map N.eqb Pos.eqb].
    fold (comma_to_period a). fold (comma_to_period d).
    now rewrite !comma_to_period_digits.
  - apply Nat.ltb_ge in L. rewrite (lookahead_final_digits rt d Dd L).
    unfold comma_to_period. rewrite map_app.
    fold (comma_to_period a). fold (comma_to_period d).
    now rewrite !comma_to_period_digits.
Qed.

(** X11. [clean_price_column] done twice is [clean_price_column] done
    once: on a table it has cleaned, the column is numeric, the text
    replacements are skipped and the cap changes nothing. *)
Theorem clean_price_column_idempotent (rt : runtime) (df : frame) (mx : float) :
  clean_price_column rt (clean_price_column rt df c_preco mx) c_preco mx
  = clean_price_column rt df c_preco mx.
Proof.
  destruct (has c_preco df) eqn:H.
  - unfold clean_price_column at 1.
    rewrite clean_price_column_has, H, (clean_price_column_numeric rt df mx H).
    cbn [negb]. unfold assign.
    rewrite clean_price_column_has, H, clean_price_column_rows, map_map.
    unfold clean_price_column. rewrite H. cbn [negb]. unfold assign.
    rewrite H. f_equal. apply map_ext. intros r.
    unfold price_row. rewrite H. cells.
    now rewrite clean_price_cell_again.
  - unfold clean_price_column. rewrite H. cbn [negb]. now rewrite H.
Qed.

(* ================================================================= *)
(** ** The mean of a category *)

(** X12. [create_price_features] neither adds nor drops a line, and on
    every line it leaves the price, the seller, the claim, the quality
    score, the trust level and the label as they were. *)
Theorem price_features_leave_the_rest (rt : runtime) (df : frame) (mx : float) :
  map untouched_cells (rows (create_price_features rt df c_preco c_tipo_cartucho mx))
  = map untouched_cells (rows df).
Proof.
  rewrite create_price_features_rows, map_map. apply map_ext. intros r.
  unfold features_row.
  destruct (negb (has c_preco df) || is_object c_preco df); [reflexivity|].
  destruct (has c_tipo_cartucho df); reflexivity.
Qed.

(** X13. With a numeric price column and a category column, the mean
    stored on a line is the capped mean of the prices of exactly the
    lines that have a price and whose normalized category is the line's
    own; lines without a price enter no mean, and a category without any
    priced line has a missing mean. *)
Theorem stored_mean_is_group_mean (rt : runtime) (df : frame) (mx : float)
    (r' : row) :
  has c_preco df = true -> is_object c_preco df = false ->
  has c_tipo_cartucho df = true ->
  In r' (rows (create_price_features rt df c_preco c_tipo_cartucho mx)) ->
  preco_medio_categoria r'
  = VFloat (cap_average mx
              match prices_of_category rt (tipo_cartucho r') (rows df) with
              | [] => F64.nan
              | ps => group_mean rt ps
              end).
Proof. apply stored_mean. Qed.

(** X14. A category none of whose lines has a price gives its lines a
    missing mean and the deviation 0.0. *)
Theorem unpriced_category_has_no_mean (rt : runtime) (df : frame) (mx : float)
    (r' : row) :
  has c_preco df = true -> is_object c_preco df = false ->
  has c_tipo_cartucho df = true ->
  In r' (rows (create_price_features rt df c_preco c_tipo_cartucho mx)) ->
  (forall r, In r (rows df) ->
             value_eqb (tipo_cartucho r')
               (normalize_category rt (tipo_cartucho r)) = true ->
             notna (preco r) = false) ->
  preco_medio_categoria r' = VFloat F64.nan
  /\ desvio_preco_media_categoria r' = VFloat F64.zero.
Proof.
  intros Hp Ho Ht H Hall.
  assert (E : prices_of_category rt (tipo_cartucho r') (rows df) = []).
  { unfold prices_of_category.
    induction (rows df) as [|r rs IH]; [reflexivity|].
    cbn [filter].
    destruct (notna (preco r)
              && value_eqb (tipo_cartucho r')
                   (normalize_category rt (tipo_cartucho r))) eqn:C.
    - apply andb_true_iff in C as [C1 C2].
      rewrite (Hall r (or_introl eq_refl) C2) in C1. discriminate.
    - apply IH. intros x Hx. apply Hall. now right. }
  pose proof (stored_mean rt df mx r' Hp Ho Ht H) as M.
  rewrite E, cap_average_nan in M. split; [exact M|].
  destruct (price_features_line rt df mx r' H) as (x & Em & Ed).
  rewrite Ed. rewrite Em in M. injection M as M. rewrite M.
  f_equal. apply price_deviation_zero. right. now left.
Qed.

(** X15. Without a category column every line gets one and the same
    mean: the capped mean of all the prices that are present, missing
    when no price is present. *)
Theorem one_mean_without_categories (rt : runtime) (df : frame) (mx : float)
    (r' : row) :
  has c_preco df = true -> is_object c_preco df = false ->
  has c_tipo_cartucho df = false ->
  In r' (rows (create_price_features rt df c_preco c_tipo_cartucho mx)) ->
  let prices := map preco (rows df) in
  preco_medio_categoria r'
  = VFloat (cap_average mx
              (if existsb notna prices
               then series_mean rt (map num (filter notna prices))
               else F64.nan)).
Proof.
  intros Hp Ho Ht H. rewrite create_price_features_rows in H.
  apply in_map_iff in H as (r & <- & _).
  unfold features_row. rewrite Hp, Ho, Ht. reflexivity.
Qed.

(** X16. Without a price column, or with a price column that holds
    text, [create_price_features] gives up: every mean is missing, every
    deviation is 0.0, and the categories are left as they came, not
    normalized. *)
Theorem no_prices_no_statistics (rt : runtime) (df : frame) (mx : float) :
  has c_preco df = false \/ is_object c_preco df = true ->
  let out := create_price_features rt df c_preco c_tipo_cartucho mx in
  map tipo_cartucho (rows out) = map tipo_cartucho (rows df)
  /\ forall r', In r' (rows out) ->
       preco_medio_categoria r' = VFloat F64.nan
       /\ desvio_preco_media_categoria r' = VFloat F64.zero.
Proof.
  intros H. cbv zeta. rewrite create_price_features_rows.
  assert (E : negb (has c_preco df) || is_object c_preco df = true).
  { destruct H as [-> | ->]; [reflexivity | apply orb_true_r]. }
  split.
  - rewrite map_map. apply map_ext. intros r. unfold features_row.
    now rewrite E.
  - intros r' Hr. apply in_map_iff in Hr as (r & <- & _).
    unfold features_row. rewrite E. now split.
Qed.

Lemma sub_self (s : bool) (m : positive) (e : Z) :
  F64.sub (S754_finite s m e) (S754_finite s m e) = S754_zero false.
Proof.
  unfold F64.sub, SFsub. cbv zeta. rewrite Z.min_id. unfold shl_align.
  rewrite Z.sub_diag. cbn [fst]. rewrite ?Z.sub_diag. reflexivity.
Qed.

(** X17. A price equal to the mean of its category has the deviation
    0.0, for every finite positive mean. *)
Theorem price_at_the_mean (m : positive) (e : Z) :
  price_deviation (S754_finite false m e) (S754_finite false m e) = F64.zero.
Proof. unfold price_deviation. rewrite sub_self. reflexivity. Qed.

(* ================================================================= *)
(** ** The script as a whole, again *)

(** X18. The script needs the column of the seller and nothing else:
    without it the script stops on [KeyError]; with it, on a table of
    one line or more, the script ends, whatever the other columns are
    or hold, and leaves one line for each line of its input, in the
    same order, with the seller and the claim as they were. *)
Theorem main_needs_only_the_seller_column (rt : runtime) (df : frame) :
  (has c_vendedor df = false -> main rt df = Raise KeyError)
  /\ (has c_vendedor df = true -> rows df <> [] ->
      exists out,
        main rt df = Ok out
        /\ map (fun r => (vendedor r, originalidade r)) (rows out)
           = map (fun r => (vendedor r, originalidade r)) (rows df)).
Proof.
  split; [apply main_no_seller|].
  intros Hv Hne. destruct (main_ok rt df Hv Hne) as (out & E & Er & _).
  exists out. split; [exact E|].
  rewrite Er, map_map. apply map_ext. intros r.
  now rewrite result_row_cells.
Qed.

(** X19. Every line the script leaves holds a trust level among 1, 2 and
    3, a finite deviation, a mean that is missing or in (0, 5000.00],
    a label of [apply_rules] and, when the input has a price column, a
    price that is missing or at most 20000.00; the auxiliary column of
    the normalized claim is gone. *)
Theorem main_output_invariants (rt : runtime) (df out : frame) (r' : row) :
  main rt df = Ok out -> In r' (rows out) ->
  (exists z, seller_trust_level r' = VInt z /\ In z [1; 2; 3])
  /\ (exists d, desvio_preco_media_categoria r' = VFloat d
                /\ F64.is_finite d = true)
  /\ (exists m, preco_medio_categoria r' = VFloat m
                /\ (F64.is_nan m = true
                    \/ (F64.ltb F64.zero m = true
                        /\ F64.leb m MAX_PLAUSIBLE_PRICE_AVERAGE = true)))
  /\ (exists l, label_heuristico_calculado r' = VStr l /\ In l labels)
  /\ (has c_preco df = true ->
      exists p, preco r' = VFloat p
                /\ (F64.is_nan p = true
                    \/ F64.leb p MAX_PLAUSIBLE_PRICE_INDIVIDUAL = true))
  /\ originalidade_norm r' = VNone
  /\ has c_originalidade_norm out = false.
Proof.
  intros Hmain Hr.
  destruct (main_inv rt df out Hmain) as [Hv Hne].
  rewrite (main_labels_the_features rt df Hv) in Hmain.
  destruct (label_of_featured rt df Hne) as (out0 & E & Er & Eh).
  rewrite E in Hmain. injection Hmain as <-.
  rewrite Er in Hr. apply in_map_iff in Hr as (x & <- & Hx).
  destruct (prepared_returns_label rt (featured rt df) x Hx) as (l & El & Hl).
  { unfold featured in Hx.
    destruct (price_features_line _ _ _ _ Hx) as (y & _ & Ed). now rewrite Ed. }
  pose proof Hx as Hx'. unfold featured in Hx'.
  destruct (price_features_line _ _ _ _ Hx') as (y & Em & Ed).
  rewrite featured_rows in Hx. apply in_map_iff in Hx as (r & Ex & Hr).
  repeat split.
  - subst x. unfold labelled, prepared, features_row, trust_row.
    destruct (negb _ || _);
      [|destruct (has c_tipo_cartucho (trusted rt df))];
      (eexists; split; [reflexivity|apply get_trust_range]).
  - exists (price_deviation (num (preco x)) (cap_average MAX_PLAUSIBLE_PRICE_AVERAGE y)).
    split; [|apply price_deviation_finite].
    unfold labelled, prepared. cells. exact Ed.
  - exists (cap_average MAX_PLAUSIBLE_PRICE_AVERAGE y).
    split; [|apply cap_average_range].
    unfold labelled, prepared. cells. exact Em.
  - exists l. split; [|exact Hl].
    unfold labelled, returned. rewrite El. reflexivity.
  - intros Hp. subst x.
    unfold labelled, prepared, features_row, trust_row, price_row.
    rewrite Hp. unfold clean_price_cell.
    set (v := to_numeric rt _).
    exists (cap_price MAX_PLAUSIBLE_PRICE_INDIVIDUAL v).
    split; [|apply cap_price_range].
    destruct (negb _ || _); [reflexivity|].
    destruct (has c_tipo_cartucho (trusted rt df)); reflexivity.
  - rewrite Eh. cbn [column_eqb negb]. apply andb_false_r.
Qed.

(* ================================================================= *)
(** ** The steps and the rest of the table *)

(** X20. When [create_heuristic_label] returns on a table of one line
    or more, it has changed two cells of a line at most, the quality
    score and the label: the price, the seller, the category, the claim
    as it was typed, the trust level, the mean and the deviation are
    those of its input. The table has gained the columns of the quality
    score and of the label if it had not got them, and has no column of
    the normalized claim, not even one its input had. *)
Theorem heuristic_label_leaves_the_rest (rt : runtime) (df out : frame) :
  rows df <> [] ->
  create_heuristic_label rt df = Ok out ->
  map cells_beside_label (rows out) = map cells_beside_label (rows df)
  /\ forall c, has c out
               = (has c df || column_eqb c c_nota_qualidade
                  || column_eqb c c_label_heuristico_calculado)
                 && negb (column_eqb c c_originalidade_norm).
Proof.
  intros _ H.
  destruct (create_heuristic_label_inv rt df out H) as (Hne & Hd & Ht & Hl).
  destruct (create_heuristic_label_ok rt df Hne Hd Ht Hl) as (out' & E & Er & Eh).
  rewrite E in H. injection H as <-. split; [|exact Eh].
  rewrite Er, map_map. apply map_ext. intros r.
  unfold labelled, prepared. destruct r. reflexivity.
Qed.

(** X21. Called without a trust map, as its signature allows,
    [create_seller_trust_level] gives every seller the default level,
    whatever the name. *)
Theorem no_trust_map_gives_the_default (rt : runtime) (df out : frame)
    (seller_name_col : column) (default_trust : Z) :
  create_seller_trust_level rt df seller_name_col None default_trust = Ok out ->
  map seller_trust_level (rows out) = map (fun _ => VInt default_trust) (rows df).
Proof.
  unfold create_seller_trust_level.
  destruct (has seller_name_col df); [|discriminate].
  intros H. injection H as <-. unfold assign. cbn [rows].
  rewrite map_map. apply map_ext. intros r. cells.
  unfold get_trust. destruct (negb _); reflexivity.
Qed.

(* ================================================================= *)
(** ** The further properties on examples *)

(** A compatible product keeps its label under a suspect seller at half
    the mean; a product declared "pirata" keeps its label under a
    trusted seller. *)
Lemma declared_claims_of_examples :
  (py_eq_str (originalidade_norm compatible_low_price) s_compativel_claim = true
   /\ apply_rules compatible_low_price = Ok (lit "compativel"))
  /\ (py_in (originalidade_norm declared_pirata) not_original_claims = true
      /\ apply_rules declared_pirata = Ok (lit "nao_original_declarado")).
Proof.
  split; (split; [reflexivity|]).
  - apply (proj1 (declared_claims_decide compatible_low_price)). reflexivity.
  - apply (proj2 (declared_claims_decide declared_pirata)). reflexivity.
Defined.

(** At 60% under the mean and with the quality score 1, the product of
    a trusted seller is left for manual review. *)
Lemma trusted_seller_very_low_price_label :
  (py_eq_int (seller_trust_level trusted_seller_very_low_price) 3 = true
   /\ apply_rules trusted_seller_very_low_price
      = Ok (lit "avaliar_manual_original_preco_MUITO_baixo_vendedor_confiavel"))
  /\ says_pirata
       (lit "avaliar_manual_original_preco_MUITO_baixo_vendedor_confiavel")
     = false.
Proof.
  split; [split; vm_compute; reflexivity|].
  apply (trusted_seller_never_pirata trusted_seller_very_low_price);
    vm_compute; reflexivity.
Defined.

(** The quality score 1 changes nothing under a seller of trust
    level 2. *)
Lemma quality_of_neutral_seller :
  py_eq_int (seller_trust_level neutral_seller_gap) 1 = false
  /\ apply_rules (set c_nota_qualidade (VInt 1) neutral_seller_gap)
     = apply_rules neutral_seller_gap.
Proof.
  split; [reflexivity|].
  apply (quality_only_for_suspect_sellers neutral_seller_gap (VInt 1)).
  reflexivity.
Defined.

(** A line without deviation and scenario B, which has no quality
    score. *)
Lemma defaults_of_examples :
  (notna (desvio_preco_media_categoria suspect_seller_low_quality) = false
   /\ apply_rules suspect_seller_low_quality
      = apply_rules (set c_desvio_preco_media_categoria (VFloat F64.zero)
                       suspect_seller_low_quality))
  /\ (notna (nota_qualidade scenario_B) = false
      /\ apply_rules scenario_B
         = apply_rules (set c_nota_qualidade (VInt 3) scenario_B)).
Proof.
  split; (split; [reflexivity|]).
  - apply (proj1 (missing_cells_have_defaults suspect_seller_low_quality)).
    reflexivity.
  - apply (proj2 (missing_cells_have_defaults scenario_B)). reflexivity.
Defined.

(** Scenario B by its price; the same claim and seller, without
    deviation, by the quality score 1. *)
Lemma suspect_seller_examples :
  ((py_eq_str (originalidade_norm scenario_B) s_compativel_claim = false
    /\ py_in (originalidade_norm scenario_B) not_original_claims = false
    /\ py_eq_int (seller_trust_level scenario_B) 1 = true
    /\ py_lt (desvio_preco_media_categoria scenario_B) m0_40 = Ok true)
   /\ apply_rules scenario_B = Ok (lit "pirata_provavel_preco_vendedor_ruim"))
  /\ ((py_eq_str (originalidade_norm suspect_seller_low_quality)
         s_compativel_claim = false
       /\ py_in (originalidade_norm suspect_seller_low_quality)
            not_original_claims = false
       /\ py_eq_int (seller_trust_level suspect_seller_low_quality) 1 = true
       /\ py_lt (desvio_preco_media_categoria suspect_seller_low_quality) m0_40
          = Ok false
       /\ py_lt (nota_qualidade suspect_seller_low_quality) p2_5 = Ok true)
      /\ apply_rules suspect_seller_low_quality
         = Ok (lit "pirata_provavel_nota_vendedor_ruim")).
Proof.
  split; (split; [repeat split|]).
  - apply (proj1 (suspect_seller_signals_first scenario_B
                    eq_refl eq_refl eq_refl)). reflexivity.
  - apply (proj2 (suspect_seller_signals_first suspect_seller_low_quality
                    eq_refl eq_refl eq_refl)); reflexivity.
Defined.

(** The deviation -0.40 is in the middle band. *)
Lemma trusted_seller_low_price_label :
  (py_in (originalidade_norm trusted_seller_low_price) original_claims = true
   /\ py_eq_int (seller_trust_level trusted_seller_low_price) 3 = true
   /\ desvio_preco_media_categoria trusted_seller_low_price = VFloat m0_40
   /\ F64.is_nan m0_40 = false)
  /\ apply_rules trusted_seller_low_price
     = Ok (lit "avaliar_manual_original_preco_baixo_vendedor_confiavel").
Proof.
  split; [repeat split|].
  exact (trusted_seller_original_bands trusted_seller_low_price m0_40
           eq_refl eq_refl eq_refl eq_refl).
Defined.

(** The claim "recondicionado" under a trusted seller. *)
Lemma unrecognized_claim_label :
  (py_eq_str (originalidade_norm unrecognized_claim) s_compativel_claim = false
   /\ py_in (originalidade_norm unrecognized_claim) not_original_claims = false
   /\ py_in (originalidade_norm unrecognized_claim) original_claims = false
   /\ py_in (originalidade_norm unrecognized_claim) unknown_claims = false
   /\ py_eq_int (seller_trust_level unrecognized_claim) 1 = false
   /\ py_eq_int (seller_trust_level unrecognized_claim) 2 = false)
  /\ apply_rules unrecognized_claim
     = Ok (lit "avaliar_manual_geral_sem_classificacao_clara").
Proof.
  split; [repeat split|].
  apply (unrecognized_claim_falls_back unrecognized_claim); reflexivity.
Defined.

(** "1.234" is read as 1234 and "89.90" as 89.90. *)
Lemma period_examples :
  ((forallb ascii_digit (lit "1") = true /\ forallb ascii_digit (lit "234") = true)
   /\ clean_price_text Reference.rt (lit "1.234") = lit "1234")
  /\ ((forallb ascii_digit (lit "89") = true /\ forallb ascii_digit (lit "90") = true)
      /\ clean_price_text Reference.rt (lit "89.90") = lit "89.90").
Proof.
  split; (split; [split; reflexivity|]).
  - exact (period_without_comma Reference.rt (lit "1") (lit "234") eq_refl eq_refl).
  - exact (period_without_comma Reference.rt (lit "89") (lit "90") eq_refl eq_refl).
Defined.

(** The two products without a category share the mean 200.00 of their
    prices, 100.00 and 300.00. *)
Lemma stored_mean_of_example :
  let df := trusted Reference.rt df_missing_categories in
  let r' := line 0 (featured Reference.rt df_missing_categories) in
  (has c_preco df = true /\ is_object c_preco df = false
   /\ has c_tipo_cartucho df = true
   /\ In r' (rows (featured Reference.rt df_missing_categories)))
  /\ prices_of_category Reference.rt (tipo_cartucho r') (rows df)
     = [F64.of_Z 100; F64.of_Z 300]
  /\ preco_medio_categoria r' = VFloat (F64.of_Z 200).
Proof.
  cbv zeta.
  assert (H : In (line 0 (featured Reference.rt df_missing_categories))
                 (rows (featured Reference.rt df_missing_categories)))
    by (vm_compute; left; reflexivity).
  split; [repeat split; try exact H; vm_compute; reflexivity|].
  split; [vm_compute; reflexivity|].
  rewrite (stored_mean_is_group_mean Reference.rt
             (trusted Reference.rt df_missing_categories)
             MAX_PLAUSIBLE_PRICE_AVERAGE _ eq_refl eq_refl eq_refl H).
  vm_compute. reflexivity.
Defined.

(** The category "122" has one product, whose price is no number. *)
Lemma unpriced_category_of_example :
  let df := trusted Reference.rt df_unpriced_category in
  let r' := line 1 (featured Reference.rt df_unpriced_category) in
  (has c_preco df = true /\ is_object c_preco df = false
   /\ has c_tipo_cartucho df = true
   /\ In r' (rows (featured Reference.rt df_unpriced_category))
   /\ forall r, In r (rows df) ->
                value_eqb (tipo_cartucho r')
                  (normalize_category Reference.rt (tipo_cartucho r)) = true ->
                notna (preco r) = false)
  /\ preco_medio_categoria r' = VFloat F64.nan
  /\ desvio_preco_media_categoria r' = VFloat F64.zero.
Proof.
  cbv zeta.
  assert (H : In (line 1 (featured Reference.rt df_unpriced_category))
                 (rows (featured Reference.rt df_unpriced_category)))
    by (vm_compute; right; left; reflexivity).
  assert (N : forall r, In r (rows (trusted Reference.rt df_unpriced_category)) ->
                value_eqb (tipo_cartucho
                             (line 1 (featured Reference.rt df_unpriced_category)))
                  (normalize_category Reference.rt (tipo_cartucho r)) = true ->
                notna (preco r) = false).
  { intros r Hr. vm_compute in Hr. destruct Hr as [<-|[<-|[]]];
      vm_compute; intros E; first [reflexivity | discriminate E]. }
  split; [repeat split; try exact H; try exact N; vm_compute; reflexivity|].
  exact (unpriced_category_has_no_mean Reference.rt
           (trusted Reference.rt df_unpriced_category)
           MAX_PLAUSIBLE_PRICE_AVERAGE _ eq_refl eq_refl eq_refl H N).
Defined.

(** Without the column of the category the two products share the mean
    200.00. *)
Lemma one_mean_of_example :
  let df := trusted Reference.rt df_no_category_column in
  let r' := line 1 (featured Reference.rt df_no_category_column) in
  (has c_preco df = true /\ is_object c_preco df = false
   /\ has c_tipo_cartucho df = false
   /\ In r' (rows (featured Reference.rt df_no_category_column)))
  /\ preco_medio_categoria r' = VFloat (F64.of_Z 200).
Proof.
  cbv zeta.
  assert (H : In (line 1 (featured Reference.rt df_no_category_column))
                 (rows (featured Reference.rt df_no_category_column)))
    by (vm_compute; right; left; reflexivity).
  split; [repeat split; try exact H; vm_compute; reflexivity|].
  rewrite (one_mean_without_categories Reference.rt
             (trusted Reference.rt df_no_category_column)
             MAX_PLAUSIBLE_PRICE_AVERAGE _ eq_refl eq_refl eq_refl H).
  vm_compute. reflexivity.
Defined.

(** A table without the column of the price. *)
Lemma no_prices_of_example :
  has c_preco df_for_classifier = false
  /\ let out := create_price_features Reference.rt df_for_classifier
                  c_preco c_tipo_cartucho MAX_PLAUSIBLE_PRICE_AVERAGE in
     map tipo_cartucho (rows out) = map tipo_cartucho (rows df_for_classifier)
     /\ forall r', In r' (rows out) ->
          preco_medio_categoria r' = VFloat F64.nan
          /\ desvio_preco_media_categoria r' = VFloat F64.zero.
Proof.
  split; [reflexivity|].
  apply (no_prices_no_statistics Reference.rt df_for_classifier
           MAX_PLAUSIBLE_PRICE_AVERAGE).
  left. reflexivity.
Defined.

(** The table for the classifier has no column of the seller; the table
    of the two products without a category has one. *)
Lemma seller_column_of_examples :
  (has c_vendedor df_for_classifier = false
   /\ main Reference.rt df_for_classifier = Raise KeyError)
  /\ ((has c_vendedor df_missing_categories = true
       /\ rows df_missing_categories <> [])
      /\ exists out,
           main Reference.rt df_missing_categories = Ok out
           /\ map (fun r => (vendedor r, originalidade r)) (rows out)
              = map (fun r => (vendedor r, originalidade r))
                    (rows df_missing_categories)).
Proof.
  split; (split; [first [reflexivity | split; [reflexivity|discriminate]]|]).
  - apply (proj1 (main_needs_only_the_seller_column Reference.rt df_for_classifier)).
    reflexivity.
  - apply (proj2 (main_needs_only_the_seller_column Reference.rt
                    df_missing_categories)); [reflexivity|discriminate].
Defined.

(** The second line the script leaves for the table without the column
    of the category. *)
Lemma main_output_of_example :
  exists out,
    (main Reference.rt df_no_category_column = Ok out
     /\ In (line 1 out) (rows out))
    /\ derived_cells (line 1 out)
       = (VNone, VInt 1, VFloat (F64.of_Z 200), VFloat (F64.ratio 50 100),
          VStr (lit "avaliar_manual_orig_desconhecida_vendedor_suspeito"))
    /\ (exists z, seller_trust_level (line 1 out) = VInt z /\ In z [1; 2; 3])
    /\ (exists d, desvio_preco_media_categoria (line 1 out) = VFloat d
                  /\ F64.is_finite d = true)
    /\ (exists l, label_heuristico_calculado (line 1 out) = VStr l
                  /\ In l labels).
Proof.
  destruct (main Reference.rt df_no_category_column) as [out|e] eqn:E;
    [|vm_compute in E; discriminate E].
  exists out.
  assert (Eo : Ok out = main Reference.rt df_no_category_column)
    by (symmetry; exact E).
  vm_compute in Eo. injection Eo as Eo.
  assert (H : In (line 1 out) (rows out))
    by (rewrite Eo; vm_compute; right; left; reflexivity).
  split; [split; [reflexivity|exact H]|].
  split; [rewrite Eo; vm_compute; reflexivity|].
  destruct (main_output_invariants Reference.rt df_no_category_column out _ E H)
    as (Ht & Hd & _ & Hl & _).
  split; [exact Ht|]. split; [exact Hd|exact Hl].
Defined.

(** The classifier leaves the claims of its table as they were typed. *)
Lemma heuristic_label_of_example :
  exists out,
    (rows df_for_classifier <> []
     /\ create_heuristic_label Reference.rt df_for_classifier = Ok out)
    /\ map originalidade (rows out)
       = [VStr (lit " Original "); VFloat F64.nan; VStr (lit "Pirata")]
    /\ map cells_beside_label (rows out)
       = map cells_beside_label (rows df_for_classifier)
    /\ has c_originalidade_norm out = false.
Proof.
  destruct (create_heuristic_label Reference.rt df_for_classifier)
    as [out|e] eqn:E; [|vm_compute in E; discriminate E].
  assert (N : rows df_for_classifier <> []) by discriminate.
  exists out. split; [split; [exact N|reflexivity]|].
  destruct (heuristic_label_leaves_the_rest Reference.rt df_for_classifier out N E)
    as (Hc & Hh).
  split; [|split; [exact Hc|rewrite Hh; reflexivity]].
  assert (Eo : Ok out = create_heuristic_label Reference.rt df_for_classifier)
    by (symmetry; exact E).
  vm_compute in Eo. injection Eo as ->. reflexivity.
Defined.

(** Without a map, "KABUM" and "INKCOR" are given the default level. *)
Lemma no_trust_map_of_example :
  exists out,
    create_seller_trust_level Reference.rt df_no_category_column c_vendedor
      None DEFAULT_SELLER_TRUST = Ok out
    /\ map seller_trust_level (rows out) = [VInt 1; VInt 1].
Proof.
  eexists. split; [reflexivity|].
  apply (no_trust_map_gives_the_default Reference.rt df_no_category_column _
           c_vendedor DEFAULT_SELLER_TRUST).
  reflexivity.
Defined.
